(** * A shallow embedding of the TanStack Router sitemap generator

    The development follows [src/generator.ts]: the string helpers of the
    JavaScript runtime that the generator calls, the data of [src/types.ts],
    the methods of [TanStackRouterSitemapGenerator] in source order, and then
    the properties of the route flattener, the entry resolver and the XML
    renderer.

    Conventions of the model.
    - A JavaScript string is a [string]: a sequence of code units, here the
      units [0..255].
    - A JavaScript number is the exact rational value of a finite double
      ([Q]); [NaN] and the infinities are not represented.
    - A method that can throw, or whose behaviour leaves what is modelled
      (regular expressions beyond a small fragment), returns an [outcome]. *)

From Stdlib Require Import ZArith QArith Lia.
From Stdlib Require Import Ascii String DecimalString.
From stdpp Require Import base option list strings gmap.

Close Scope Q_scope.
Local Open Scope bool_scope.

(** ** Outcomes of fallible methods *)

Inductive outcome (A : Type) : Type :=
| Ok (a : A)
| Thrown (msg : string)
| OutsideModel.

Arguments Ok {A} a.
Arguments Thrown {A} msg.
Arguments OutsideModel {A}.

Definition obind {A B : Type} (m : outcome A) (k : A -> outcome B) : outcome B :=
  match m with
  | Ok a => k a
  | Thrown msg => Thrown msg
  | OutsideModel => OutsideModel
  end.

Notation "'let*' x ':=' m 'in' k" := (obind m (fun x => k))
  (at level 10, x pattern, m at level 100, k at level 200).

(** ** The string methods of the runtime used by the generator *)

Module Js.

(** [s] is truthy: a string is falsy exactly when it is empty. *)
Definition truthy (s : string) : bool := negb (String.eqb s "").

(** [s.includes(c)] for a one-character needle. *)
Fixpoint includes (s : string) (c : ascii) : bool :=
  match s with
  | EmptyString => false
  | String a s' => Ascii.eqb a c || includes s' c
  end.

(** [s.startsWith(p)]. *)
Definition startsWith (s p : string) : bool := String.prefix p s.

(** [s.endsWith(suf)]: some tail of [s] is [suf]. *)
Fixpoint endsWith (s suf : string) : bool :=
  String.eqb s suf ||
  match s with
  | EmptyString => false
  | String _ s' => endsWith s' suf
  end.

(** [s.slice(0, -n)]. *)
Definition slice_to_minus (n : nat) (s : string) : string :=
  String.substring 0 (String.length s - n) s.

(** [s.replace(/c/g, r)] for a one-character pattern and a replacement
    without [$]. *)
Fixpoint replace_all (c : ascii) (r : string) (s : string) : string :=
  match s with
  | EmptyString => EmptyString
  | String a s' =>
      if Ascii.eqb a c then r +:+ replace_all c r s'
      else String a (replace_all c r s')
  end.

(** [s.replace(/c+/g, r)]: every maximal run of [c] becomes one [r]. *)
Fixpoint replace_runs (c : ascii) (r : string) (s : string) : string :=
  match s with
  | EmptyString => EmptyString
  | String a s' =>
      if Ascii.eqb a c then
        match s' with
        | String b _ =>
            if Ascii.eqb b c then replace_runs c r s'
            else r +:+ replace_runs c r s'
        | EmptyString => r
        end
      else String a (replace_runs c r s')
  end.

(** [s.replace(/\/$/, '')]: drops one final slash. *)
Fixpoint strip_trailing_slash (s : string) : string :=
  match s with
  | EmptyString => EmptyString
  | String a EmptyString => if Ascii.eqb a "/" then EmptyString else s
  | String a s' => String a (strip_trailing_slash s')
  end.

(** White space and line terminators, as [trim] sees them, among the units
    [0..255]: TAB, LF, VT, FF, CR, SPACE and NBSP. *)
Definition is_white (a : ascii) : bool :=
  match a with
  | "009" | "010" | "011" | "012" | "013" | " " | "160" => true
  | _ => false
  end%char.

Fixpoint trimStart (s : string) : string :=
  match s with
  | EmptyString => EmptyString
  | String a s' => if is_white a then trimStart s' else s
  end.

Fixpoint trimEnd (s : string) : string :=
  match s with
  | EmptyString => EmptyString
  | String a s' =>
      match trimEnd s' with
      | EmptyString => if is_white a then EmptyString else String a EmptyString
      | t => String a t
      end
  end.

Definition trim (s : string) : string := trimEnd (trimStart s).

(** [x.toFixed(1)] for a finite [x] of magnitude below [10^21]: the sign,
    then the integer [n] nearest to [10 * |x|] (the larger one on a tie)
    written with one digit after the point. *)
Definition digits (n : Z) : string := NilZero.string_of_uint (N.to_uint (Z.to_N n)).

Definition nearest_tenths (x : Q) : Z :=
  let a := Z.abs (Qnum x) in
  let d := Z.pos (Qden x) in
  ((20 * a + d) / (2 * d))%Z.

Definition toFixed1 (x : Q) : string :=
  let n := nearest_tenths x in
  (if (Qnum x <? 0)%Z then "-" else "") +:+
  digits (n / 10)%Z +:+ "." +:+ digits (n mod 10)%Z.

End Js.

(** ** The fragment of regular expressions that is modelled

    [isExcludedRoute] builds the source of a regular expression from an
    exclusion pattern and hands it to [new RegExp]. The model covers the
    sources [^ x1 ... xn $] where each [xi] is an ordinary character or [.],
    possibly followed by [*]. Any other syntax character puts the source
    outside the model: the engine would either reject it with a SyntaxError
    or give it a meaning that is not modelled here. *)

Module RegExp.

Inductive cls : Type :=
| Lit (c : ascii)
| Dot.

Inductive item : Type :=
| One (k : cls)
| Star (k : cls).

Definition is_syntax_char (c : ascii) : bool :=
  Js.includes "^$\.*+?()[]{}|" c.

Definition cls_of (c : ascii) : option cls :=
  if Ascii.eqb c "." then Some Dot
  else if is_syntax_char c then None
  else Some (Lit c).

(** The part of the source after [^], up to and including the final [$]. *)
Fixpoint parse_body (src : string) : option (list item) :=
  match src with
  | EmptyString => None
  | String c rest =>
      match rest with
      | EmptyString => if Ascii.eqb c "$" then Some [] else None
      | String d rest' =>
          match cls_of c with
          | None => None
          | Some k =>
              if Ascii.eqb d "*" then
                match parse_body rest' with
                | Some r => Some (Star k :: r)
                | None => None
                end
              else
                match parse_body rest with
                | Some r => Some (One k :: r)
                | None => None
                end
          end
      end
  end.

Definition parse (src : string) : option (list item) :=
  match src with
  | String c body => if Ascii.eqb c "^" then parse_body body else None
  | EmptyString => None
  end.

(** [.] matches every code unit but the line terminators LF and CR. *)
Definition cls_matches (k : cls) (a : ascii) : bool :=
  match k with
  | Lit c => Ascii.eqb a c
  | Dot => negb (Ascii.eqb a "010" || Ascii.eqb a "013")
  end.

(** The whole of [s] is matched by the items, in order. *)
Fixpoint matches (r : list item) (s : string) : bool :=
  match r with
  | [] => negb (Js.truthy s)
  | One k :: r' =>
      match s with
      | String a s' => cls_matches k a && matches r' s'
      | EmptyString => false
      end
  | Star k :: r' =>
      (fix star (s : string) : bool :=
         matches r' s ||
         match s with
         | String a s' => cls_matches k a && star s'
         | EmptyString => false
         end) s
  end.

(** [new RegExp(src).test(s)]. *)
Definition test (src s : string) : outcome bool :=
  match parse src with
  | Some r => Ok (matches r s)
  | None => OutsideModel
  end.

End RegExp.

(** ** The data of [src/types.ts] *)

(** A JavaScript number, see the conventions above. *)
Definition number : Type := Q.

(** A number is falsy exactly when it is zero. *)
Definition number_truthy (x : number) : bool := negb (Qnum x =? 0)%Z.

(** [SitemapEntry['changefreq']] *)
Inductive Changefreq : Type :=
| always | hourly | daily | weekly | monthly | yearly | never.

Definition changefreq_string (c : Changefreq) : string :=
  match c with
  | always => "always"
  | hourly => "hourly"
  | daily => "daily"
  | weekly => "weekly"
  | monthly => "monthly"
  | yearly => "yearly"
  | never => "never"
  end.

(** [SitemapEntry]: an optional field is [None] when it is [undefined]. *)
Module SitemapEntry.
Record t : Type := mk {
  url : string;
  lastmod : option string;
  changefreq : option Changefreq;
  priority : option number
}.
End SitemapEntry.

(** [Partial<SitemapEntry>], the type of a [routeOptions] value. *)
Module PartialEntry.
Record t : Type := mk {
  url : option string;
  lastmod : option string;
  changefreq : option Changefreq;
  priority : option number
}.
Definition empty : t := mk None None None None.
End PartialEntry.

(** [RouteInfo] as the generator builds it (it never sets [children]). *)
Module RouteInfo.
Record t : Type := mk {
  path : string;
  includedInSitemap : bool;
  sitemapOptions : PartialEntry.t
}.
End RouteInfo.

(** [TanStackRoute]: the generator reads [path] and [children] only; absent
    [children] are the empty list. A node is an object: the guard
    [if (!route) return routes] of [extractRoutesFromTree] never fires on a
    value of this type. *)
#[warnings="-register-all"] Inductive TanStackRoute : Type :=
| Route (path : option string) (children : list TanStackRoute).

(** A [Date]: either a valid instant, given by its [toISOString()], or an
    invalid date, on which [toISOString()] throws a RangeError. *)
Inductive JsDate : Type :=
| ValidDate (iso : string)
| InvalidDate.

Inductive LastMod : Type :=
| LastModString (s : string)
| LastModDate (d : JsDate).

Module ManualSitemapEntry.
Record t : Type := mk {
  location : string;
  priority : option number;
  lastMod : option LastMod;
  changeFrequency : option Changefreq
}.
End ManualSitemapEntry.

(** The [manualRoutes] provider. What it yields may depend on the world
    outside the program at the time of the call (a database, the network,
    the clock): [World] stands for that state. The provider returns an array,
    returns a promise that resolves to one, throws, or returns a promise
    that rejects. *)
Definition World : Type := nat.

Inductive ProviderResult : Type :=
| Returns (routes : list ManualSitemapEntry.t)
| Resolves (routes : list ManualSitemapEntry.t)
| Throws (error : string)
| Rejects (error : string).

Definition Provider : Type := World -> ProviderResult.

(** A key of the options object passed to the constructor: absent, present
    with the value [undefined], or present with a value. *)
Inductive field (A : Type) : Type :=
| Absent
| Undefined
| Value (a : A).

Arguments Absent {A}.
Arguments Undefined {A}.
Arguments Value {A} a.

(** [{ default: d, ...options }] read at one key. *)
Definition spread {A : Type} (d : A) (f : field A) : option A :=
  match f with
  | Absent => Some d
  | Undefined => None
  | Value a => Some a
  end.

(** [SitemapOptions]. [excludeRoutes] and [routeOptions] are absent or
    given; an explicit [undefined] for these two keys is not represented. *)
Module SitemapOptions.
Record t : Type := mk {
  baseUrl : option string;
  defaultChangefreq : field Changefreq;
  defaultPriority : field number;
  excludeRoutes : option (list string);
  routeOptions : option (gmap string PartialEntry.t);
  trailingSlash : field bool;
  lastmod : field string;
  prettyPrint : field bool;
  manualRoutes : option Provider
}.
End SitemapOptions.

(** [this.options], the options with the defaults filled in. *)
Module Options.
Record t : Type := mk {
  baseUrl : string;
  defaultChangefreq : option Changefreq;
  defaultPriority : option number;
  excludeRoutes : list string;
  routeOptions : gmap string PartialEntry.t;
  trailingSlash : option bool;
  lastmod : option string;
  prettyPrint : option bool;
  manualRoutes : option Provider
}.
End Options.

(** [a || b] on optional strings, numbers and enumeration values. *)
Definition or_string (a b : option string) : option string :=
  match a with
  | Some s => if Js.truthy s then a else b
  | None => b
  end.

Definition or_number (a b : option number) : option number :=
  match a with
  | Some x => if number_truthy x then a else b
  | None => b
  end.

Definition or_changefreq (a b : option Changefreq) : option Changefreq :=
  match a with
  | Some c => if Js.truthy (changefreq_string c) then a else b
  | None => b
  end.

(** An optional boolean used as a condition. *)
Definition cond (b : option bool) : bool := default false b.

(** ** [TanStackRouterSitemapGenerator], method by method *)

(** The constructor. [now] is the value of [new Date().toISOString()] at the
    time of the call. *)
Definition constructor (options : SitemapOptions.t) (now : string) : outcome Options.t :=
  match SitemapOptions.baseUrl options with
  | None => Thrown "baseUrl is required and cannot be empty"
  | Some base =>
      if negb (Js.truthy base) || String.eqb (Js.trim base) "" then
        Thrown "baseUrl is required and cannot be empty"
      else
        Ok {| Options.baseUrl := base;
              Options.defaultChangefreq := spread weekly (SitemapOptions.defaultChangefreq options);
              Options.defaultPriority := spread (1 # 2)%Q (SitemapOptions.defaultPriority options);
              Options.excludeRoutes := default [] (SitemapOptions.excludeRoutes options);
              Options.routeOptions := default ∅ (SitemapOptions.routeOptions options);
              Options.trailingSlash := spread false (SitemapOptions.trailingSlash options);
              Options.lastmod := spread now (SitemapOptions.lastmod options);
              Options.prettyPrint := spread true (SitemapOptions.prettyPrint options);
              Options.manualRoutes := SitemapOptions.manualRoutes options |}
  end.

Definition isDynamicRoute (routePath : string) : bool :=
  Js.includes routePath "$" || Js.includes routePath "[" || Js.includes routePath "]".

Definition buildFullPath (parentPath routePath : string) : string :=
  if Js.startsWith routePath "/" then routePath
  else if isDynamicRoute routePath then ""
  else if negb (Js.truthy routePath) || String.eqb routePath "index" then
    (if Js.truthy parentPath then parentPath else "/")
  else if String.eqb routePath "__root__" then ""
  else
    let fullPath :=
      if String.eqb parentPath "/" then "/" +:+ routePath
      else parentPath +:+ "/" +:+ routePath in
    Js.replace_runs "/" "/" fullPath.

(** The callback of [excludeRoutes.some] in [isExcludedRoute]. *)
Definition matchesExclude (path excludePath : string) : outcome bool :=
  if Js.includes excludePath "*" then
    let pattern := Js.replace_all "?" "." (Js.replace_runs "*" ".*" excludePath) in
    let basePath := Js.slice_to_minus 2 excludePath in
    if Js.endsWith excludePath "/*"
       && (String.eqb path basePath || Js.startsWith path (basePath +:+ "/"))
    then Ok true
    else RegExp.test ("^" +:+ pattern +:+ "$") path
  else Ok (String.eqb path excludePath).

(** [array.some(f)]: stops at the first element on which [f] holds. *)
Fixpoint some {A : Type} (f : A -> outcome bool) (l : list A) : outcome bool :=
  match l with
  | [] => Ok false
  | x :: l' =>
      let* b := f x in
      if b then Ok true else some f l'
  end.

Definition isExcludedRoute (this : Options.t) (path : string) : outcome bool :=
  some (matchesExclude path) (Options.excludeRoutes this).

(** [routeOptions[fullPath] || {}] *)
Definition routeOptionsAt (this : Options.t) (fullPath : string) : PartialEntry.t :=
  default PartialEntry.empty (Options.routeOptions this !! fullPath).

Fixpoint extractRoutesFromTree (this : Options.t) (route : TanStackRoute)
    (parentPath : string) {struct route} : outcome (list RouteInfo.t) :=
  match route with
  | Route path children =>
      let routePath := default "" path in
      let fullPath := buildFullPath parentPath routePath in
      let* own :=
        (if Js.truthy fullPath && negb (isDynamicRoute routePath) then
           let* excluded := isExcludedRoute this fullPath in
           if excluded then Ok []
           else Ok [ {| RouteInfo.path := fullPath;
                        RouteInfo.includedInSitemap := true;
                        RouteInfo.sitemapOptions := routeOptionsAt this fullPath |} ]
         else Ok []) in
      let* below :=
        (fix each (cs : list TanStackRoute) : outcome (list RouteInfo.t) :=
           match cs with
           | [] => Ok []
           | childRoute :: cs' =>
               let* sub := extractRoutesFromTree this childRoute fullPath in
               let* rest := each cs' in
               Ok (sub ++ rest)
           end) children in
      Ok (own ++ below)
  end.

(** The [for] loop over [route.children], on its own. *)
Definition extractEach (this : Options.t) (fullPath : string)
    : list TanStackRoute -> outcome (list RouteInfo.t) :=
  fix each (cs : list TanStackRoute) : outcome (list RouteInfo.t) :=
    match cs with
    | [] => Ok []
    | childRoute :: cs' =>
        let* sub := extractRoutesFromTree this childRoute fullPath in
        let* rest := each cs' in
        Ok (sub ++ rest)
    end.

(** The descriptor pushed for a node that qualifies. *)
Definition descriptor (this : Options.t) (fullPath : string) : RouteInfo.t :=
  {| RouteInfo.path := fullPath;
     RouteInfo.includedInSitemap := true;
     RouteInfo.sitemapOptions := routeOptionsAt this fullPath |}.

Definition buildFullUrl (this : Options.t) (path : string) : string :=
  let baseUrl := Js.strip_trailing_slash (Options.baseUrl this) in
  let fullPath :=
    if cond (Options.trailingSlash this)
       && negb (Js.endsWith path "/") && negb (String.eqb path "/")
    then path +:+ "/" else path in
  baseUrl +:+ fullPath.

Definition createSitemapEntry (this : Options.t) (route : RouteInfo.t) : SitemapEntry.t :=
  let o := RouteInfo.sitemapOptions route in
  {| SitemapEntry.url := buildFullUrl this (RouteInfo.path route);
     SitemapEntry.lastmod := or_string (PartialEntry.lastmod o) (Options.lastmod this);
     SitemapEntry.changefreq :=
       or_changefreq (PartialEntry.changefreq o) (Options.defaultChangefreq this);
     SitemapEntry.priority :=
       or_number (PartialEntry.priority o) (Options.defaultPriority this) |}.

Definition toISOString (d : JsDate) : outcome string :=
  match d with
  | ValidDate iso => Ok iso
  | InvalidDate => Thrown "RangeError: Invalid time value"
  end.

Definition createManualSitemapEntry (this : Options.t) (route : ManualSitemapEntry.t)
    : outcome SitemapEntry.t :=
  let url := buildFullUrl this (ManualSitemapEntry.location route) in
  let* lastmod :=
    match ManualSitemapEntry.lastMod route with
    | Some (LastModDate d) => let* iso := toISOString d in Ok (Some iso)
    | Some (LastModString s) => if Js.truthy s then Ok (Some s) else Ok None
    | None => Ok None
    end in
  Ok {| SitemapEntry.url := url;
        SitemapEntry.lastmod := or_string lastmod (Options.lastmod this);
        SitemapEntry.changefreq :=
          or_changefreq (ManualSitemapEntry.changeFrequency route)
                        (Options.defaultChangefreq this);
        SitemapEntry.priority :=
          match ManualSitemapEntry.priority route with
          | Some p => Some p
          | None => Options.defaultPriority this
          end |}.

(** [routes.filter(route => !this.isExcludedRoute(route.location))] *)
Fixpoint filterNotExcluded (this : Options.t) (routes : list ManualSitemapEntry.t)
    : outcome (list ManualSitemapEntry.t) :=
  match routes with
  | [] => Ok []
  | route :: routes' =>
      let* excluded := isExcludedRoute this (ManualSitemapEntry.location route) in
      let* rest := filterNotExcluded this routes' in
      Ok (if excluded then rest else route :: rest)
  end.

(** [routes.map(route => this.createManualSitemapEntry(route))] *)
Fixpoint mapManual (this : Options.t) (routes : list ManualSitemapEntry.t)
    : outcome (list SitemapEntry.t) :=
  match routes with
  | [] => Ok []
  | route :: routes' =>
      let* entry := createManualSitemapEntry this route in
      let* rest := mapManual this routes' in
      Ok (entry :: rest)
  end.

(** One call of [console.warn(message, error)]. *)
Definition warning (error : string) : string * string :=
  ("Warning: Failed to generate manual routes:", error).

(** The entries and the lines written to the console. Whatever is thrown
    inside the [try] is caught. *)
Definition generateManualRoutes (this : Options.t) (w : World)
    : outcome (list SitemapEntry.t * list (string * string)) :=
  match Options.manualRoutes this with
  | None => Ok ([], [])
  | Some provider =>
      let attempt :=
        match provider w with
        | Returns routes | Resolves routes =>
            let* kept := filterNotExcluded this routes in
            mapManual this kept
        | Throws error | Rejects error => Thrown error
        end in
      match attempt with
      | Ok entries => Ok (entries, [])
      | Thrown error => Ok ([], [warning error])
      | OutsideModel => OutsideModel
      end
  end.

(** [array.findIndex(f)], [-1] when no element satisfies [f]. *)
Fixpoint findIndexFrom {A : Type} (f : A -> bool) (i : Z) (l : list A) : Z :=
  match l with
  | [] => (-1)%Z
  | x :: l' => if f x then i else findIndexFrom f (i + 1)%Z l'
  end.

Definition findIndex {A : Type} (f : A -> bool) (l : list A) : Z :=
  findIndexFrom f 0%Z l.

(** [array.filter((x, index, self) => f(x, index, self))], from position [i]. *)
Fixpoint filterFrom {A : Type} (f : A -> Z -> bool) (i : Z) (l : list A) : list A :=
  match l with
  | [] => []
  | x :: l' =>
      if f x i then x :: filterFrom f (i + 1)%Z l' else filterFrom f (i + 1)%Z l'
  end.

(** The callback [(r) => r.path === route.path] of [findIndex]. *)
Definition samePath (route : RouteInfo.t) : RouteInfo.t -> bool :=
  fun r => String.eqb (RouteInfo.path r) (RouteInfo.path route).

Definition uniqueRoutes (routes : list RouteInfo.t) : list RouteInfo.t :=
  filterFrom
    (fun route index =>
       RouteInfo.includedInSitemap route &&
       (findIndex (samePath route) routes =? index)%Z)
    0%Z routes.

Definition generateSitemapEntries (this : Options.t) (w : World) (routeTree : TanStackRoute)
    : outcome (list SitemapEntry.t * list (string * string)) :=
  let* routes := extractRoutesFromTree this routeTree "" in
  let staticEntries := map (createSitemapEntry this) (uniqueRoutes routes) in
  let* (manualEntries, console) := generateManualRoutes this w in
  Ok (staticEntries ++ manualEntries, console).

(** The double quote and the line feed, as one-character strings. *)
Definition dquote : string := String "034"%char "".
Definition LF : string := String "010"%char "".

Definition escapeXml (text : string) : string :=
  Js.replace_all "'" "&apos;"
    (Js.replace_all "034" "&quot;"
       (Js.replace_all ">" "&gt;"
          (Js.replace_all "<" "&lt;"
             (Js.replace_all "&" "&amp;" text)))).

Definition xmlDeclaration : string :=
  "<?xml version=" +:+ dquote +:+ "1.0" +:+ dquote +:+
  " encoding=" +:+ dquote +:+ "UTF-8" +:+ dquote +:+ "?>".

Definition urlsetOpen : string :=
  "<urlset xmlns=" +:+ dquote +:+
  "http://www.sitemaps.org/schemas/sitemap/0.9" +:+ dquote +:+ ">".

(** The body of the [for] loop of [entriesToXml]: [xml] after one entry. *)
Definition appendEntry (indent newline : string) (xml : string) (entry : SitemapEntry.t)
    : string :=
  let xml := xml +:+ (indent +:+ "<url>" +:+ newline) in
  let xml :=
    xml +:+ (indent +:+ indent +:+ "<loc>" +:+ escapeXml (SitemapEntry.url entry)
             +:+ "</loc>" +:+ newline) in
  let xml :=
    match SitemapEntry.lastmod entry with
    | Some lastmod =>
        if Js.truthy lastmod then
          xml +:+ (indent +:+ indent +:+ "<lastmod>" +:+ lastmod +:+ "</lastmod>" +:+ newline)
        else xml
    | None => xml
    end in
  let xml :=
    match SitemapEntry.changefreq entry with
    | Some changefreq =>
        if Js.truthy (changefreq_string changefreq) then
          xml +:+ (indent +:+ indent +:+ "<changefreq>" +:+ changefreq_string changefreq
                   +:+ "</changefreq>" +:+ newline)
        else xml
    | None => xml
    end in
  let xml :=
    match SitemapEntry.priority entry with
    | Some priority =>
        xml +:+ (indent +:+ indent +:+ "<priority>" +:+ Js.toFixed1 priority
                 +:+ "</priority>" +:+ newline)
    | None => xml
    end in
  xml +:+ (indent +:+ "</url>" +:+ newline).

Definition entriesToXml (this : Options.t) (entries : list SitemapEntry.t) : string :=
  let indent := if cond (Options.prettyPrint this) then "  " else "" in
  let newline := if cond (Options.prettyPrint this) then LF else "" in
  let xml := xmlDeclaration +:+ newline in
  let xml := xml +:+ (urlsetOpen +:+ newline) in
  let xml := fold_left (appendEntry indent newline) entries xml in
  xml +:+ "</urlset>".

Definition generateXmlSitemap (this : Options.t) (w : World) (routeTree : TanStackRoute)
    : outcome (string * list (string * string)) :=
  let* (entries, console) := generateSitemapEntries this w routeTree in
  Ok (entriesToXml this entries, console).

(** The functions exported by [src/sitemap-generator.ts]. *)
Module SitemapGenerator.

Definition generateSitemap (routeTree : TanStackRoute) (options : SitemapOptions.t)
    (now : string) (w : World) : outcome (string * list (string * string)) :=
  let* generator := constructor options now in
  generateXmlSitemap generator w routeTree.

Definition generateSitemapEntries (routeTree : TanStackRoute) (options : SitemapOptions.t)
    (now : string) (w : World) : outcome (list SitemapEntry.t * list (string * string)) :=
  let* generator := constructor options now in
  generateSitemapEntries generator w routeTree.

End SitemapGenerator.

(** ** Descriptions used to state the properties *)

(** A segment that names one level of a path: not empty, without a slash,
    without a parameter marker, and neither of the two reserved names. *)
Definition simpleSegment (s : string) : bool :=
  Js.truthy s && negb (Js.includes s "/") && negb (isDynamicRoute s)
  && negb (String.eqb s "index") && negb (String.eqb s "__root__").

(** Deduplication as the specification words it: walking the descriptors in
    order, a descriptor is kept only if no earlier one had its path. [seen]
    holds the paths met so far. *)
Fixpoint keepFirst (seen : list string) (routes : list RouteInfo.t) : list RouteInfo.t :=
  match routes with
  | [] => []
  | route :: routes' =>
      if bool_decide (RouteInfo.path route ∈ seen) then keepFirst seen routes'
      else route :: keepFirst (RouteInfo.path route :: seen) routes'
  end.

(** The escaping of [<loc>] as the specification words it: each character
    is replaced on its own, in one pass. *)
Definition escapeChar (c : ascii) : string :=
  if Ascii.eqb c "&" then "&amp;"
  else if Ascii.eqb c "<" then "&lt;"
  else if Ascii.eqb c ">" then "&gt;"
  else if Ascii.eqb c "034" then "&quot;"
  else if Ascii.eqb c "'" then "&apos;"
  else String c "".

Fixpoint escapeEach (text : string) : string :=
  match text with
  | EmptyString => EmptyString
  | String c text' => escapeChar c +:+ escapeEach text'
  end.

(** The fixed text of the document, written out character by character
    and independently of the generator's own constants. Character 34 is the
    double quote, character 10 the line feed. *)
Definition quoted (s : string) : string := String "034" (s +:+ String "034" "").

Definition lineFeed : string := String "010" "".

Definition declarationText : string :=
  "<?xml version=" +:+ quoted "1.0" +:+ " encoding=" +:+ quoted "UTF-8" +:+ "?>".

Definition rootOpenText : string :=
  "<urlset xmlns=" +:+ quoted "http://www.sitemaps.org/schemas/sitemap/0.9" +:+ ">".

(** The seven words a [changefreq] element may hold. *)
Definition changefreqWord (c : Changefreq) : string :=
  match c with
  | never => "never"
  | yearly => "yearly"
  | monthly => "monthly"
  | weekly => "weekly"
  | daily => "daily"
  | hourly => "hourly"
  | always => "always"
  end.

(** The document as the specification words it: the declaration, the root
    element, one block per entry with its children in the fixed order, the
    closing tag. *)
Definition element (indent newline name content : string) : string :=
  indent +:+ indent +:+ "<" +:+ name +:+ ">" +:+ content +:+ "</" +:+ name +:+ ">" +:+ newline.

Definition ifPresent {A : Type} (o : option A) (f : A -> string) : string :=
  match o with
  | Some a => f a
  | None => ""
  end.

Definition urlBlock (indent newline : string) (entry : SitemapEntry.t) : string :=
  indent +:+ "<url>" +:+ newline +:+
  element indent newline "loc" (escapeEach (SitemapEntry.url entry)) +:+
  ifPresent (SitemapEntry.lastmod entry) (element indent newline "lastmod") +:+
  ifPresent (SitemapEntry.changefreq entry)
    (fun c => element indent newline "changefreq" (changefreqWord c)) +:+
  ifPresent (SitemapEntry.priority entry)
    (fun p => element indent newline "priority" (Js.toFixed1 p)) +:+
  indent +:+ "</url>" +:+ newline.

Fixpoint concatBlocks (blocks : list string) : string :=
  match blocks with
  | [] => ""
  | b :: blocks' => b +:+ concatBlocks blocks'
  end.

Definition renderDocument (prettyPrint : bool) (entries : list SitemapEntry.t) : string :=
  let indent := if prettyPrint then "  " else "" in
  let newline := if prettyPrint then lineFeed else "" in
  declarationText +:+ newline +:+ rootOpenText +:+ newline +:+
  concatBlocks (map (urlBlock indent newline) entries) +:+ "</urlset>".

(** A decimal digit, and the shape [d.d] of a number written with one digit
    before and one after the point. *)
Definition isDigit (c : ascii) : bool :=
  (48 <=? nat_of_ascii c)%nat && (nat_of_ascii c <=? 57)%nat.

Definition oneDecimalDigit (s : string) : bool :=
  match s with
  | String a (String p (String b EmptyString)) =>
      isDigit a && Ascii.eqb p "." && isDigit b
  | _ => false
  end.

(** A sitemap entry as the data model has it: a [lastmod], when given, is
    not the empty string, and a [priority] lies between 0 and 1. *)
Definition wellFormedEntry (entry : SitemapEntry.t) : Prop :=
  SitemapEntry.lastmod entry <> Some "" /\
  forall p, SitemapEntry.priority entry = Some p -> (0 <= p)%Q /\ (p <= 1)%Q.

(** The provider yields the same whatever the state of the world. *)
Definition pureProvider (provider : option Provider) : Prop :=
  forall p, provider = Some p -> forall w1 w2 : World, p w1 = p w2.

(** An options object without keys beyond [baseUrl]. *)
Definition onlyBaseUrl (baseUrl : string) : SitemapOptions.t :=
  {| SitemapOptions.baseUrl := Some baseUrl;
     SitemapOptions.defaultChangefreq := Absent;
     SitemapOptions.defaultPriority := Absent;
     SitemapOptions.excludeRoutes := None;
     SitemapOptions.routeOptions := None;
     SitemapOptions.trailingSlash := Absent;
     SitemapOptions.lastmod := Absent;
     SitemapOptions.prettyPrint := Absent;
     SitemapOptions.manualRoutes := None |}.

(** The options of a generator with the provider taken out. *)
Definition withoutProvider (this : Options.t) : Options.t :=
  {| Options.baseUrl := Options.baseUrl this;
     Options.defaultChangefreq := Options.defaultChangefreq this;
     Options.defaultPriority := Options.defaultPriority this;
     Options.excludeRoutes := Options.excludeRoutes this;
     Options.routeOptions := Options.routeOptions this;
     Options.trailingSlash := Options.trailingSlash this;
     Options.lastmod := Options.lastmod this;
     Options.prettyPrint := Options.prettyPrint this;
     Options.manualRoutes := None |}.

(** The options of the examples: the defaults of the constructor at the
    time [now], around the keys that an example sets. *)
Definition optionsWith (baseUrl : string) (excludeRoutes : list string)
    (routeOptions : gmap string PartialEntry.t) (trailingSlash : bool)
    (manualRoutes : option Provider) (now : string) : Options.t :=
  {| Options.baseUrl := baseUrl;
     Options.defaultChangefreq := Some weekly;
     Options.defaultPriority := Some (1 # 2)%Q;
     Options.excludeRoutes := excludeRoutes;
     Options.routeOptions := routeOptions;
     Options.trailingSlash := Some trailingSlash;
     Options.lastmod := Some now;
     Options.prettyPrint := Some true;
     Options.manualRoutes := manualRoutes |}.

(** What the constructor makes of [{ baseUrl: 'https://example.com' }]. *)
Definition exampleOptions (now : string) : Options.t :=
  optionsWith "https://example.com" [] ∅ false None now.

(** [{path:'/', children:[{path:'home'},{path:'about'}]}] *)
Definition homeAboutTree : TanStackRoute :=
  Route (Some "/") [Route (Some "home") []; Route (Some "about") []].

(** [{path:'/', children:[{path:'/users/$id', children:[{path:'edit'}]}]}] *)
Definition usersEditTree : TanStackRoute :=
  Route (Some "/") [Route (Some "/users/$id") [Route (Some "edit") []]].

(** [{path:'/', children:[{path:'home'},{path:'home'},{path:'about'}]}] *)
Definition duplicateHomeTree : TanStackRoute :=
  Route (Some "/") [Route (Some "home") []; Route (Some "home") []; Route (Some "about") []].

Definition defaultEntry (now url : string) : SitemapEntry.t :=
  {| SitemapEntry.url := url;
     SitemapEntry.lastmod := Some now;
     SitemapEntry.changefreq := Some weekly;
     SitemapEntry.priority := Some (1 # 2)%Q |}.

(** [{path:'/', children:[{path:'about'}]}] *)
Definition aboutTree : TanStackRoute :=
  Route (Some "/") [Route (Some "about") []].

(** The example options with [routeOptions: { '/about': override }]. *)
Definition optionsWithOverride (override : PartialEntry.t) (now : string) : Options.t :=
  optionsWith "https://example.com" [] {[ "/about" := override ]} false None now.

(** [{ lastmod: '' }], [{ priority: 0 }] and
    [{ priority: 0.9, changefreq: 'monthly' }]. *)
Definition emptyLastmodOverride : PartialEntry.t :=
  PartialEntry.mk None (Some "") None None.

Definition zeroPriorityOverride : PartialEntry.t :=
  PartialEntry.mk None None None (Some 0%Q).

Definition aboutOverride : PartialEntry.t :=
  PartialEntry.mk None None (Some monthly) (Some (9 # 10)%Q).

(** All three optional fields of an entry are defined. *)
Definition allDefined (entry : SitemapEntry.t) : Prop :=
  is_Some (SitemapEntry.lastmod entry)
  /\ is_Some (SitemapEntry.changefreq entry)
  /\ is_Some (SitemapEntry.priority entry).

(** A provider that reads the world: no route at first, one route later. *)
Definition growingProvider : Provider :=
  fun w =>
    Resolves (if Nat.eqb w 0 then []
              else [ManualSitemapEntry.mk "/post" None None None]).

(** The example options with a provider. *)
Definition optionsWithProvider (provider : Provider) (now : string) : Options.t :=
  optionsWith "https://example.com" [] ∅ false (Some provider) now.

(** What a key of the options object resolves to when it is not an explicit
    [undefined]. *)
Definition filled {A : Type} (d : A) (f : field A) : A :=
  match f with
  | Value a => a
  | _ => d
  end.

(** An exclusion pattern whose matching stays within the model: it has no
    [*], or the regular expression built from it is in the fragment. *)
Definition supportedPattern (excludePath : string) : bool :=
  negb (Js.includes excludePath "*")
  || match RegExp.parse ("^" +:+ Js.replace_all "?" "."
                                   (Js.replace_runs "*" ".*" excludePath) +:+ "$") with
     | Some _ => true
     | None => false
     end.

(** No node of the tree has a raw path that is both absolute and dynamic. *)
Fixpoint absoluteDynamicFree (route : TanStackRoute) : bool :=
  match route with
  | Route path children =>
      negb (Js.startsWith (default "" path) "/" && isDynamicRoute (default "" path))
      && forallb absoluteDynamicFree children
  end.

(** A provider whose promise rejects. *)
Definition rejectingProvider : Provider := fun _ => Rejects "connection refused".

(** [{path:'$postId', children:[{path:'comments'}]}], and the same under
    [{path:'/', children:[{path:'blog', children:[...]}]}]. *)
Definition postCommentsTree : TanStackRoute :=
  Route (Some "$postId") [Route (Some "comments") []].

Definition blogTree : TanStackRoute :=
  Route (Some "/") [Route (Some "blog") [postCommentsTree]].

(** The example options with [excludeRoutes], or with [trailingSlash: true]
    and a [baseUrl]. *)
Definition optionsExcluding (excludeRoutes : list string) (now : string) : Options.t :=
  optionsWith "https://example.com" excludeRoutes ∅ false None now.

Definition optionsTrailingSlash (baseUrl now : string) : Options.t :=
  optionsWith baseUrl [] ∅ true None now.

(** The trees of the tests in [src/__tests__]. *)
Definition dynamicChildrenTree : TanStackRoute :=
  Route (Some "/")
    [Route (Some "home") []; Route (Some "post/$id") []; Route (Some "user/[id]") []].

Definition adminPrivateTree : TanStackRoute :=
  Route (Some "/")
    [Route (Some "home") [];
     Route (Some "admin") [];
     Route (Some "private") [Route (Some "secret") []]].

Definition indexAboutTree : TanStackRoute :=
  Route (Some "/") [Route (Some "index") []; Route (Some "about") []].

(** A provider that always yields the one route [/home], and one whose
    route carries a [Date]. *)
Definition homeProvider : Provider :=
  fun _ => Returns [ManualSitemapEntry.mk "/home" None None None].

Definition datedProvider : Provider :=
  fun _ =>
    Resolves [ManualSitemapEntry.mk "/dynamic/page-1" None
                (Some (LastModDate (ValidDate "2023-01-01T00:00:00.000Z"))) None].

(** [occursAt root parentPath node path]: flattening [root] from
    [parentPath] visits [node], and visits it with the parent path [path]. *)
Inductive occursAt : TanStackRoute -> string -> TanStackRoute -> string -> Prop :=
| occurs_here (root : TanStackRoute) (parentPath : string) :
    occursAt root parentPath root parentPath
| occurs_below (path : option string) (children : list TanStackRoute)
    (parentPath : string) (child node : TanStackRoute) (at_ : string) :
    child ∈ children ->
    occursAt child (buildFullPath parentPath (default "" path)) node at_ ->
    occursAt (Route path children) parentPath node at_.

(** ** The build plugin ([./plugin], in [src/index.ts])

    The plugin reads and writes files and imports a module. What it needs
    from the Node runtime is gathered in a [Host]: [resolve p] and [join p]
    are [path.resolve(process.cwd(), p)] and [path.join(process.cwd(), p)],
    [existsSync] is the state of the file system when [buildEnd] starts (the
    plugin reads it only before it writes), [NODE_ENV] is
    [process.env.NODE_ENV], and [importRouteTree] stands for the function of
    that name, which imports or parses the route-tree file and is not
    modelled further. [mkdirSync] and [writeFileSync] are taken to succeed. *)

Module Host.
Record t : Type := mk {
  resolve : string -> string;
  join : string -> string;
  existsSync : string -> bool;
  NODE_ENV : option string;
  importRouteTree : string -> outcome TanStackRoute
}.
End Host.

(** [s.replace(/\.(ts|js)$/, '')] *)
Definition stripTsJs (s : string) : string :=
  if Js.endsWith s ".ts" || Js.endsWith s ".js" then Js.slice_to_minus 3 s else s.

(** [array.filter(Boolean)] on strings that may be [undefined]. *)
Fixpoint filterBoolean (l : list (option string)) : list string :=
  match l with
  | [] => []
  | Some s :: l' => if Js.truthy s then s :: filterBoolean l' else filterBoolean l'
  | None :: l' => filterBoolean l'
  end.

Definition possibleBasePaths (customPath : option string) : list string :=
  filterBoolean
    [ option_map stripTsJs customPath;
      Some "src/routeTree.gen";
      Some "app/routeTree.gen";
      Some "routeTree.gen";
      Some "./src/routeTree.gen";
      Some "./app/routeTree.gen";
      Some "./routeTree.gen" ].

Definition extensions : list string := [".js"; ".ts"].

(** The inner loop of [findRouteTreeFile], over the extensions. *)
Fixpoint tryExtensions (host : Host.t) (basePath : string) (exts : list string)
    : option string :=
  match exts with
  | [] => None
  | ext :: exts' =>
      let fullPath := Host.resolve host (basePath +:+ ext) in
      if Host.existsSync host fullPath then Some fullPath
      else tryExtensions host basePath exts'
  end.

(** The outer loop, over the base paths. *)
Fixpoint tryBasePaths (host : Host.t) (basePaths : list string) : option string :=
  match basePaths with
  | [] => None
  | basePath :: basePaths' =>
      match tryExtensions host basePath extensions with
      | Some fullPath => Some fullPath
      | None => tryBasePaths host basePaths'
      end
  end.

Definition findRouteTreeFile (host : Host.t) (customPath : option string) : option string :=
  tryBasePaths host (possibleBasePaths customPath).

(** [s.split(c)] for a one-character separator. *)
Fixpoint split (c : ascii) (s : string) : list string :=
  match s with
  | EmptyString => [EmptyString]
  | String a s' =>
      if Ascii.eqb a c then EmptyString :: split c s'
      else match split c s' with
           | piece :: pieces => String a piece :: pieces
           | [] => [String a EmptyString]
           end
  end.

(** [outputPath.split('/').slice(0, -1).join('/')] *)
Definition outputDirectory (outputPath : string) : string :=
  String.concat "/" (removelast (split "/" outputPath)).

(** [SitemapPluginOptions]: the keys of the plugin beside those of the
    generator. A key that is absent or [undefined] takes its default when
    [sitemapPlugin] destructures the options. *)
Module PluginOptions.
Record t : Type := mk {
  outputPath : option string;
  verbose : option bool;
  routeTreePath : option string;
  onBuildOnly : option bool;
  sitemapOptions : SitemapOptions.t
}.
End PluginOptions.

(** What [buildEnd] does to the world, in order. *)
Inductive Effect : Type :=
| ConsoleLog (line : string)
| ConsoleWarn (message error : string)
| ConsoleError (message error : string)
| MkdirSync (dir : string)
| WriteFileSync (file content : string).

(** A computation that performs effects and then returns, throws, or
    leaves the model. *)
Definition Run (A : Type) : Type := list Effect * outcome A.

Definition ret {A : Type} (a : A) : Run A := ([], Ok a).

Definition lift {A : Type} (o : outcome A) : Run A := ([], o).

Definition perform (effects : list Effect) : Run unit := (effects, Ok tt).

Definition rbind {A B : Type} (m : Run A) (k : A -> Run B) : Run B :=
  match m with
  | (done, Ok a) => (done ++ fst (k a), snd (k a))
  | (done, Thrown msg) => (done, Thrown msg)
  | (done, OutsideModel) => (done, OutsideModel)
  end.

Notation "'run*' x ':=' m 'in' k" := (rbind m (fun x => k))
  (at level 10, x pattern, m at level 100, k at level 200).

(** The console lines of the generator, as effects. *)
Definition warned (console : list (string * string)) : list Effect :=
  map (fun line => ConsoleWarn (fst line) (snd line)) console.

(** [if (verbose) console.log(line)] *)
Definition logIf (verbose : bool) (line : string) : Run unit :=
  perform (if verbose then [ConsoleLog line] else []).

(** A length or an index in a template string. *)
Definition natString (n : nat) : string := NilZero.string_of_uint (Nat.to_uint n).

(** [routeTree = providedRouteTree], or else the search and the import. The
    value imported is an object, so the test [if (!routeTree)] that follows
    in the source never fires. *)
Definition obtainRouteTree (host : Host.t) (verbose : bool) (routeTreePath : option string)
    (providedRouteTree : option TanStackRoute) : Run TanStackRoute :=
  match providedRouteTree with
  | Some routeTree => ret routeTree
  | None =>
      run* _ := logIf verbose "🔍 Auto-detecting routeTree.gen.ts..." in
      match findRouteTreeFile host routeTreePath with
      | None =>
          lift (Thrown ("Could not find routeTree.gen.ts file. Please ensure TanStack "
                        +:+ "Router has generated the route tree, or provide a custom "
                        +:+ "routeTreePath option."))
      | Some routeTreeFilePath =>
          run* _ := logIf verbose ("📁 Found route tree at: " +:+ routeTreeFilePath) in
          lift (Host.importRouteTree host routeTreeFilePath)
      end
  end.

(** The directory is created when it does not exist; then the file is
    written. *)
Definition writeSitemap (host : Host.t) (outputPath sitemap : string) : Run unit :=
  let outputDir := Host.join host (outputDirectory outputPath) in
  run* _ := perform (if Host.existsSync host outputDir then [] else [MkdirSync outputDir]) in
  perform [WriteFileSync (Host.join host outputPath) sitemap].

(** [entries.slice(0, 5).forEach((entry, index) => console.log(...))] *)
Fixpoint logUrls (index : nat) (entries : list SitemapEntry.t) : list Effect :=
  match entries with
  | [] => []
  | entry :: entries' =>
      ConsoleLog ("   " +:+ natString (index + 1) +:+ ". " +:+ SitemapEntry.url entry)
      :: logUrls (index + 1) entries'
  end.

(** The report of the [verbose] mode, after a second generation. *)
Definition reportUrls (generator : Options.t) (w : World) (routeTree : TanStackRoute)
    (outputPath : string) : Run unit :=
  run* (entries, console) := lift (generateSitemapEntries generator w routeTree) in
  run* _ := perform (warned console) in
  run* _ :=
    perform [ConsoleLog ("✅ Sitemap generated with " +:+ natString (length entries)
                         +:+ " URLs at " +:+ outputPath)] in
  if (0 <? length entries)%nat then
    run* _ := perform [ConsoleLog "📍 Generated URLs:"] in
    run* _ := perform (logUrls 0 (firstn 5 entries)) in
    if (5 <? length entries)%nat then
      perform [ConsoleLog ("   ... and " +:+ natString (length entries - 5) +:+ " more URLs")]
    else ret tt
  else ret tt.

(** The body of the [try] of [buildEnd]. [w1] and [w2] are the worlds at
    the generation of the document and at the second generation of the
    [verbose] mode. *)
Definition buildEndBody (host : Host.t) (options : PluginOptions.t) (now : string)
    (w1 w2 : World) (providedRouteTree : option TanStackRoute) : Run unit :=
  let outputPath := default "public/sitemap.xml" (PluginOptions.outputPath options) in
  let verbose := default false (PluginOptions.verbose options) in
  let onBuildOnly := default false (PluginOptions.onBuildOnly options) in
  if onBuildOnly
     && negb (bool_decide (Host.NODE_ENV host = Some "production"))
  then
    logIf verbose "🗺️  Skipping sitemap generation (development mode, onBuildOnly: true)"
  else
    run* _ := logIf verbose "🗺️  Generating sitemap..." in
    run* routeTree :=
      obtainRouteTree host verbose (PluginOptions.routeTreePath options) providedRouteTree in
    run* generator := lift (constructor (PluginOptions.sitemapOptions options) now) in
    run* (sitemap, console) := lift (generateXmlSitemap generator w1 routeTree) in
    run* _ := perform (warned console) in
    run* _ := writeSitemap host outputPath sitemap in
    if verbose then reportUrls generator w2 routeTree outputPath else ret tt.

(** [buildEnd]: what is thrown in the body is logged and thrown again. *)
Definition buildEnd (host : Host.t) (options : PluginOptions.t) (now : string)
    (w1 w2 : World) (providedRouteTree : option TanStackRoute) : Run unit :=
  match buildEndBody host options now w1 w2 providedRouteTree with
  | (done, Thrown error) =>
      (done ++ [ConsoleError "❌ Error generating sitemap:" error], Thrown error)
  | other => other
  end.

(** The effects on the file system among [effects]. *)
Definition isFileEffect (e : Effect) : bool :=
  match e with
  | MkdirSync _ | WriteFileSync _ _ => true
  | _ => false
  end.

Definition fileEffects (effects : list Effect) : list Effect :=
  List.filter isFileEffect effects.

(** [buildEnd] returns at once: [onBuildOnly] is set and the build is not
    a production build. *)
Definition skipped (host : Host.t) (options : PluginOptions.t) : bool :=
  default false (PluginOptions.onBuildOnly options)
  && negb (bool_decide (Host.NODE_ENV host = Some "production")).

(** A host for the examples: the project lives in [/app], which holds
    [src/routeTree.gen.ts] and nothing else, and the build is not a
    production build. *)
Definition exampleHost : Host.t :=
  {| Host.resolve := fun p => "/app/" +:+ p;
     Host.join := fun p => "/app/" +:+ p;
     Host.existsSync := fun p => String.eqb p "/app/src/routeTree.gen.ts";
     Host.NODE_ENV := None;
     Host.importRouteTree := fun _ => Ok homeAboutTree |}.

Definition examplePluginOptions (baseUrl : string) (onBuildOnly : bool) : PluginOptions.t :=
  {| PluginOptions.outputPath := None;
     PluginOptions.verbose := None;
     PluginOptions.routeTreePath := None;
     PluginOptions.onBuildOnly := Some onBuildOnly;
     PluginOptions.sitemapOptions :=
       {| SitemapOptions.baseUrl := Some baseUrl;
          SitemapOptions.defaultChangefreq := Absent;
          SitemapOptions.defaultPriority := Absent;
          SitemapOptions.excludeRoutes := None;
          SitemapOptions.routeOptions := None;
          SitemapOptions.trailingSlash := Absent;
          SitemapOptions.lastmod := Value "2024-01-01";
          SitemapOptions.prettyPrint := Value false;
          SitemapOptions.manualRoutes := None |} |}.

(** The options of a generator with another exclusion list. *)
Definition withExcludeRoutes (this : Options.t) (excludeRoutes : list string) : Options.t :=
  {| Options.baseUrl := Options.baseUrl this;
     Options.defaultChangefreq := Options.defaultChangefreq this;
     Options.defaultPriority := Options.defaultPriority this;
     Options.excludeRoutes := excludeRoutes;
     Options.routeOptions := Options.routeOptions this;
     Options.trailingSlash := Options.trailingSlash this;
     Options.lastmod := Options.lastmod this;
     Options.prettyPrint := Options.prettyPrint this;
     Options.manualRoutes := Options.manualRoutes this |}.

(** None of the patterns matches the path. *)
Definition unmatched (patterns : list string) (path : string) : bool :=
  match some (matchesExclude path) patterns with
  | Ok false => true
  | _ => false
  end.

(** Two generators route alike: they agree on everything but the
    per-route options and the defaults of the three optional fields. *)
Definition sameRouting (this other : Options.t) : Prop :=
  Options.baseUrl this = Options.baseUrl other
  /\ Options.excludeRoutes this = Options.excludeRoutes other
  /\ Options.trailingSlash this = Options.trailingSlash other
  /\ Options.manualRoutes this = Options.manualRoutes other.

(** ** Descriptions used by the further properties *)

(** Every code unit of [s] is white space. *)
Fixpoint allWhite (s : string) : bool :=
  match s with
  | EmptyString => true
  | String a s' => Js.is_white a && allWhite s'
  end.

(** [s] has two [c] in a row. *)
Fixpoint hasRun (c : ascii) (s : string) : bool :=
  match s with
  | String a s' =>
      match s' with
      | String b _ => (Ascii.eqb a c && Ascii.eqb b c) || hasRun c s'
      | EmptyString => false
      end
  | EmptyString => false
  end.

(** The raw path of every node of the tree satisfies [ok]. *)
Fixpoint everyRawPath (ok : string -> bool) (route : TanStackRoute) : bool :=
  match route with
  | Route path children => ok (default "" path) && forallb (everyRawPath ok) children
  end.

(** A raw path that is absolute brings no double slash. *)
Definition noAbsoluteDoubleSlash (raw : string) : bool :=
  negb (Js.startsWith raw "/" && hasRun "/" raw).

(** The options of a generator with another [baseUrl]. *)
Definition withBaseUrl (this : Options.t) (baseUrl : string) : Options.t :=
  {| Options.baseUrl := baseUrl;
     Options.defaultChangefreq := Options.defaultChangefreq this;
     Options.defaultPriority := Options.defaultPriority this;
     Options.excludeRoutes := Options.excludeRoutes this;
     Options.routeOptions := Options.routeOptions this;
     Options.trailingSlash := Options.trailingSlash this;
     Options.lastmod := Options.lastmod this;
     Options.prettyPrint := Options.prettyPrint this;
     Options.manualRoutes := Options.manualRoutes this |}.

(** [emits this root parentPath r]: flattening [root] from [parentPath]
    visits a node whose raw path is not dynamic, whose full path is neither
    empty nor excluded, and [r] is the descriptor of that full path. *)
Definition emits (this : Options.t) (root : TanStackRoute) (parentPath : string)
    (r : RouteInfo.t) : Prop :=
  exists path children at_,
    occursAt root parentPath (Route path children) at_
    /\ isDynamicRoute (default "" path) = false
    /\ Js.truthy (buildFullPath at_ (default "" path)) = true
    /\ isExcludedRoute this (buildFullPath at_ (default "" path)) = Ok false
    /\ r = descriptor this (buildFullPath at_ (default "" path)).

(** No code unit of [s] is a syntax character of regular expressions (so
    none is [*], [?] or [.]). *)
Fixpoint plainText (s : string) : bool :=
  match s with
  | EmptyString => true
  | String a s' => negb (RegExp.is_syntax_char a) && plainText s'
  end.

(** [s] has neither a line feed nor a carriage return. *)
Definition noLineBreak (s : string) : bool :=
  negb (Js.includes s "010") && negb (Js.includes s "013").

(** The items of a regular expression that matches [s] literally. *)
Fixpoint literally (s : string) : list RegExp.item :=
  match s with
  | EmptyString => []
  | String a s' => RegExp.One (RegExp.Lit a) :: literally s'
  end.

(** The exclusion test of a manual route came back negative. *)
Definition notExcluded (this : Options.t) (route : ManualSitemapEntry.t) : bool :=
  match isExcludedRoute this (ManualSitemapEntry.location route) with
  | Ok false => true
  | _ => false
  end.

(** [entry] is what a manual route resolves to: its own fields where it has
    them (a [lastMod] string that is not empty, the ISO form of a valid
    [Date], any [changeFrequency], any [priority]), the configured defaults
    elsewhere. *)
Definition resolvesManual (this : Options.t) (route : ManualSitemapEntry.t)
    (entry : SitemapEntry.t) : Prop :=
  SitemapEntry.url entry = buildFullUrl this (ManualSitemapEntry.location route)
  /\ SitemapEntry.priority entry =
     match ManualSitemapEntry.priority route with
     | Some p => Some p
     | None => Options.defaultPriority this
     end
  /\ SitemapEntry.changefreq entry =
     match ManualSitemapEntry.changeFrequency route with
     | Some c => Some c
     | None => Options.defaultChangefreq this
     end
  /\ SitemapEntry.lastmod entry =
     match ManualSitemapEntry.lastMod route with
     | Some (LastModString (String a s)) => Some (String a s)
     | Some (LastModDate (ValidDate (String a s))) => Some (String a s)
     | _ => Options.lastmod this
     end.

(** The route carries a [Date] that is not a valid instant. *)
Definition hasInvalidDate (route : ManualSitemapEntry.t) : bool :=
  match ManualSitemapEntry.lastMod route with
  | Some (LastModDate InvalidDate) => true
  | _ => false
  end.

(** One of the five characters that [escapeXml] replaces. *)
Definition isXmlSpecial (c : ascii) : bool :=
  Js.includes ("&<>'" +:+ dquote) c.

(** One of the four that remain forbidden in the escaped text. *)
Definition isXmlMarkup (c : ascii) : bool :=
  Js.includes ("<>'" +:+ dquote) c.

(** No code unit of [s] satisfies [f]. *)
Fixpoint noneOf (f : ascii -> bool) (s : string) : bool :=
  match s with
  | EmptyString => true
  | String a s' => negb (f a) && noneOf f s'
  end.

(** Neither the URL nor the [lastmod] of the entry has a line feed. *)
Definition onOneLine (entry : SitemapEntry.t) : bool :=
  negb (Js.includes (SitemapEntry.url entry) "010")
  && match SitemapEntry.lastmod entry with
     | Some l => negb (Js.includes l "010")
     | None => true
     end.

(** The raw path of an index route: missing, empty, or [index]. *)
Definition isIndexPath (path : option string) : bool :=
  negb (Js.truthy (default "" path)) || String.eqb (default "" path) "index".

(** ** Concrete inputs of the further properties *)

(** What [homeAboutTree] yields under [https://example.com]. *)
Definition homeAboutEntries (now : string) : list SitemapEntry.t :=
  [defaultEntry now "https://example.com/";
   defaultEntry now "https://example.com/home";
   defaultEntry now "https://example.com/about"].

(** The descriptors of [homeAboutTree]. *)
Definition homeAboutRoutes (this : Options.t) : list RouteInfo.t :=
  [descriptor this "/"; descriptor this "/home"; descriptor this "/about"].

(** Options with [prettyPrint: false]. *)
Definition compactOptions (now : string) : Options.t :=
  {| Options.baseUrl := "https://example.com";
     Options.defaultChangefreq := Some weekly;
     Options.defaultPriority := Some (1 # 2)%Q;
     Options.excludeRoutes := [];
     Options.routeOptions := ∅;
     Options.trailingSlash := Some false;
     Options.lastmod := Some now;
     Options.prettyPrint := Some false;
     Options.manualRoutes := None |}.

(** A provider whose second route carries [new Date(NaN)]. *)
Definition invalidDateProvider : Provider :=
  fun _ =>
    Resolves [ManualSitemapEntry.mk "/products/1" None None None;
              ManualSitemapEntry.mk "/products/2" None (Some (LastModDate InvalidDate)) None].

(** A project whose route tree was compiled to [dist/routeTree.gen.js]. *)
Definition compiledHost : Host.t :=
  {| Host.resolve := fun p => "/app/" +:+ p;
     Host.join := fun p => "/app/" +:+ p;
     Host.existsSync := fun p => String.eqb p "/app/dist/routeTree.gen.js";
     Host.NODE_ENV := Some "production";
     Host.importRouteTree := fun _ => Ok homeAboutTree |}.

(** ** Facts about strings *)

Lemma append_cons (a : ascii) (s t : string) : String a s +:+ t = String a (s +:+ t).
Proof. reflexivity. Qed.

Lemma append_empty_l (s : string) : "" +:+ s = s.
Proof. reflexivity. Qed.

Lemma append_empty_r (s : string) : s +:+ "" = s.
Proof. induction s as [|a s IH]; [reflexivity|]. by rewrite append_cons, IH. Qed.

Lemma append_assoc (s t u : string) : (s +:+ t) +:+ u = s +:+ (t +:+ u).
Proof. induction s as [|a s IH]; [reflexivity|]. by rewrite !append_cons, IH. Qed.

Lemma truthy_true (s : string) : Js.truthy s = true <-> s <> "".
Proof.
  unfold Js.truthy. destruct (String.eqb_spec s ""); simpl; split; congruence.
Qed.

Lemma truthy_false (s : string) : Js.truthy s = false <-> s = "".
Proof.
  unfold Js.truthy. destruct (String.eqb_spec s ""); simpl; split; congruence.
Qed.

Lemma includes_append (s t : string) (c : ascii) :
  Js.includes (s +:+ t) c = Js.includes s c || Js.includes t c.
Proof.
  induction s as [|a s IH]; [reflexivity|].
  rewrite append_cons. simpl. rewrite IH. by rewrite orb_assoc.
Qed.

Lemma startsWith_append (s t : string) : Js.startsWith (s +:+ t) s = true.
Proof.
  unfold Js.startsWith. induction s as [|a s IH].
  - by destruct t.
  - rewrite append_cons. simpl. destruct (ascii_dec a a); [exact IH|congruence].
Qed.

(** ** Facts about outcomes *)

Lemma obind_Ok {A B : Type} (m : outcome A) (k : A -> outcome B) (b : B) :
  obind m k = Ok b <-> exists a, m = Ok a /\ k a = Ok b.
Proof.
  split.
  - destruct m as [a| |]; simpl; [eauto|discriminate|discriminate].
  - intros (a & -> & Hk). exact Hk.
Qed.

(** ** Induction on route trees and the shape of the traversal *)

Lemma TanStackRoute_children_ind (P : TanStackRoute -> Prop) :
  (forall path children, Forall P children -> P (Route path children)) ->
  forall route, P route.
Proof.
  intros step. fix IH 1. intros [path children]. apply step.
  induction children as [|c cs IHcs]; constructor; [apply IH|exact IHcs].
Qed.

Lemma extractRoutesFromTree_eq (this : Options.t) path children parentPath :
  extractRoutesFromTree this (Route path children) parentPath =
  let routePath := default "" path in
  let fullPath := buildFullPath parentPath routePath in
  let* own :=
    (if Js.truthy fullPath && negb (isDynamicRoute routePath) then
       let* excluded := isExcludedRoute this fullPath in
       if excluded then Ok [] else Ok [descriptor this fullPath]
     else Ok []) in
  let* below := extractEach this fullPath children in
  Ok (own ++ below).
Proof. reflexivity. Qed.

Lemma extractEach_cons (this : Options.t) fullPath c cs :
  extractEach this fullPath (c :: cs) =
  let* sub := extractRoutesFromTree this c fullPath in
  let* rest := extractEach this fullPath cs in
  Ok (sub ++ rest).
Proof. reflexivity. Qed.

(** What holds of every descriptor a node can push holds of every
    descriptor of the flattened tree. *)
Lemma extractRoutesFromTree_Forall (this : Options.t) (Q : RouteInfo.t -> Prop) :
  (forall fullPath, Q (descriptor this fullPath)) ->
  forall route parentPath routes,
    extractRoutesFromTree this route parentPath = Ok routes -> Forall Q routes.
Proof.
  intros HQ route. induction route as [path children IH] using TanStackRoute_children_ind.
  intros parentPath routes. rewrite extractRoutesFromTree_eq. cbv zeta.
  set (fullPath := buildFullPath parentPath (default "" path)). clearbody fullPath.
  intros H. apply obind_Ok in H as (own & Hown & H).
  apply obind_Ok in H as (below & Hbelow & H). injection H as <-.
  apply Forall_app. split.
  - destruct (Js.truthy fullPath && negb (isDynamicRoute (default "" path))).
    + apply obind_Ok in Hown as ([] & _ & Hown); injection Hown as <-; auto.
    + injection Hown as <-. constructor.
  - clear Hown. revert below Hbelow.
    induction IH as [|c cs Hc _ IHcs]; intros below Hbelow.
    + injection Hbelow as <-. constructor.
    + rewrite extractEach_cons in Hbelow.
      apply obind_Ok in Hbelow as (sub & Hsub & Hbelow).
      apply obind_Ok in Hbelow as (rest & Hrest & Hbelow). injection Hbelow as <-.
      apply Forall_app. split; [eapply Hc; eauto|eapply IHcs; eauto].
Qed.

(** ** Deduplication: the filter of the source keeps first occurrences *)

Section Dedup.

Implicit Types (routes pre : list RouteInfo.t) (seen : list string).

Lemma findIndexFrom_miss {A : Type} (f : A -> bool) (i : Z) (pre l : list A) :
  Forall (fun x => f x = false) pre ->
  findIndexFrom f i (pre ++ l) = findIndexFrom f (i + Z.of_nat (length pre))%Z l.
Proof.
  intros Hpre. revert i. induction Hpre as [|x pre Hx _ IH]; intros i; simpl.
  - f_equal. lia.
  - rewrite Hx, IH. f_equal. lia.
Qed.

Lemma findIndexFrom_hit {A : Type} (f : A -> bool) (i : Z) (pre l : list A) :
  Exists (fun x => f x = true) pre ->
  (findIndexFrom f i (pre ++ l) < i + Z.of_nat (length pre))%Z.
Proof.
  intros Hpre. revert i. induction pre as [|x pre IH]; intros i.
  - inversion Hpre.
  - simpl. destruct (f x) eqn:Hx; [lia|].
    inversion Hpre as [? ? Hx'|? ? Hpre']; subst; [congruence|].
    specialize (IH Hpre' (i + 1)%Z). lia.
Qed.

Lemma keepFirst_seen_ext seen seen' routes :
  (forall p, p ∈ seen <-> p ∈ seen') -> keepFirst seen routes = keepFirst seen' routes.
Proof.
  revert seen seen'. induction routes as [|r routes IH]; intros seen seen' Hext; simpl.
  - reflexivity.
  - rewrite (bool_decide_ext _ _ (Hext (RouteInfo.path r))).
    destruct (bool_decide (RouteInfo.path r ∈ seen')).
    + by apply IH.
    + f_equal. apply IH. intros p. rewrite !elem_of_cons, Hext. tauto.
Qed.

Lemma filterFrom_keepFirst pre routes :
  Forall (fun r => RouteInfo.includedInSitemap r = true) routes ->
  filterFrom
    (fun route index =>
       RouteInfo.includedInSitemap route &&
       (findIndex (samePath route) (pre ++ routes) =? index)%Z)
    (Z.of_nat (length pre)) routes
  = keepFirst (map RouteInfo.path pre) routes.
Proof.
  intros Hinc. revert pre. induction Hinc as [|r routes Hr _ IH]; intros pre.
  - reflexivity.
  - cbn [filterFrom keepFirst]. rewrite Hr. cbn [andb].
    specialize (IH (pre ++ [r])).
    rewrite length_app, Nat2Z.inj_add in IH. cbn [length] in IH.
    change (Z.of_nat 1) with 1%Z in IH.
    rewrite <- app_assoc in IH. cbn [app] in IH.
    destruct (bool_decide_reflect (RouteInfo.path r ∈ map RouteInfo.path pre)) as [Hin|Hin].
    + apply list_elem_of_fmap in Hin as (r0 & Heq & Hr0).
      assert (Hlt : (findIndex (samePath r) (pre ++ r :: routes) < Z.of_nat (length pre))%Z).
      { unfold findIndex.
        pose proof (findIndexFrom_hit (samePath r) 0 pre (r :: routes)) as Hhit.
        apply Hhit. apply Exists_exists. exists r0. split; [done|].
        unfold samePath. apply String.eqb_eq. congruence. }
      replace (findIndex (samePath r) (pre ++ r :: routes) =? Z.of_nat (length pre))%Z
        with false by (symmetry; apply Z.eqb_neq; lia).
      rewrite IH. apply keepFirst_seen_ext. intros p.
      rewrite map_app. cbn [map]. rewrite elem_of_app, list_elem_of_singleton.
      split; [|tauto]. intros [H| ->]; [done|].
      rewrite Heq. apply list_elem_of_fmap. eauto.
    + assert (Heq : findIndex (samePath r) (pre ++ r :: routes) = Z.of_nat (length pre)).
      { unfold findIndex. rewrite findIndexFrom_miss.
        - simpl. unfold samePath at 1. by rewrite String.eqb_refl.
        - apply Forall_forall. intros r0 Hr0. unfold samePath.
          apply String.eqb_neq. intros Heq. apply Hin.
          rewrite <- Heq. apply list_elem_of_fmap. by exists r0. }
      rewrite Heq, Z.eqb_refl. f_equal. rewrite IH.
      apply keepFirst_seen_ext. intros p.
      rewrite map_app. cbn [map].
      rewrite elem_of_app, list_elem_of_singleton, elem_of_cons. tauto.
Qed.

Lemma uniqueRoutes_keepFirst routes :
  Forall (fun r => RouteInfo.includedInSitemap r = true) routes ->
  uniqueRoutes routes = keepFirst [] routes.
Proof. intros H. exact (filterFrom_keepFirst [] routes H). Qed.

Lemma keepFirst_sublist seen routes : sublist (keepFirst seen routes) routes.
Proof.
  revert seen. induction routes as [|r routes IH]; intros seen; simpl.
  - constructor.
  - destruct (bool_decide _); [apply sublist_cons|apply sublist_skip]; apply IH.
Qed.

Lemma keepFirst_paths seen routes p :
  p ∈ map RouteInfo.path (keepFirst seen routes) <->
  p ∈ map RouteInfo.path routes /\ p ∉ seen.
Proof.
  revert seen. induction routes as [|r routes IH]; intros seen; simpl.
  - rewrite elem_of_nil. tauto.
  - destruct (bool_decide_reflect (RouteInfo.path r ∈ seen)) as [Hin|Hin].
    + rewrite IH, elem_of_cons. split; [tauto|]. intros [[->|H] Hp]; tauto.
    + cbn [map]. rewrite !elem_of_cons, IH, elem_of_cons.
      destruct (decide (p = RouteInfo.path r)) as [->|Hne]; tauto.
Qed.

Lemma keepFirst_NoDup seen routes : NoDup (map RouteInfo.path (keepFirst seen routes)).
Proof.
  revert seen. induction routes as [|r routes IH]; intros seen; simpl.
  - constructor.
  - destruct (bool_decide_reflect (RouteInfo.path r ∈ seen)) as [Hin|Hin]; [apply IH|].
    cbn [map]. constructor; [|apply IH].
    rewrite keepFirst_paths, elem_of_cons. tauto.
Qed.

(** Among the kept descriptors, those with path [p] are: nothing when [p]
    was seen before or does not occur; otherwise the first descriptor of
    [routes] with that path, alone. *)
Lemma keepFirst_first seen routes p :
  filter (fun r => RouteInfo.path r = p) (keepFirst seen routes) =
  if bool_decide (p ∈ seen) then []
  else match List.find (fun r => String.eqb (RouteInfo.path r) p) routes with
       | Some r => [r]
       | None => []
       end.
Proof.
  revert seen. induction routes as [|r routes IH]; intros seen; cbn [keepFirst List.find].
  - by destruct (bool_decide _).
  - destruct (bool_decide_reflect (RouteInfo.path r ∈ seen)) as [Hin|Hin].
    + rewrite IH. destruct (bool_decide_reflect (p ∈ seen)) as [Hp|Hp]; [done|].
      destruct (String.eqb_spec (RouteInfo.path r) p) as [Heq|Hne]; [congruence|done].
    + rewrite filter_cons, IH.
      destruct (String.eqb_spec (RouteInfo.path r) p) as [Heq|Hne].
      * rewrite decide_True by done. subst p.
        rewrite bool_decide_eq_true_2 by (apply elem_of_cons; tauto).
        by rewrite bool_decide_eq_false_2.
      * rewrite decide_False by done.
        rewrite (bool_decide_ext (p ∈ RouteInfo.path r :: seen) (p ∈ seen)); [done|].
        rewrite elem_of_cons. split; [|tauto].
        intros [H|H]; [congruence|done].
Qed.

End Dedup.

(** ** The worked scenario of the specification *)

Lemma constructor_onlyBaseUrl (now : string) :
  constructor (onlyBaseUrl "https://example.com") now = Ok (exampleOptions now).
Proof. reflexivity. Qed.

(** C4. For the tree [{path:'/', children:[{path:'home'},{path:'about'}]}]
    and options that give only [baseUrl: 'https://example.com'], whatever the
    clock and the world, [generateSitemapEntries] returns three entries whose
    URLs are [https://example.com/], [https://example.com/home] and
    [https://example.com/about], in that order, and logs nothing. *)
Theorem C4_home_about_urls (now : string) (w : World) :
  exists entries,
    SitemapGenerator.generateSitemapEntries homeAboutTree
      (onlyBaseUrl "https://example.com") now w = Ok (entries, [])
    /\ map SitemapEntry.url entries =
       ["https://example.com/"; "https://example.com/home"; "https://example.com/about"].
Proof.
  exists [defaultEntry now "https://example.com/";
          defaultEntry now "https://example.com/home";
          defaultEntry now "https://example.com/about"].
  split; reflexivity.
Qed.

(** ** Dynamic segments *)

(** C1, at the input where it fails. The node [/users/$id] is skipped, but
    its absolute path becomes the parent path of its child [edit], and the
    child is emitted at [/users/$id/edit]: a path with a dynamic segment
    inherited from an ancestor. *)
Theorem C1_dynamic_prefix_inherited (now : string) (w : World) :
  SitemapGenerator.generateSitemapEntries usersEditTree
    (onlyBaseUrl "https://example.com") now w
  = Ok ([defaultEntry now "https://example.com/";
         defaultEntry now "https://example.com/users/$id/edit"], [])
  /\ extractRoutesFromTree (exampleOptions now) usersEditTree ""
     = Ok [descriptor (exampleOptions now) "/";
           descriptor (exampleOptions now) "/users/$id/edit"]
  /\ isDynamicRoute "/users/$id/edit" = true.
Proof. repeat split; reflexivity. Qed.

(** ** Static entries first, manual entries after *)

Lemma extractRoutesFromTree_included (this : Options.t) route parentPath routes :
  extractRoutesFromTree this route parentPath = Ok routes ->
  Forall (fun r => RouteInfo.includedInSitemap r = true) routes.
Proof. apply extractRoutesFromTree_Forall. reflexivity. Qed.

Lemma filterNotExcluded_sublist (this : Options.t) routes kept :
  filterNotExcluded this routes = Ok kept ->
  sublist kept routes /\
  forall r, r ∈ kept ->
    isExcludedRoute this (ManualSitemapEntry.location r) = Ok false.
Proof.
  revert kept. induction routes as [|r routes IH]; intros kept H.
  - injection H as <-. split; [constructor|]. intros r Hr. by apply elem_of_nil in Hr.
  - cbn [filterNotExcluded] in H.
    apply obind_Ok in H as (excluded & Hex & H).
    apply obind_Ok in H as (rest & Hrest & H). injection H as <-.
    destruct (IH rest Hrest) as [Hsub Hall]. destruct excluded.
    + split; [by apply sublist_cons|done].
    + split; [by apply sublist_skip|].
      intros r' [->|Hr']%elem_of_cons; [done|by apply Hall].
Qed.

Lemma mapManual_urls (this : Options.t) routes entries :
  mapManual this routes = Ok entries ->
  map SitemapEntry.url entries =
  map (fun r => buildFullUrl this (ManualSitemapEntry.location r)) routes.
Proof.
  revert entries. induction routes as [|r routes IH]; intros entries H.
  - by injection H as <-.
  - cbn [mapManual] in H.
    apply obind_Ok in H as (entry & Hentry & H).
    apply obind_Ok in H as (rest & Hrest & H). injection H as <-.
    cbn [map]. rewrite (IH rest Hrest). f_equal.
    unfold createManualSitemapEntry in Hentry.
    apply obind_Ok in Hentry as (lastmod & _ & Hentry). by injection Hentry as <-.
Qed.

Lemma generateSitemapEntries_eq (this : Options.t) w routeTree routes manualEntries console :
  extractRoutesFromTree this routeTree "" = Ok routes ->
  generateManualRoutes this w = Ok (manualEntries, console) ->
  generateSitemapEntries this w routeTree =
  Ok (map (createSitemapEntry this) (keepFirst [] routes) ++ manualEntries, console).
Proof.
  intros Hroutes Hmanual. unfold generateSitemapEntries.
  rewrite Hroutes. cbn [obind]. rewrite Hmanual. cbn [obind].
  by rewrite (uniqueRoutes_keepFirst routes (extractRoutesFromTree_included _ _ _ _ Hroutes)).
Qed.

(** C5. When the flattening of the tree and the provider both come back,
    [generateSitemapEntries] returns the static entries followed by the
    manual entries, and nothing of one set is dropped because of the other.
    The static entries are those of the kept descriptors, which form a
    subsequence of the flattened ones (order preserved); for every path of a
    flattened descriptor exactly one descriptor with that path is kept, the
    first of the flattened sequence. When nothing was logged, the manual
    entries are those of the provider's routes that are not excluded, in the
    order the provider gave them. *)
Theorem C5_first_occurrence_then_manual
    (this : Options.t) (w : World) (routeTree : TanStackRoute)
    (routes : list RouteInfo.t) (manualEntries : list SitemapEntry.t)
    (console : list (string * string)) :
  extractRoutesFromTree this routeTree "" = Ok routes ->
  generateManualRoutes this w = Ok (manualEntries, console) ->
  generateSitemapEntries this w routeTree =
    Ok (map (createSitemapEntry this) (keepFirst [] routes) ++ manualEntries, console)
  /\ sublist (keepFirst [] routes) routes
  /\ NoDup (map RouteInfo.path (keepFirst [] routes))
  /\ (forall r, r ∈ routes ->
        exists first,
          List.find (fun r' => String.eqb (RouteInfo.path r') (RouteInfo.path r)) routes
            = Some first
          /\ filter (fun r' => RouteInfo.path r' = RouteInfo.path r) (keepFirst [] routes)
             = [first])
  /\ (forall provider yielded,
        Options.manualRoutes this = Some provider ->
        provider w = Returns yielded \/ provider w = Resolves yielded ->
        console = [] ->
        exists kept,
          filterNotExcluded this yielded = Ok kept
          /\ sublist kept yielded
          /\ map SitemapEntry.url manualEntries =
             map (fun r => buildFullUrl this (ManualSitemapEntry.location r)) kept).
Proof.
  intros Hroutes Hmanual.
  split; [by apply generateSitemapEntries_eq|].
  split; [apply keepFirst_sublist|].
  split; [apply keepFirst_NoDup|].
  split.
  - intros r Hr. rewrite keepFirst_first.
    rewrite bool_decide_eq_false_2 by apply not_elem_of_nil.
    destruct (List.find _ routes) as [first|] eqn:Hfind; [by exists first|].
    exfalso. apply list_elem_of_In in Hr.
    apply (List.find_none _ _ Hfind) in Hr. by rewrite String.eqb_refl in Hr.
  - intros provider yielded Hprov Hyield ->.
    unfold generateManualRoutes in Hmanual. rewrite Hprov in Hmanual.
    assert (Hattempt :
      (let* kept := filterNotExcluded this yielded in mapManual this kept)
      = Ok manualEntries).
    { destruct Hyield as [Hy|Hy]; rewrite Hy in Hmanual;
        destruct (let* kept := filterNotExcluded this yielded in mapManual this kept);
        by inversion Hmanual. }
    apply obind_Ok in Hattempt as (kept & Hkept & Hmap).
    exists kept. split; [done|]. split.
    + by apply (filterNotExcluded_sublist this yielded kept).
    + by apply mapManual_urls.
Qed.

(** ** A failing provider *)

Lemma extractRoutesFromTree_withoutProvider (this : Options.t) route parentPath :
  extractRoutesFromTree (withoutProvider this) route parentPath =
  extractRoutesFromTree this route parentPath.
Proof.
  revert parentPath.
  induction route as [path children IH] using TanStackRoute_children_ind.
  intros parentPath. rewrite !extractRoutesFromTree_eq. cbv zeta.
  set (fullPath := buildFullPath parentPath (default "" path)). clearbody fullPath.
  assert (Hbelow : extractEach (withoutProvider this) fullPath children
                   = extractEach this fullPath children).
  { induction IH as [|c cs Hc _ IHcs]; [reflexivity|].
    by rewrite !extractEach_cons, Hc, IHcs. }
  by rewrite Hbelow.
Qed.

(** C6. When the configured provider throws or its promise rejects,
    [generateManualRoutes] returns no entries and logs one warning carrying
    the error, and [generateSitemapEntries] still returns: its entries are
    the static entries, the same that a generator without a provider
    returns for the tree. *)
Theorem C6_provider_failure_recovered
    (this : Options.t) (w : World) (routeTree : TanStackRoute)
    (provider : Provider) (error : string) (routes : list RouteInfo.t) :
  Options.manualRoutes this = Some provider ->
  provider w = Throws error \/ provider w = Rejects error ->
  extractRoutesFromTree this routeTree "" = Ok routes ->
  generateManualRoutes this w = Ok ([], [warning error])
  /\ generateSitemapEntries this w routeTree =
     Ok (map (createSitemapEntry this) (uniqueRoutes routes), [warning error])
  /\ generateSitemapEntries (withoutProvider this) w routeTree =
     Ok (map (createSitemapEntry this) (uniqueRoutes routes), []).
Proof.
  intros Hprov Hfail Hroutes.
  assert (Hmanual : generateManualRoutes this w = Ok ([], [warning error])).
  { unfold generateManualRoutes. rewrite Hprov. by destruct Hfail as [-> | ->]. }
  split; [exact Hmanual|]. split.
  - unfold generateSitemapEntries. rewrite Hroutes. cbn [obind].
    rewrite Hmanual. cbn [obind]. by rewrite app_nil_r.
  - unfold generateSitemapEntries.
    rewrite extractRoutesFromTree_withoutProvider, Hroutes. cbn [obind].
    change (generateManualRoutes (withoutProvider this) w)
      with (@Ok (list SitemapEntry.t * list (string * string)) ([], [])).
    cbn [obind]. rewrite app_nil_r. reflexivity.
Qed.

(** ** Field resolution *)

Lemma extractRoutesFromTree_options (this : Options.t) route parentPath routes :
  extractRoutesFromTree this route parentPath = Ok routes ->
  Forall (fun r => RouteInfo.sitemapOptions r = routeOptionsAt this (RouteInfo.path r)) routes.
Proof. apply extractRoutesFromTree_Forall. reflexivity. Qed.

Lemma number_truthy_nonzero (p : number) : number_truthy p = true <-> ~ (p == 0)%Q.
Proof.
  unfold number_truthy, Qeq. simpl. rewrite negb_true_iff, Z.eqb_neq. lia.
Qed.

(** C2, as stated, fails: the override [{ lastmod: '' }] for [/about] is
    present in [routeOptions], yet the entry emitted for [/about] carries
    the configured default [2024-01-01], not the empty string. *)
Lemma C2_empty_lastmod_falls_through :
  Options.routeOptions (optionsWithOverride emptyLastmodOverride "2024-01-01") !! "/about"
    = Some emptyLastmodOverride
  /\ PartialEntry.lastmod emptyLastmodOverride = Some ""
  /\ generateSitemapEntries (optionsWithOverride emptyLastmodOverride "2024-01-01") 0 aboutTree
     = Ok ([defaultEntry "2024-01-01" "https://example.com/";
            defaultEntry "2024-01-01" "https://example.com/about"], [])
  /\ SitemapEntry.lastmod (defaultEntry "2024-01-01" "https://example.com/about") <> Some "".
Proof.
  split; [vm_compute; reflexivity|].
  split; [reflexivity|].
  split; [vm_compute; reflexivity|discriminate].
Qed.

(** The static path reads a priority of 0 as missing, where the manual
    path keeps it. *)
Lemma zero_priority_static_and_manual :
  generateSitemapEntries (optionsWithOverride zeroPriorityOverride "2024-01-01") 0 aboutTree
    = Ok ([defaultEntry "2024-01-01" "https://example.com/";
           defaultEntry "2024-01-01" "https://example.com/about"], [])
  /\ createManualSitemapEntry (exampleOptions "2024-01-01")
       (ManualSitemapEntry.mk "/about" (Some 0%Q) None None)
     = Ok {| SitemapEntry.url := "https://example.com/about";
             SitemapEntry.lastmod := Some "2024-01-01";
             SitemapEntry.changefreq := Some weekly;
             SitemapEntry.priority := Some 0%Q |}.
Proof. split; vm_compute; reflexivity. Qed.

(** C2, amended. For a flattened descriptor whose path has an entry in
    [routeOptions], the emitted entry takes from that entry: a [lastmod]
    that is not the empty string, any [changefreq], and a [priority] that is
    not zero. A field missing from the entry falls through to the
    configured default, and so does a [lastmod] that is the empty string. *)
Theorem C2_truthy_override_wins
    (this : Options.t) (routeTree : TanStackRoute) (routes : list RouteInfo.t)
    (route : RouteInfo.t) (override : PartialEntry.t) :
  extractRoutesFromTree this routeTree "" = Ok routes ->
  route ∈ routes ->
  Options.routeOptions this !! RouteInfo.path route = Some override ->
  let entry := createSitemapEntry this route in
  (forall s, PartialEntry.lastmod override = Some s -> s <> "" ->
     SitemapEntry.lastmod entry = Some s)
  /\ (PartialEntry.lastmod override = None \/ PartialEntry.lastmod override = Some "" ->
      SitemapEntry.lastmod entry = Options.lastmod this)
  /\ (forall c, PartialEntry.changefreq override = Some c ->
      SitemapEntry.changefreq entry = Some c)
  /\ (PartialEntry.changefreq override = None ->
      SitemapEntry.changefreq entry = Options.defaultChangefreq this)
  /\ (forall p, PartialEntry.priority override = Some p -> ~ (p == 0)%Q ->
      SitemapEntry.priority entry = Some p)
  /\ (PartialEntry.priority override = None ->
      SitemapEntry.priority entry = Options.defaultPriority this).
Proof.
  intros Hroutes Hroute Hlookup entry.
  pose proof (extractRoutesFromTree_options _ _ _ _ Hroutes) as Hopts.
  rewrite Forall_forall in Hopts. specialize (Hopts route Hroute).
  unfold routeOptionsAt in Hopts. rewrite Hlookup in Hopts. simpl in Hopts.
  subst entry. unfold createSitemapEntry. cbn [SitemapEntry.lastmod
    SitemapEntry.changefreq SitemapEntry.priority]. rewrite Hopts.
  repeat split.
  - intros s -> Hs. unfold or_string.
    by rewrite (proj2 (truthy_true s) Hs).
  - intros [-> | ->]; reflexivity.
  - intros c ->. unfold or_changefreq. by destruct c.
  - by intros ->.
  - intros p -> Hp. unfold or_number.
    by rewrite (proj2 (number_truthy_nonzero p) Hp).
  - by intros ->.
Qed.

(** ** Defaults filled by the constructor *)

Lemma or_string_defined (a b : option string) : is_Some b -> is_Some (or_string a b).
Proof. intros Hb. destruct a as [s|]; [|done]. simpl. by destruct (Js.truthy s). Qed.

Lemma or_changefreq_defined (a b : option Changefreq) :
  is_Some b -> is_Some (or_changefreq a b).
Proof.
  intros Hb. destruct a as [c|]; [|done]. simpl.
  by destruct (Js.truthy (changefreq_string c)).
Qed.

Lemma or_number_defined (a b : option number) : is_Some b -> is_Some (or_number a b).
Proof. intros Hb. destruct a as [x|]; [|done]. simpl. by destruct (number_truthy x). Qed.

Lemma spread_defined {A : Type} (d : A) (f : field A) : f <> Undefined -> is_Some (spread d f).
Proof. by destruct f. Qed.

Lemma createSitemapEntry_defined (this : Options.t) route :
  is_Some (Options.lastmod this) ->
  is_Some (Options.defaultChangefreq this) ->
  is_Some (Options.defaultPriority this) ->
  allDefined (createSitemapEntry this route).
Proof.
  intros Hl Hc Hp. unfold allDefined, createSitemapEntry. simpl.
  auto using or_string_defined, or_changefreq_defined, or_number_defined.
Qed.

Lemma createManualSitemapEntry_defined (this : Options.t) route entry :
  is_Some (Options.lastmod this) ->
  is_Some (Options.defaultChangefreq this) ->
  is_Some (Options.defaultPriority this) ->
  createManualSitemapEntry this route = Ok entry ->
  allDefined entry.
Proof.
  intros Hl Hc Hp H. unfold createManualSitemapEntry in H.
  apply obind_Ok in H as (lastmod & _ & H). injection H as <-.
  unfold allDefined. simpl. repeat split.
  - by apply or_string_defined.
  - by apply or_changefreq_defined.
  - by destruct (ManualSitemapEntry.priority route).
Qed.

Lemma mapManual_Forall (this : Options.t) (P : SitemapEntry.t -> Prop) routes entries :
  (forall route entry, createManualSitemapEntry this route = Ok entry -> P entry) ->
  mapManual this routes = Ok entries -> Forall P entries.
Proof.
  intros HP. revert entries. induction routes as [|r routes IH]; intros entries H.
  - injection H as <-. constructor.
  - cbn [mapManual] in H.
    apply obind_Ok in H as (entry & Hentry & H).
    apply obind_Ok in H as (rest & Hrest & H). injection H as <-.
    constructor; [by eapply HP|by apply IH].
Qed.

Lemma generateManualRoutes_Forall (this : Options.t) (P : SitemapEntry.t -> Prop) w entries console :
  (forall route entry, createManualSitemapEntry this route = Ok entry -> P entry) ->
  generateManualRoutes this w = Ok (entries, console) -> Forall P entries.
Proof.
  intros HP. unfold generateManualRoutes.
  destruct (Options.manualRoutes this) as [provider|]; [|by intros [= <- <-]].
  set (attempt := match provider w with
                  | Returns routes | Resolves routes =>
                      let* kept := filterNotExcluded this routes in mapManual this kept
                  | Throws error | Rejects error => Thrown error
                  end).
  destruct attempt as [es|msg|] eqn:Hattempt; [|by intros [= <- <-]|discriminate].
  intros [= <- <-]. subst attempt.
  destruct (provider w) as [rs|rs|e|e]; try discriminate;
    apply obind_Ok in Hattempt as (kept & _ & Hmap); by eapply mapManual_Forall.
Qed.

Lemma generateSitemapEntries_Ok (this : Options.t) w routeTree entries console :
  generateSitemapEntries this w routeTree = Ok (entries, console) <->
  exists routes manualEntries,
    extractRoutesFromTree this routeTree "" = Ok routes
    /\ generateManualRoutes this w = Ok (manualEntries, console)
    /\ entries = map (createSitemapEntry this) (uniqueRoutes routes) ++ manualEntries.
Proof.
  unfold generateSitemapEntries. split.
  - intros H. apply obind_Ok in H as (routes & Hroutes & H).
    apply obind_Ok in H as ([manualEntries console'] & Hmanual & H).
    injection H as <- <-. by exists routes, manualEntries.
  - intros (routes & manualEntries & -> & -> & ->). reflexivity.
Qed.

Lemma constructor_Ok (options : SitemapOptions.t) now this :
  constructor options now = Ok this ->
  Options.defaultChangefreq this = spread weekly (SitemapOptions.defaultChangefreq options)
  /\ Options.defaultPriority this = spread (1 # 2)%Q (SitemapOptions.defaultPriority options)
  /\ Options.lastmod this = spread now (SitemapOptions.lastmod options)
  /\ Options.manualRoutes this = SitemapOptions.manualRoutes options.
Proof.
  unfold constructor. destruct (SitemapOptions.baseUrl options) as [base|]; [|discriminate].
  destruct (negb (Js.truthy base) || String.eqb (Js.trim base) ""); [discriminate|].
  by intros [= <-].
Qed.

Lemma spread_filled {A : Type} (d : A) (f : field A) :
  f <> Undefined -> spread d f = Some (filled d f).
Proof. by destruct f. Qed.

(** C10. When the options object leaves [defaultChangefreq],
    [defaultPriority] and [lastmod] out or gives them values (none of them is
    an explicit [undefined]), the constructor fills the three defaults, with
    [weekly], 0.5 and the time of construction for the keys left out, and
    every entry that [generateSitemapEntries] returns, static or manual, has
    [lastmod], [changefreq] and [priority] defined. *)
Theorem C10_defaults_always_defined
    (routeTree : TanStackRoute) (options : SitemapOptions.t) (now : string) (w : World)
    (entries : list SitemapEntry.t) (console : list (string * string)) :
  SitemapOptions.defaultChangefreq options <> Undefined ->
  SitemapOptions.defaultPriority options <> Undefined ->
  SitemapOptions.lastmod options <> Undefined ->
  SitemapGenerator.generateSitemapEntries routeTree options now w = Ok (entries, console) ->
  (exists this,
     constructor options now = Ok this
     /\ Options.defaultChangefreq this
        = Some (filled weekly (SitemapOptions.defaultChangefreq options))
     /\ Options.defaultPriority this
        = Some (filled (1 # 2)%Q (SitemapOptions.defaultPriority options))
     /\ Options.lastmod this = Some (filled now (SitemapOptions.lastmod options)))
  /\ Forall allDefined entries.
Proof.
  intros Hc Hp Hl H. unfold SitemapGenerator.generateSitemapEntries in H.
  apply obind_Ok in H as (this & Hctor & H).
  destruct (constructor_Ok _ _ _ Hctor) as (Hc' & Hp' & Hl' & _).
  rewrite spread_filled in Hc' by done.
  rewrite spread_filled in Hp' by done.
  rewrite spread_filled in Hl' by done.
  split; [by exists this|].
  apply generateSitemapEntries_Ok in H as (routes & manualEntries & _ & Hmanual & ->).
  assert (is_Some (Options.lastmod this)) by (by rewrite Hl').
  assert (is_Some (Options.defaultChangefreq this)) by (by rewrite Hc').
  assert (is_Some (Options.defaultPriority this)) by (by rewrite Hp').
  apply Forall_app. split.
  - apply Forall_forall. intros e He. apply list_elem_of_fmap in He as (r & -> & _).
    by apply createSitemapEntry_defined.
  - eapply generateManualRoutes_Forall; [|exact Hmanual].
    intros route entry. by apply createManualSitemapEntry_defined.
Qed.

(** ** Determinism *)

(** C8, as stated, fails for one instance called twice: the provider is
    called anew by every run, and when what it yields has changed in
    between, the two documents differ. *)
Lemma C8_same_instance_impure_provider_differs :
  generateXmlSitemap (optionsWithProvider growingProvider "2024-01-01") 0 homeAboutTree
  <> generateXmlSitemap (optionsWithProvider growingProvider "2024-01-01") 1 homeAboutTree.
Proof. vm_compute. discriminate. Qed.

Lemma generateManualRoutes_pure (this : Options.t) (w1 w2 : World) :
  pureProvider (Options.manualRoutes this) ->
  generateManualRoutes this w1 = generateManualRoutes this w2.
Proof.
  intros Hpure. unfold generateManualRoutes.
  destruct (Options.manualRoutes this) as [provider|]; [|reflexivity].
  by rewrite (Hpure provider eq_refl w1 w2).
Qed.

Lemma generateXmlSitemap_pure (this : Options.t) (routeTree : TanStackRoute) (w1 w2 : World) :
  pureProvider (Options.manualRoutes this) ->
  generateXmlSitemap this w1 routeTree = generateXmlSitemap this w2 routeTree.
Proof.
  intros Hpure. unfold generateXmlSitemap, generateSitemapEntries.
  by rewrite (generateManualRoutes_pure this w1 w2 Hpure).
Qed.

Lemma constructor_fixed_lastmod (options : SitemapOptions.t) (now1 now2 : string) :
  SitemapOptions.lastmod options <> Absent ->
  constructor options now1 = constructor options now2.
Proof.
  intros Hfixed. unfold constructor.
  destruct (SitemapOptions.lastmod options); [done|reflexivity|reflexivity].
Qed.

(** C8, amended. Two runs of [generateXmlSitemap] on one instance with the
    same tree give the same document and the same console lines when the
    instance has no provider or a pure one; and so do two runs of
    [generateSitemap], each building its own instance at its own time, from
    the same options when these fix [lastmod] and have no provider or a pure
    one. *)
Theorem C8_deterministic_with_pure_provider :
  (forall (this : Options.t) (routeTree : TanStackRoute) (w1 w2 : World),
     pureProvider (Options.manualRoutes this) ->
     generateXmlSitemap this w1 routeTree = generateXmlSitemap this w2 routeTree)
  /\ (forall (options : SitemapOptions.t) (routeTree : TanStackRoute)
            (now1 now2 : string) (w1 w2 : World) (fixed : string),
        SitemapOptions.lastmod options = Value fixed ->
        pureProvider (SitemapOptions.manualRoutes options) ->
        SitemapGenerator.generateSitemap routeTree options now1 w1
        = SitemapGenerator.generateSitemap routeTree options now2 w2).
Proof.
  split.
  - intros this routeTree w1 w2. apply generateXmlSitemap_pure.
  - intros options routeTree now1 now2 w1 w2 fixed Hfixed Hpure.
    unfold SitemapGenerator.generateSitemap.
    rewrite (constructor_fixed_lastmod options now1 now2) by (by rewrite Hfixed).
    destruct (constructor options now2) as [this| |] eqn:Hctor; [|reflexivity|reflexivity].
    cbn [obind]. apply generateXmlSitemap_pure.
    by rewrite (proj2 (proj2 (proj2 (constructor_Ok _ _ _ Hctor)))).
Qed.

(** ** Children of a dynamic node *)

Lemma obind_ret {A : Type} (m : outcome A) : obind m Ok = m.
Proof. by destruct m. Qed.

Lemma replace_runs_absent (c : ascii) (r s : string) :
  Js.includes s c = false -> Js.replace_runs c r s = s.
Proof.
  induction s as [|a s IH]; [reflexivity|]. cbn [Js.includes Js.replace_runs].
  intros [Ha Hs]%orb_false_iff. rewrite Ha. by rewrite IH.
Qed.

Lemma startsWith_absent (s : string) (c : ascii) :
  Js.includes s c = false -> Js.startsWith s (String c "") = false.
Proof.
  unfold Js.startsWith. destruct s as [|a s]; [reflexivity|]. cbn [Js.includes String.prefix].
  intros [Ha _]%orb_false_iff. destruct (ascii_dec c a) as [->|]; [|reflexivity].
  by rewrite Ascii.eqb_refl in Ha.
Qed.

Lemma buildFullPath_dynamic (parentPath routePath : string) :
  Js.startsWith routePath "/" = false ->
  isDynamicRoute routePath = true ->
  buildFullPath parentPath routePath = "".
Proof. intros Hrel Hdyn. unfold buildFullPath. by rewrite Hrel, Hdyn. Qed.

Lemma replace_runs_cons (c : ascii) (r : string) (a : ascii) (s : string) :
  Js.replace_runs c r (String a s) =
  if Ascii.eqb a c then
    match s with
    | String b _ =>
        if Ascii.eqb b c then Js.replace_runs c r s else r +:+ Js.replace_runs c r s
    | EmptyString => r
    end
  else String a (Js.replace_runs c r s).
Proof. reflexivity. Qed.

Lemma replace_runs_head (c : ascii) (r s : string) :
  Js.includes s c = false -> Js.replace_runs c r (String c s) = r +:+ s.
Proof.
  intros Hs. rewrite replace_runs_cons, Ascii.eqb_refl.
  destruct s as [|b s]; [by rewrite append_empty_r|].
  rewrite (replace_runs_absent c r _ Hs).
  cbn [Js.includes] in Hs. apply orb_false_iff in Hs as [-> _]. reflexivity.
Qed.

Lemma buildFullPath_simple (s : string) :
  simpleSegment s = true -> buildFullPath "" s = "/" +:+ s.
Proof.
  unfold simpleSegment. rewrite !andb_true_iff, !negb_true_iff.
  intros ((((Hs & Hslash) & Hdyn) & Hindex) & Hroot).
  unfold buildFullPath.
  rewrite (startsWith_absent s "/" Hslash), Hdyn, Hs, Hindex, Hroot. cbn [negb orb].
  change (String.eqb "" "/") with false. cbv iota. rewrite append_empty_l.
  change ("/" +:+ s) with (String "/" s).
  rewrite (replace_runs_head "/" "/" s Hslash). reflexivity.
Qed.

Lemma extractEach_elem (this : Options.t) fullPath children routes child :
  extractEach this fullPath children = Ok routes ->
  child ∈ children ->
  exists sub, extractRoutesFromTree this child fullPath = Ok sub
              /\ forall r, r ∈ sub -> r ∈ routes.
Proof.
  revert routes. induction children as [|c cs IH]; intros routes H Hin.
  - by apply elem_of_nil in Hin.
  - rewrite extractEach_cons in H.
    apply obind_Ok in H as (sub & Hsub & H).
    apply obind_Ok in H as (rest & Hrest & H). injection H as <-.
    apply elem_of_cons in Hin as [->|Hin].
    + exists sub. split; [done|]. intros r Hr. apply elem_of_app. by left.
    + destruct (IH rest Hrest Hin) as (sub' & Hsub' & Hall).
      exists sub'. split; [done|]. intros r Hr. apply elem_of_app. right. by apply Hall.
Qed.

Lemma extractRoutesFromTree_occurs (this : Options.t) root parentPath node at_ routes :
  occursAt root parentPath node at_ ->
  extractRoutesFromTree this root parentPath = Ok routes ->
  exists sub, extractRoutesFromTree this node at_ = Ok sub
              /\ forall r, r ∈ sub -> r ∈ routes.
Proof.
  intros Hocc. revert routes.
  induction Hocc as [root parentPath|path children parentPath child node at_ Hin _ IH];
    intros routes Hroutes.
  - by exists routes.
  - rewrite extractRoutesFromTree_eq in Hroutes. cbv zeta in Hroutes.
    apply obind_Ok in Hroutes as (own & _ & Hroutes).
    apply obind_Ok in Hroutes as (below & Hbelow & Hroutes). injection Hroutes as <-.
    destruct (extractEach_elem _ _ _ _ _ Hbelow Hin) as (mid & Hmid & Hmid_in).
    destruct (IH mid Hmid) as (sub & Hsub & Hsub_in).
    exists sub. split; [exact Hsub|].
    intros r Hr. apply elem_of_app. right. auto.
Qed.

Lemma createSitemapEntry_url (this : Options.t) (route : RouteInfo.t) :
  SitemapEntry.url (createSitemapEntry this route) = buildFullUrl this (RouteInfo.path route).
Proof. reflexivity. Qed.

(** Every flattened path has its URL among the entries returned. *)
Lemma flattened_path_emitted (this : Options.t) w routeTree routes entries console r :
  extractRoutesFromTree this routeTree "" = Ok routes ->
  generateSitemapEntries this w routeTree = Ok (entries, console) ->
  r ∈ routes ->
  buildFullUrl this (RouteInfo.path r) ∈ map SitemapEntry.url entries.
Proof.
  intros Hroutes Hgen Hr.
  apply generateSitemapEntries_Ok in Hgen as (routes' & manualEntries & Hroutes' & _ & ->).
  rewrite Hroutes in Hroutes'. injection Hroutes' as <-.
  rewrite (uniqueRoutes_keepFirst routes (extractRoutesFromTree_included _ _ _ _ Hroutes)).
  rewrite map_app, map_map. apply elem_of_app. left.
  assert (Hp : RouteInfo.path r ∈ map RouteInfo.path (keepFirst [] routes)).
  { apply keepFirst_paths. split; [|apply not_elem_of_nil].
    apply list_elem_of_fmap. by exists r. }
  apply list_elem_of_fmap in Hp as (r' & Hpath & Hr').
  apply list_elem_of_fmap. exists r'. split; [|exact Hr'].
  by rewrite createSitemapEntry_url, Hpath.
Qed.

(** C9. A node whose raw path is relative and dynamic gets the empty full
    path, whatever its parent path; it pushes nothing, and its children are
    flattened from the empty parent path. A child with a simple segment [s]
    then has the full path [/s]. Unless [/s] is excluded it is emitted there:
    wherever the dynamic node occurs in a route tree, the flattening of the
    tree contains the descriptor of [/s], and the entries generated for the
    tree contain the URL built from [/s], without any segment of the
    ancestors. *)
Theorem C9_dynamic_parent_prefix_dropped
    (this : Options.t) (parentPath d s : string)
    (children grandchildren : list TanStackRoute) :
  Js.startsWith d "/" = false ->
  isDynamicRoute d = true ->
  simpleSegment s = true ->
  isExcludedRoute this ("/" +:+ s) = Ok false ->
  buildFullPath parentPath d = ""
  /\ extractRoutesFromTree this (Route (Some d) children) parentPath
     = extractEach this "" children
  /\ buildFullPath "" s = "/" +:+ s
  /\ extractRoutesFromTree this (Route (Some s) grandchildren) ""
     = (let* below := extractEach this ("/" +:+ s) grandchildren in
        Ok (descriptor this ("/" +:+ s) :: below))
  /\ (forall routeTree routes,
        occursAt routeTree "" (Route (Some d) children) parentPath ->
        Route (Some s) grandchildren ∈ children ->
        extractRoutesFromTree this routeTree "" = Ok routes ->
        descriptor this ("/" +:+ s) ∈ routes
        /\ forall w entries console,
             generateSitemapEntries this w routeTree = Ok (entries, console) ->
             buildFullUrl this ("/" +:+ s) ∈ map SitemapEntry.url entries).
Proof.
  intros Hrel Hdyn Hsimple Hnotex.
  pose proof (buildFullPath_dynamic parentPath d Hrel Hdyn) as Hd.
  pose proof (buildFullPath_simple s Hsimple) as Hs.
  assert (Hnode : extractRoutesFromTree this (Route (Some d) children) parentPath
                  = extractEach this "" children).
  { rewrite extractRoutesFromTree_eq. cbv zeta. simpl default. rewrite Hd.
    cbn [Js.truthy String.eqb negb andb obind app]. apply obind_ret. }
  assert (Hchild : extractRoutesFromTree this (Route (Some s) grandchildren) ""
                   = (let* below := extractEach this ("/" +:+ s) grandchildren in
                      Ok (descriptor this ("/" +:+ s) :: below))).
  { rewrite extractRoutesFromTree_eq. cbv zeta. simpl default. rewrite Hs.
    unfold simpleSegment in Hsimple. rewrite !andb_true_iff, !negb_true_iff in Hsimple.
    destruct Hsimple as ((((_ & _) & Hsdyn) & _) & _). rewrite Hsdyn.
    change (Js.truthy ("/" +:+ s)) with true. cbn [negb andb].
    rewrite Hnotex. reflexivity. }
  split; [exact Hd|]. split; [exact Hnode|]. split; [exact Hs|]. split; [exact Hchild|].
  intros routeTree routes Hocc Hin Hroutes.
  assert (Hdesc : descriptor this ("/" +:+ s) ∈ routes).
  { destruct (extractRoutesFromTree_occurs _ _ _ _ _ _ Hocc Hroutes) as (sub & Hsub & Hsub_in).
    apply Hsub_in. rewrite Hnode in Hsub.
    destruct (extractEach_elem _ _ _ _ _ Hsub Hin) as (leaf & Hleaf & Hleaf_in).
    apply Hleaf_in. rewrite Hchild in Hleaf.
    apply obind_Ok in Hleaf as (below & _ & Hleaf). injection Hleaf as <-.
    apply elem_of_cons. by left. }
  split; [exact Hdesc|].
  intros w entries console Hgen.
  exact (flattened_path_emitted this w routeTree routes entries console _ Hroutes Hgen Hdesc).
Qed.

(** ** The exclusion matcher *)

Lemma endsWith_cons (a : ascii) (s suf : string) :
  Js.endsWith (String a s) suf = String.eqb (String a s) suf || Js.endsWith s suf.
Proof. reflexivity. Qed.

Lemma endsWith_star_includes (s : string) :
  Js.endsWith s "/*" = true -> Js.includes s "*" = true.
Proof.
  induction s as [|a s IH]; [discriminate|].
  rewrite endsWith_cons. intros [Heq|Htail]%orb_true_iff.
  - apply String.eqb_eq in Heq. by rewrite Heq.
  - cbn [Js.includes]. rewrite (IH Htail). apply orb_true_r.
Qed.

Lemma matchesExclude_parent (path excludePath : string) :
  Js.endsWith excludePath "/*" = true ->
  path = Js.slice_to_minus 2 excludePath
  \/ Js.startsWith path (Js.slice_to_minus 2 excludePath +:+ "/") = true ->
  matchesExclude path excludePath = Ok true.
Proof.
  intros Hends Hpath. unfold matchesExclude.
  rewrite (endsWith_star_includes _ Hends), Hends. cbn [andb].
  destruct Hpath as [->|Hstarts].
  - by rewrite String.eqb_refl.
  - rewrite Hstarts. by rewrite orb_true_r.
Qed.

(** C3. With the pattern [/admin/*] the matcher accepts [/admin] and
    [/admin/x] and rejects [/administrator]. For every pattern that ends in
    [/*], it accepts a path that is the pattern without that suffix, or that
    starts with the pattern without that suffix followed by [/]; a generator
    whose exclusion list holds just that pattern excludes the path. *)
Theorem C3_slash_star_glob :
  (matchesExclude "/admin" "/admin/*" = Ok true
   /\ matchesExclude "/admin/x" "/admin/*" = Ok true
   /\ matchesExclude "/administrator" "/admin/*" = Ok false)
  /\ (forall (path excludePath : string),
        Js.endsWith excludePath "/*" = true ->
        path = Js.slice_to_minus 2 excludePath
        \/ Js.startsWith path (Js.slice_to_minus 2 excludePath +:+ "/") = true ->
        matchesExclude path excludePath = Ok true
        /\ forall this : Options.t,
             Options.excludeRoutes this = [excludePath] ->
             isExcludedRoute this path = Ok true).
Proof.
  split; [repeat split; reflexivity|].
  intros path excludePath Hends Hpath.
  pose proof (matchesExclude_parent path excludePath Hends Hpath) as Hmatch.
  split; [exact Hmatch|].
  intros this Hlist. unfold isExcludedRoute. rewrite Hlist. cbn [some].
  by rewrite Hmatch.
Qed.

(** A pattern anywhere in the list excludes the path, provided the patterns
    before it are within the modelled fragment. *)
Lemma isExcludedRoute_elem (this : Options.t) (path excludePath : string) :
  Forall (fun p => exists b, matchesExclude path p = Ok b) (Options.excludeRoutes this) ->
  excludePath ∈ Options.excludeRoutes this ->
  matchesExclude path excludePath = Ok true ->
  isExcludedRoute this path = Ok true.
Proof.
  unfold isExcludedRoute. intros Hall Hin Hmatch.
  induction Hall as [|p ps [b Hb] _ IH]; [by apply elem_of_nil in Hin|].
  cbn [some]. rewrite Hb. cbn [obind]. destruct b; [reflexivity|].
  apply elem_of_cons in Hin as [->|Hin]; [congruence|by apply IH].
Qed.

(** ** The XML renderer *)

Lemma replace_all_append (c : ascii) (r s t : string) :
  Js.replace_all c r (s +:+ t) = Js.replace_all c r s +:+ Js.replace_all c r t.
Proof.
  induction s as [|a s IH]; [reflexivity|].
  rewrite append_cons. cbn [Js.replace_all]. rewrite IH.
  destruct (Ascii.eqb a c); [by rewrite append_assoc|reflexivity].
Qed.

Lemma escapeXml_append (s t : string) : escapeXml (s +:+ t) = escapeXml s +:+ escapeXml t.
Proof. unfold escapeXml. by rewrite !replace_all_append. Qed.

Lemma escapeXml_char (c : ascii) : escapeXml (String c "") = escapeChar c.
Proof. destruct c as [[] [] [] [] [] [] [] []]; reflexivity. Qed.

Lemma escapeXml_escapeEach (text : string) : escapeXml text = escapeEach text.
Proof.
  induction text as [|c text IH]; [reflexivity|].
  change (String c text) with (String c "" +:+ text).
  rewrite escapeXml_append, escapeXml_char, IH. reflexivity.
Qed.

Lemma appendEntry_urlBlock (indent newline xml : string) (entry : SitemapEntry.t) :
  SitemapEntry.lastmod entry <> Some "" ->
  appendEntry indent newline xml entry = xml +:+ urlBlock indent newline entry.
Proof.
  intros Hlastmod. unfold appendEntry, urlBlock, element, ifPresent.
  rewrite escapeXml_escapeEach.
  destruct entry as [url lastmod changefreq priority]. cbn [SitemapEntry.url
    SitemapEntry.lastmod SitemapEntry.changefreq SitemapEntry.priority] in *.
  assert (Hl : forall s, lastmod = Some s -> Js.truthy s = true).
  { intros s ->. apply truthy_true. congruence. }
  destruct lastmod as [l|]; [rewrite (Hl l eq_refl)|];
    destruct changefreq as [[]|]; destruct priority as [p|];
    cbn [changefreq_string changefreqWord Js.truthy String.eqb negb];
    rewrite !append_assoc; reflexivity.
Qed.

Lemma fold_appendEntry (indent newline : string) (entries : list SitemapEntry.t) (xml : string) :
  Forall (fun e => SitemapEntry.lastmod e <> Some "") entries ->
  fold_left (appendEntry indent newline) entries xml =
  xml +:+ concatBlocks (map (urlBlock indent newline) entries).
Proof.
  intros Hall. revert xml. induction Hall as [|e entries He _ IH]; intros xml.
  - cbn [fold_left map concatBlocks]. by rewrite append_empty_r.
  - cbn [fold_left map concatBlocks].
    rewrite IH, (appendEntry_urlBlock _ _ _ _ He). apply append_assoc.
Qed.

Lemma nearest_tenths_spec (p : number) :
  (0 <= p)%Q ->
  let n := Js.nearest_tenths p in
  ((2 * n - 1) * Z.pos (Qden p) <= 20 * Qnum p < (2 * n + 1) * Z.pos (Qden p))%Z.
Proof.
  intros Hp n. unfold Qle in Hp. simpl in Hp.
  subst n. unfold Js.nearest_tenths. cbv zeta.
  rewrite Z.abs_eq by lia.
  set (d := Z.pos (Qden p)). set (a := Qnum p) in *.
  assert (Hd : (0 < 2 * d)%Z) by lia.
  pose proof (Z.div_mod (20 * a + d) (2 * d) ltac:(lia)) as Hdiv.
  pose proof (Z.mod_pos_bound (20 * a + d) (2 * d) Hd) as Hmod.
  nia.
Qed.

Lemma toFixed1_unit_interval (p : number) :
  (0 <= p)%Q -> (p <= 1)%Q -> oneDecimalDigit (Js.toFixed1 p) = true.
Proof.
  intros H0 H1. pose proof (nearest_tenths_spec p H0) as Hn. cbv zeta in Hn.
  unfold Qle in H0, H1. simpl in H0, H1.
  unfold Js.toFixed1. cbv zeta.
  replace (Qnum p <? 0)%Z with false by (symmetry; apply Z.ltb_ge; lia).
  set (n := Js.nearest_tenths p) in *. clearbody n.
  assert (Hrange : (0 <= n <= 10)%Z) by nia.
  rewrite <- (Z2Nat.id n) by lia.
  assert (Hk : (Z.to_nat n < 11)%nat) by lia.
  generalize dependent (Z.to_nat n). clear. intros k Hk.
  do 11 (destruct k as [|k]; [reflexivity|]). lia.
Qed.

(** C7. For entries that are well formed, [entriesToXml] returns the
    document of the specification: the XML declaration, the [urlset] root
    with the sitemap namespace (both as the literal texts [declarationText]
    and [rootOpenText], each followed by a line feed when pretty printing is
    on), then for every entry one [url] block with
    [loc], then [lastmod], [changefreq] and [priority] for the fields that
    are present, in that order, then the closing tag. The text of [loc] is
    the URL with each of the five characters replaced by its entity, in one
    pass: applying the five substitutions in the order of the source, the
    ampersand first, escapes no character twice. A priority is written as
    one digit, the point, one digit, for the tenth nearest to it. *)
Theorem C7_document_layout (this : Options.t) (entries : list SitemapEntry.t) :
  Forall wellFormedEntry entries ->
  entriesToXml this entries = renderDocument (cond (Options.prettyPrint this)) entries
  /\ (forall text, escapeXml text = escapeEach text)
  /\ Forall (fun e => forall p, SitemapEntry.priority e = Some p ->
               oneDecimalDigit (Js.toFixed1 p) = true
               /\ Js.toFixed1 p = Js.digits (Js.nearest_tenths p / 10) +:+ "."
                                  +:+ Js.digits (Js.nearest_tenths p mod 10)
               /\ ((2 * Js.nearest_tenths p - 1) * Z.pos (Qden p) <= 20 * Qnum p
                   < (2 * Js.nearest_tenths p + 1) * Z.pos (Qden p))%Z)
       entries.
Proof.
  intros Hwf. split; [|split].
  - unfold entriesToXml, renderDocument. cbv zeta.
    rewrite fold_appendEntry.
    + by rewrite !append_assoc.
    + eapply Forall_impl; [exact Hwf|]. by intros e [He _].
  - apply escapeXml_escapeEach.
  - eapply Forall_impl; [exact Hwf|]. intros e [_ He] p Hp.
    destruct (He p Hp) as [H0 H1]. split; [by apply toFixed1_unit_interval|].
    split; [|by apply nearest_tenths_spec].
    unfold Js.toFixed1. cbv zeta. unfold Qle in H0. simpl in H0.
    replace (Qnum p <? 0)%Z with false; [reflexivity|].
    symmetry. apply Z.ltb_ge. lia.
Qed.

(** ** Generation returns *)

Lemma matchesExclude_returns (path excludePath : string) :
  supportedPattern excludePath = true -> exists b, matchesExclude path excludePath = Ok b.
Proof.
  unfold supportedPattern, matchesExclude, RegExp.test.
  destruct (Js.includes excludePath "*"); [|by eauto]. cbn [negb orb].
  destruct (RegExp.parse _) as [r|]; [|discriminate]. intros _.
  destruct (_ && _); eauto.
Qed.

Lemma isExcludedRoute_returns (this : Options.t) (path : string) :
  forallb supportedPattern (Options.excludeRoutes this) = true ->
  exists b, isExcludedRoute this path = Ok b.
Proof.
  unfold isExcludedRoute. induction (Options.excludeRoutes this) as [|p ps IH]; [by eauto|].
  cbn [forallb some]. intros [Hp Hps]%andb_true_iff.
  destruct (matchesExclude_returns path p Hp) as [b ->]. cbn [obind].
  destruct b; [by eauto|by apply IH].
Qed.

Lemma extractRoutesFromTree_returns (this : Options.t) (route : TanStackRoute) :
  forallb supportedPattern (Options.excludeRoutes this) = true ->
  forall parentPath, exists routes, extractRoutesFromTree this route parentPath = Ok routes.
Proof.
  intros Hsup. induction route as [path children IH] using TanStackRoute_children_ind.
  intros parentPath. rewrite extractRoutesFromTree_eq. cbv zeta.
  set (fullPath := buildFullPath parentPath (default "" path)). clearbody fullPath.
  assert (Hown : exists own,
    (if Js.truthy fullPath && negb (isDynamicRoute (default "" path)) then
       let* excluded := isExcludedRoute this fullPath in
       if excluded then Ok [] else Ok [descriptor this fullPath]
     else Ok []) = Ok own).
  { destruct (_ && _); [|by eauto].
    destruct (isExcludedRoute_returns this fullPath Hsup) as [[] ->]; cbn [obind]; eauto. }
  destruct Hown as [own ->]. cbn [obind].
  assert (Hbelow : exists below, extractEach this fullPath children = Ok below).
  { induction IH as [|c cs Hc _ IHcs]; [by eexists|].
    rewrite extractEach_cons. destruct (Hc fullPath) as [sub ->].
    destruct IHcs as [rest ->]. cbn [obind]. eauto. }
  destruct Hbelow as [below ->]. cbn [obind]. eauto.
Qed.

Lemma filterNotExcluded_returns (this : Options.t) routes :
  forallb supportedPattern (Options.excludeRoutes this) = true ->
  exists kept, filterNotExcluded this routes = Ok kept.
Proof.
  intros Hsup. induction routes as [|r routes [rest IH]]; [by eexists|].
  cbn [filterNotExcluded].
  destruct (isExcludedRoute_returns this (ManualSitemapEntry.location r) Hsup) as [b ->].
  rewrite IH. cbn [obind]. eauto.
Qed.

Lemma mapManual_not_outside (this : Options.t) routes :
  mapManual this routes <> OutsideModel.
Proof.
  induction routes as [|r routes IH]; [discriminate|]. cbn [mapManual].
  unfold createManualSitemapEntry.
  destruct (ManualSitemapEntry.lastMod r) as [[s|[iso|]]|]; cbn [toISOString obind];
    try discriminate; try destruct (Js.truthy s); cbn [obind];
    destruct (mapManual this routes); cbn [obind]; congruence.
Qed.

(** With exclusion patterns inside the modelled fragment, generation
    returns entries, whatever the tree, the provider and the world. *)
Lemma generateSitemapEntries_returns (this : Options.t) (w : World) (routeTree : TanStackRoute) :
  forallb supportedPattern (Options.excludeRoutes this) = true ->
  exists entries console, generateSitemapEntries this w routeTree = Ok (entries, console).
Proof.
  intros Hsup.
  destruct (extractRoutesFromTree_returns this routeTree Hsup "") as [routes Hroutes].
  assert (Hmanual : exists manualEntries console,
            generateManualRoutes this w = Ok (manualEntries, console)).
  { unfold generateManualRoutes.
    destruct (Options.manualRoutes this) as [provider|]; [|by eauto].
    destruct (provider w) as [rs|rs|e|e]; try (by eauto);
      destruct (filterNotExcluded_returns this rs Hsup) as [kept ->]; cbn [obind];
      pose proof (mapManual_not_outside this kept);
      destruct (mapManual this kept); by eauto. }
  destruct Hmanual as (manualEntries & console & Hmanual).
  eexists _, console. apply generateSitemapEntries_Ok. eauto.
Qed.

(** ** Where no dynamic segment is inherited *)

Lemma includes_collapse (x c : ascii) (s : string) :
  Js.includes (Js.replace_runs x (String x "") s) c = Js.includes s c.
Proof.
  induction s as [|a s IH]; [reflexivity|].
  rewrite replace_runs_cons. destruct (Ascii.eqb_spec a x) as [->|Hne].
  - destruct s as [|b s]; [reflexivity|].
    destruct (Ascii.eqb_spec b x) as [->|Hne].
    + rewrite IH. cbn [Js.includes]. by destruct (Ascii.eqb x c).
    + change (String x "" +:+ ?t) with (String x t). cbn [Js.includes] in *.
      by rewrite IH.
  - cbn [Js.includes]. by rewrite IH.
Qed.

Lemma isDynamicRoute_append (s t : string) :
  isDynamicRoute (s +:+ t) = isDynamicRoute s || isDynamicRoute t.
Proof.
  unfold isDynamicRoute. rewrite !includes_append.
  destruct (Js.includes s "$"), (Js.includes s "["), (Js.includes s "]"),
    (Js.includes t "$"), (Js.includes t "["), (Js.includes t "]"); reflexivity.
Qed.

Lemma buildFullPath_static (parentPath routePath : string) :
  isDynamicRoute parentPath = false ->
  Js.startsWith routePath "/" && isDynamicRoute routePath = false ->
  isDynamicRoute (buildFullPath parentPath routePath) = false.
Proof.
  intros Hparent Habs. unfold buildFullPath.
  destruct (Js.startsWith routePath "/"); [exact Habs|].
  destruct (isDynamicRoute routePath) eqn:Hdyn; [reflexivity|].
  destruct (negb (Js.truthy routePath) || String.eqb routePath "index").
  { by destruct (Js.truthy parentPath). }
  destruct (String.eqb routePath "__root__"); [reflexivity|].
  assert (Hcollapse : forall s, isDynamicRoute (Js.replace_runs "/" "/" s) = isDynamicRoute s).
  { intros s. unfold isDynamicRoute. by rewrite !includes_collapse. }
  rewrite Hcollapse.
  destruct (String.eqb parentPath "/"); rewrite !isDynamicRoute_append;
    rewrite ?Hparent, Hdyn; reflexivity.
Qed.

(** The part of C1 that the code keeps: in a tree without a node whose raw
    path is both absolute and dynamic, no flattened path contains [$], [[]
    or []]. *)
Lemma static_paths_without_absolute_dynamic (this : Options.t) (route : TanStackRoute) :
  absoluteDynamicFree route = true ->
  forall parentPath routes,
    isDynamicRoute parentPath = false ->
    extractRoutesFromTree this route parentPath = Ok routes ->
    Forall (fun r => isDynamicRoute (RouteInfo.path r) = false) routes.
Proof.
  induction route as [path children IH] using TanStackRoute_children_ind.
  cbn [absoluteDynamicFree]. intros [Hnode Hchildren]%andb_true_iff.
  apply negb_true_iff in Hnode.
  intros parentPath routes Hparent. rewrite extractRoutesFromTree_eq. cbv zeta.
  pose proof (buildFullPath_static parentPath (default "" path) Hparent Hnode) as Hfull.
  set (fullPath := buildFullPath parentPath (default "" path)) in *. clearbody fullPath.
  intros H. apply obind_Ok in H as (own & Hown & H).
  apply obind_Ok in H as (below & Hbelow & H). injection H as <-.
  apply Forall_app. split.
  - destruct (Js.truthy fullPath && _).
    + apply obind_Ok in Hown as ([] & _ & Hown); injection Hown as <-; [constructor|].
      constructor; [exact Hfull|constructor].
    + injection Hown as <-. constructor.
  - clear Hown. revert below Hbelow Hchildren.
    induction IH as [|c cs Hc _ IHcs]; intros below Hbelow Hchildren.
    + injection Hbelow as <-. constructor.
    + rewrite extractEach_cons in Hbelow. cbn [forallb] in Hchildren.
      apply andb_true_iff in Hchildren as [Hc' Hcs'].
      apply obind_Ok in Hbelow as (sub & Hsub & Hbelow).
      apply obind_Ok in Hbelow as (rest & Hrest & Hbelow). injection Hbelow as <-.
      apply Forall_app. split; [by eapply Hc|by apply IHcs].
Qed.

(** ** The theorems at work on concrete inputs *)

(** C2 amended, at the override [{ priority: 0.9, changefreq: 'monthly' }]
    for [/about]. *)
Lemma C2_override_witness :
  extractRoutesFromTree (optionsWithOverride aboutOverride "2024-01-01") aboutTree ""
    = Ok [descriptor (optionsWithOverride aboutOverride "2024-01-01") "/";
          descriptor (optionsWithOverride aboutOverride "2024-01-01") "/about"]
  /\ Options.routeOptions (optionsWithOverride aboutOverride "2024-01-01") !! "/about"
     = Some aboutOverride
  /\ SitemapEntry.priority
       (createSitemapEntry (optionsWithOverride aboutOverride "2024-01-01")
          (descriptor (optionsWithOverride aboutOverride "2024-01-01") "/about"))
     = Some (9 # 10)%Q.
Proof.
  assert (H1 : extractRoutesFromTree (optionsWithOverride aboutOverride "2024-01-01")
                 aboutTree ""
               = Ok [descriptor (optionsWithOverride aboutOverride "2024-01-01") "/";
                     descriptor (optionsWithOverride aboutOverride "2024-01-01") "/about"])
    by (vm_compute; reflexivity).
  assert (H2 : Options.routeOptions (optionsWithOverride aboutOverride "2024-01-01")
                 !! "/about" = Some aboutOverride)
    by (vm_compute; reflexivity).
  split; [exact H1|]. split; [exact H2|].
  refine (proj1 (proj2 (proj2 (proj2 (proj2
    (C2_truthy_override_wins _ aboutTree _
       (descriptor (optionsWithOverride aboutOverride "2024-01-01") "/about")
       aboutOverride H1 _ H2))))) (9 # 10)%Q eq_refl _).
  - apply elem_of_cons. right. apply elem_of_cons. by left.
  - unfold Qeq. simpl. lia.
Defined.

(** C3, at the pattern [/api/*] and the path [/api/v1/users]. *)
Lemma C3_glob_witness :
  Js.endsWith "/api/*" "/*" = true
  /\ Js.startsWith "/api/v1/users" (Js.slice_to_minus 2 "/api/*" +:+ "/") = true
  /\ matchesExclude "/api/v1/users" "/api/*" = Ok true.
Proof.
  split; [reflexivity|]. split; [reflexivity|].
  exact (proj1 (proj2 C3_slash_star_glob "/api/v1/users" "/api/*" eq_refl
                 (or_intror eq_refl))).
Defined.

(** C5, at a tree with two [home] children and a provider of one route. *)
Lemma C5_duplicate_home_witness :
  extractRoutesFromTree (optionsWithProvider growingProvider "2024-01-01")
      duplicateHomeTree ""
    = Ok [descriptor (optionsWithProvider growingProvider "2024-01-01") "/";
          descriptor (optionsWithProvider growingProvider "2024-01-01") "/home";
          descriptor (optionsWithProvider growingProvider "2024-01-01") "/home";
          descriptor (optionsWithProvider growingProvider "2024-01-01") "/about"]
  /\ generateManualRoutes (optionsWithProvider growingProvider "2024-01-01") 1
     = Ok ([defaultEntry "2024-01-01" "https://example.com/post"], [])
  /\ generateSitemapEntries (optionsWithProvider growingProvider "2024-01-01") 1
       duplicateHomeTree
     = Ok ([defaultEntry "2024-01-01" "https://example.com/";
            defaultEntry "2024-01-01" "https://example.com/home";
            defaultEntry "2024-01-01" "https://example.com/about";
            defaultEntry "2024-01-01" "https://example.com/post"], []).
Proof.
  assert (H1 : extractRoutesFromTree (optionsWithProvider growingProvider "2024-01-01")
                 duplicateHomeTree ""
               = Ok [descriptor (optionsWithProvider growingProvider "2024-01-01") "/";
                     descriptor (optionsWithProvider growingProvider "2024-01-01") "/home";
                     descriptor (optionsWithProvider growingProvider "2024-01-01") "/home";
                     descriptor (optionsWithProvider growingProvider "2024-01-01") "/about"])
    by reflexivity.
  assert (H2 : generateManualRoutes (optionsWithProvider growingProvider "2024-01-01") 1
               = Ok ([defaultEntry "2024-01-01" "https://example.com/post"], []))
    by reflexivity.
  split; [exact H1|]. split; [exact H2|].
  exact (proj1 (C5_first_occurrence_then_manual _ 1 duplicateHomeTree _ _ _ H1 H2)).
Defined.

(** C6, at a provider whose promise rejects. *)
Lemma C6_rejecting_provider_witness :
  Options.manualRoutes (optionsWithProvider rejectingProvider "2024-01-01")
    = Some rejectingProvider
  /\ rejectingProvider 0 = Rejects "connection refused"
  /\ generateSitemapEntries (optionsWithProvider rejectingProvider "2024-01-01") 0
       homeAboutTree
     = Ok ([defaultEntry "2024-01-01" "https://example.com/";
            defaultEntry "2024-01-01" "https://example.com/home";
            defaultEntry "2024-01-01" "https://example.com/about"],
           [warning "connection refused"]).
Proof.
  split; [reflexivity|]. split; [reflexivity|].
  exact (proj1 (proj2
    (C6_provider_failure_recovered
       (optionsWithProvider rejectingProvider "2024-01-01") 0 homeAboutTree
       rejectingProvider "connection refused"
       [descriptor (optionsWithProvider rejectingProvider "2024-01-01") "/";
        descriptor (optionsWithProvider rejectingProvider "2024-01-01") "/home";
        descriptor (optionsWithProvider rejectingProvider "2024-01-01") "/about"]
       eq_refl (or_intror eq_refl) eq_refl))).
Defined.

(** C7, at one entry whose URL needs escaping: the document, written out. *)
Lemma C7_query_string_witness :
  Forall wellFormedEntry [defaultEntry "2024-01-01" "https://example.com/p?q=1&r=<2>"]
  /\ entriesToXml (exampleOptions "2024-01-01")
       [defaultEntry "2024-01-01" "https://example.com/p?q=1&r=<2>"]
     = "<?xml version=" +:+ quoted "1.0" +:+ " encoding=" +:+ quoted "UTF-8" +:+ "?>"
       +:+ lineFeed +:+
       "<urlset xmlns=" +:+ quoted "http://www.sitemaps.org/schemas/sitemap/0.9" +:+ ">"
       +:+ lineFeed +:+
       "  <url>" +:+ lineFeed +:+
       "    <loc>https://example.com/p?q=1&amp;r=&lt;2&gt;</loc>" +:+ lineFeed +:+
       "    <lastmod>2024-01-01</lastmod>" +:+ lineFeed +:+
       "    <changefreq>weekly</changefreq>" +:+ lineFeed +:+
       "    <priority>0.5</priority>" +:+ lineFeed +:+
       "  </url>" +:+ lineFeed +:+
       "</urlset>".
Proof.
  assert (H : Forall wellFormedEntry
                [defaultEntry "2024-01-01" "https://example.com/p?q=1&r=<2>"]).
  { constructor; [|constructor]. split; [discriminate|].
    intros p [= <-]. split; unfold Qle; simpl; lia. }
  split; [exact H|].
  exact (eq_trans (proj1 (C7_document_layout (exampleOptions "2024-01-01") _ H)) eq_refl).
Defined.

(** C8 amended, at an instance without provider run in two worlds. *)
Lemma C8_fixed_lastmod_witness :
  pureProvider (Options.manualRoutes (exampleOptions "2024-01-01"))
  /\ generateXmlSitemap (exampleOptions "2024-01-01") 0 homeAboutTree
     = generateXmlSitemap (exampleOptions "2024-01-01") 7 homeAboutTree.
Proof.
  assert (H : pureProvider (Options.manualRoutes (exampleOptions "2024-01-01"))).
  { intros p Hp. discriminate Hp. }
  split; [exact H|].
  exact (proj1 C8_deterministic_with_pure_provider
           (exampleOptions "2024-01-01") homeAboutTree 0 7 H).
Defined.

(** C9, at [{path:'/', children:[{path:'blog', children:[{path:'$postId',
    children:[{path:'comments'}]}]}]}]: [comments] is emitted at [/comments]. *)
Lemma C9_post_comments_witness :
  Js.startsWith "$postId" "/" = false
  /\ isDynamicRoute "$postId" = true
  /\ simpleSegment "comments" = true
  /\ isExcludedRoute (exampleOptions "2024-01-01") ("/" +:+ "comments") = Ok false
  /\ occursAt blogTree "" postCommentsTree "/blog"
  /\ extractRoutesFromTree (exampleOptions "2024-01-01") blogTree ""
     = Ok [descriptor (exampleOptions "2024-01-01") "/";
           descriptor (exampleOptions "2024-01-01") "/blog";
           descriptor (exampleOptions "2024-01-01") "/comments"]
  /\ descriptor (exampleOptions "2024-01-01") ("/" +:+ "comments")
     ∈ [descriptor (exampleOptions "2024-01-01") "/";
        descriptor (exampleOptions "2024-01-01") "/blog";
        descriptor (exampleOptions "2024-01-01") "/comments"].
Proof.
  assert (Hocc : occursAt blogTree "" postCommentsTree "/blog").
  { apply (occurs_below (Some "/") _ "" (Route (Some "blog") [postCommentsTree]));
      [apply elem_of_cons; by left|].
    apply (occurs_below (Some "blog") _ "/" postCommentsTree);
      [apply elem_of_cons; by left|].
    apply occurs_here. }
  split; [reflexivity|]. split; [reflexivity|]. split; [reflexivity|].
  split; [reflexivity|]. split; [exact Hocc|]. split; [reflexivity|].
  refine (proj1 (proj2 (proj2 (proj2 (proj2
    (C9_dynamic_parent_prefix_dropped (exampleOptions "2024-01-01") "/blog"
       "$postId" "comments" [Route (Some "comments") []] []
       eq_refl eq_refl eq_refl eq_refl)))) blogTree _ Hocc _ eq_refl)).
  apply elem_of_cons. by left.
Defined.

(** C10, at options that give [baseUrl] only. *)
Lemma C10_only_baseUrl_witness :
  SitemapOptions.defaultChangefreq (onlyBaseUrl "https://example.com") <> Undefined
  /\ SitemapOptions.defaultPriority (onlyBaseUrl "https://example.com") <> Undefined
  /\ SitemapOptions.lastmod (onlyBaseUrl "https://example.com") <> Undefined
  /\ SitemapGenerator.generateSitemapEntries homeAboutTree
       (onlyBaseUrl "https://example.com") "2024-01-01" 0
     = Ok ([defaultEntry "2024-01-01" "https://example.com/";
            defaultEntry "2024-01-01" "https://example.com/home";
            defaultEntry "2024-01-01" "https://example.com/about"], [])
  /\ Forall allDefined
       [defaultEntry "2024-01-01" "https://example.com/";
        defaultEntry "2024-01-01" "https://example.com/home";
        defaultEntry "2024-01-01" "https://example.com/about"].
Proof.
  assert (Hc : SitemapOptions.defaultChangefreq (onlyBaseUrl "https://example.com")
               <> Undefined) by discriminate.
  assert (Hp : SitemapOptions.defaultPriority (onlyBaseUrl "https://example.com")
               <> Undefined) by discriminate.
  assert (Hl : SitemapOptions.lastmod (onlyBaseUrl "https://example.com")
               <> Undefined) by discriminate.
  split; [exact Hc|]. split; [exact Hp|]. split; [exact Hl|]. split; [reflexivity|].
  exact (proj2 (C10_defaults_always_defined homeAboutTree
                  (onlyBaseUrl "https://example.com") "2024-01-01" 0 _ [] Hc Hp Hl eq_refl)).
Defined.

(** ** The tests of the repository, replayed on the model *)

Example test_exclude_dynamic_routes (now : string) (w : World) :
  generateSitemapEntries (exampleOptions now) w dynamicChildrenTree
  = Ok ([defaultEntry now "https://example.com/";
         defaultEntry now "https://example.com/home"], []).
Proof. reflexivity. Qed.

Example test_exclude_specified_routes (now : string) (w : World) :
  generateSitemapEntries (optionsExcluding ["/admin"; "/private/*"] now) w adminPrivateTree
  = Ok ([defaultEntry now "https://example.com/";
         defaultEntry now "https://example.com/home"], []).
Proof. reflexivity. Qed.

Example test_index_routes (now : string) (w : World) :
  generateSitemapEntries (exampleOptions now) w indexAboutTree
  = Ok ([defaultEntry now "https://example.com/";
         defaultEntry now "https://example.com/about"], []).
Proof. reflexivity. Qed.

Example test_remove_duplicate_paths (now : string) (w : World) :
  generateSitemapEntries (exampleOptions now) w duplicateHomeTree
  = Ok ([defaultEntry now "https://example.com/";
         defaultEntry now "https://example.com/home";
         defaultEntry now "https://example.com/about"], []).
Proof. reflexivity. Qed.

Example test_manual_date_lastmod (now : string) (w : World) :
  generateSitemapEntries (optionsWithProvider datedProvider now) w (Route (Some "/") [])
  = Ok ([defaultEntry now "https://example.com/";
         defaultEntry "2023-01-01T00:00:00.000Z" "https://example.com/dynamic/page-1"], []).
Proof. reflexivity. Qed.

Example test_trailing_slash (now : string) (w : World) :
  generateSitemapEntries (optionsTrailingSlash "https://example.com" now) w aboutTree
  = Ok ([defaultEntry now "https://example.com/";
         defaultEntry now "https://example.com/about/"], []).
Proof. reflexivity. Qed.

Example test_base_url_with_trailing_slash (now : string) :
  buildFullUrl (optionsTrailingSlash "https://example.com/" now) "/about"
  = "https://example.com/about/"
  /\ buildFullUrl (optionsExcluding [] now) "/about" = "https://example.com/about".
Proof. split; reflexivity. Qed.

Example test_route_options (now : string) (w : World) :
  generateSitemapEntries (optionsWithOverride aboutOverride now) w aboutTree
  = Ok ([defaultEntry now "https://example.com/";
         {| SitemapEntry.url := "https://example.com/about";
            SitemapEntry.lastmod := Some now;
            SitemapEntry.changefreq := Some monthly;
            SitemapEntry.priority := Some (9 # 10)%Q |}], []).
Proof. vm_compute. reflexivity. Qed.

Example test_escape_query_string :
  escapeXml "/path?query=test&other=value" = "/path?query=test&amp;other=value".
Proof. reflexivity. Qed.

Example test_blank_baseUrl_rejected (now : string) :
  constructor (onlyBaseUrl "   ") now = Thrown "baseUrl is required and cannot be empty".
Proof. reflexivity. Qed.

(** A static entry and a manual entry for the same path are both kept. *)
Example static_and_manual_not_deduplicated (now : string) (w : World) :
  generateSitemapEntries (optionsWithProvider homeProvider now) w homeAboutTree
  = Ok ([defaultEntry now "https://example.com/";
         defaultEntry now "https://example.com/home";
         defaultEntry now "https://example.com/about";
         defaultEntry now "https://example.com/home"], []).
Proof. reflexivity. Qed.

(** Escaping the ampersand last instead of first would escape twice. *)
Example ampersand_must_go_first :
  Js.replace_all "&" "&amp;" (Js.replace_all "<" "&lt;" "a<b") = "a&amp;lt;b"
  /\ escapeXml "a<b" = "a&lt;b".
Proof. split; reflexivity. Qed.

Example toFixed1_examples :
  Js.toFixed1 (1 # 2) = "0.5" /\ Js.toFixed1 (1 # 4) = "0.3"
  /\ Js.toFixed1 1 = "1.0" /\ Js.toFixed1 0 = "0.0" /\ Js.toFixed1 (-1 # 100) = "-0.0".
Proof. repeat split; reflexivity. Qed.

(** * Further properties of the generator *)

(** ** The constructor *)

Lemma trimStart_empty (s : string) : Js.trimStart s = "" <-> allWhite s = true.
Proof.
  induction s as [|a s IH]; [done|]. cbn [Js.trimStart allWhite].
  destruct (Js.is_white a); cbn [andb]; [exact IH|]. split; discriminate.
Qed.

Lemma trimStart_head (s : string) :
  Js.trimStart s = ""
  \/ exists a t, Js.trimStart s = String a t /\ Js.is_white a = false.
Proof.
  induction s as [|a s IH]; [by left|]. cbn [Js.trimStart].
  destruct (Js.is_white a) eqn:Ha; [exact IH|]. right. by exists a, s.
Qed.

Lemma trimEnd_head (a : ascii) (t : string) :
  Js.is_white a = false -> Js.trimEnd (String a t) <> "".
Proof.
  intros Ha. cbn [Js.trimEnd]. rewrite Ha. by destruct (Js.trimEnd t).
Qed.

Lemma trim_empty (s : string) : Js.trim s = "" <-> allWhite s = true.
Proof.
  unfold Js.trim. rewrite <- trimStart_empty.
  destruct (trimStart_head s) as [->|(a & t & -> & Ha)]; [done|].
  split; [|discriminate]. intros H. by apply trimEnd_head in H.
Qed.

(** X1. The constructor throws exactly when [baseUrl] is missing or
    consists of white space only (the empty string included); otherwise it
    returns options that carry the [baseUrl] as given. *)
Theorem constructor_rejects_blank_baseUrl (options : SitemapOptions.t) (now : string) :
  match SitemapOptions.baseUrl options with
  | Some base =>
      if allWhite base then
        constructor options now = Thrown "baseUrl is required and cannot be empty"
      else
        exists this, constructor options now = Ok this /\ Options.baseUrl this = base
  | None => constructor options now = Thrown "baseUrl is required and cannot be empty"
  end.
Proof.
  unfold constructor. destruct (SitemapOptions.baseUrl options) as [base|]; [|reflexivity].
  destruct (allWhite base) eqn:Hwhite.
  - apply trim_empty in Hwhite. rewrite Hwhite. cbn [String.eqb]. by rewrite orb_true_r.
  - assert (Htrim : Js.trim base <> "").
    { intros H. apply trim_empty in H. congruence. }
    assert (Hbase : Js.truthy base = true).
    { apply truthy_true. intros ->. discriminate. }
    rewrite Hbase. apply String.eqb_neq in Htrim. rewrite Htrim. cbn [negb orb].
    eexists. split; reflexivity.
Qed.

(** ** URLs *)

Lemma endsWith_refl (s : string) : Js.endsWith s s = true.
Proof. destruct s; cbn [Js.endsWith]; by rewrite String.eqb_refl. Qed.

Lemma endsWith_append (s t suf : string) :
  Js.endsWith t suf = true -> Js.endsWith (s +:+ t) suf = true.
Proof.
  intros Ht. induction s as [|a s IH]; [exact Ht|].
  rewrite append_cons, endsWith_cons, IH. apply orb_true_r.
Qed.

Lemma buildFullUrl_prefix (this : Options.t) (path : string) :
  Js.startsWith (buildFullUrl this path) (Js.strip_trailing_slash (Options.baseUrl this))
  = true.
Proof. unfold buildFullUrl. apply startsWith_append. Qed.

Lemma buildFullUrl_trailing (this : Options.t) (path : string) :
  Options.trailingSlash this = Some true ->
  Js.endsWith (buildFullUrl this path) "/" = true.
Proof.
  intros Hslash. unfold buildFullUrl. rewrite Hslash. cbn [cond default andb].
  apply endsWith_append. simpl.
  destruct (Js.endsWith path "/") eqn:Hends; cbn [negb andb]; [exact Hends|].
  destruct (String.eqb_spec path "/") as [->|_]; [discriminate|]. cbn [negb].
  apply endsWith_append. reflexivity.
Qed.

Lemma generated_urls (this : Options.t) w routeTree entries console (P : string -> Prop) :
  (forall path, P (buildFullUrl this path)) ->
  generateSitemapEntries this w routeTree = Ok (entries, console) ->
  Forall (fun e => P (SitemapEntry.url e)) entries.
Proof.
  intros HP Hgen.
  apply generateSitemapEntries_Ok in Hgen as (routes & manualEntries & _ & Hmanual & ->).
  apply Forall_app. split.
  - apply Forall_forall. intros e He. apply list_elem_of_fmap in He as (r & -> & _).
    rewrite createSitemapEntry_url. apply HP.
  - eapply generateManualRoutes_Forall; [|exact Hmanual].
    intros route entry Hentry. unfold createManualSitemapEntry in Hentry.
    apply obind_Ok in Hentry as (lastmod & _ & Hentry). injection Hentry as <-. apply HP.
Qed.

(** X2. The URL of every entry that [generateSitemapEntries] returns,
    static or manual, starts with the configured [baseUrl] without its
    final slash. *)
Theorem entry_urls_start_with_baseUrl
    (this : Options.t) (w : World) (routeTree : TanStackRoute)
    (entries : list SitemapEntry.t) (console : list (string * string)) :
  generateSitemapEntries this w routeTree = Ok (entries, console) ->
  Forall (fun e => Js.startsWith (SitemapEntry.url e)
                     (Js.strip_trailing_slash (Options.baseUrl this)) = true) entries.
Proof.
  apply (generated_urls this w routeTree entries console
           (fun u => Js.startsWith u (Js.strip_trailing_slash (Options.baseUrl this)) = true)).
  apply buildFullUrl_prefix.
Qed.

(** X3. With [trailingSlash: true], the URL of every entry that
    [generateSitemapEntries] returns ends with a slash. *)
Theorem entry_urls_end_with_slash
    (this : Options.t) (w : World) (routeTree : TanStackRoute)
    (entries : list SitemapEntry.t) (console : list (string * string)) :
  Options.trailingSlash this = Some true ->
  generateSitemapEntries this w routeTree = Ok (entries, console) ->
  Forall (fun e => Js.endsWith (SitemapEntry.url e) "/" = true) entries.
Proof.
  intros Hslash.
  apply (generated_urls this w routeTree entries console
           (fun u => Js.endsWith u "/" = true)).
  intros path. by apply buildFullUrl_trailing.
Qed.

Lemma strip_trailing_slash_cons (a : ascii) (s : string) :
  Js.strip_trailing_slash (String a s) =
  match s with
  | EmptyString => if Ascii.eqb a "/" then "" else String a ""
  | String _ _ => String a (Js.strip_trailing_slash s)
  end.
Proof. by destruct s. Qed.

Lemma strip_trailing_slash_added (base : string) :
  Js.strip_trailing_slash (base +:+ "/") = base.
Proof.
  induction base as [|a base IH]; [reflexivity|].
  rewrite append_cons, strip_trailing_slash_cons, IH.
  by destruct base.
Qed.

Lemma strip_trailing_slash_none (base : string) :
  Js.endsWith base "/" = false -> Js.strip_trailing_slash base = base.
Proof.
  induction base as [|a base IH]; [reflexivity|].
  rewrite endsWith_cons, strip_trailing_slash_cons.
  intros [Hhere Hrest]%orb_false_iff. destruct base as [|b base].
  - destruct (Ascii.eqb_spec a "/") as [->|]; [discriminate|reflexivity].
  - by rewrite (IH Hrest).
Qed.

Lemma extractRoutesFromTree_withBaseUrl (this : Options.t) baseUrl route parentPath :
  extractRoutesFromTree (withBaseUrl this baseUrl) route parentPath =
  extractRoutesFromTree this route parentPath.
Proof.
  revert parentPath.
  induction route as [path children IH] using TanStackRoute_children_ind.
  intros parentPath. rewrite !extractRoutesFromTree_eq. cbv zeta.
  set (fullPath := buildFullPath parentPath (default "" path)). clearbody fullPath.
  assert (Hbelow : extractEach (withBaseUrl this baseUrl) fullPath children
                   = extractEach this fullPath children).
  { induction IH as [|c cs Hc _ IHcs]; [reflexivity|].
    by rewrite !extractEach_cons, Hc, IHcs. }
  by rewrite Hbelow.
Qed.

Lemma filterNotExcluded_withBaseUrl (this : Options.t) baseUrl routes :
  filterNotExcluded (withBaseUrl this baseUrl) routes = filterNotExcluded this routes.
Proof.
  induction routes as [|r routes IH]; [reflexivity|].
  cbn [filterNotExcluded]. by rewrite IH.
Qed.

Lemma buildFullUrl_slashed_base (this : Options.t) (base path : string) :
  Js.endsWith base "/" = false ->
  buildFullUrl (withBaseUrl this (base +:+ "/")) path
  = buildFullUrl (withBaseUrl this base) path.
Proof.
  intros Hbase. unfold buildFullUrl. cbn [withBaseUrl Options.baseUrl Options.trailingSlash].
  by rewrite strip_trailing_slash_added, (strip_trailing_slash_none base Hbase).
Qed.

Lemma mapManual_slashed_base (this : Options.t) (base : string) routes :
  Js.endsWith base "/" = false ->
  mapManual (withBaseUrl this (base +:+ "/")) routes
  = mapManual (withBaseUrl this base) routes.
Proof.
  intros Hbase. induction routes as [|r routes IH]; [reflexivity|].
  cbn [mapManual]. rewrite IH. unfold createManualSitemapEntry.
  by rewrite (buildFullUrl_slashed_base this base _ Hbase).
Qed.

(** X4. One final slash on [baseUrl] makes no difference: a generator
    configured with [base/] returns the same entries and console lines as one
    configured with [base], for every tree, provider and world. *)
Theorem baseUrl_final_slash_is_ignored
    (this : Options.t) (base : string) (w : World) (routeTree : TanStackRoute) :
  Js.endsWith base "/" = false ->
  generateSitemapEntries (withBaseUrl this (base +:+ "/")) w routeTree
  = generateSitemapEntries (withBaseUrl this base) w routeTree.
Proof.
  intros Hbase. unfold generateSitemapEntries.
  rewrite !extractRoutesFromTree_withBaseUrl.
  destruct (extractRoutesFromTree this routeTree "") as [routes| |]; [|done|done].
  cbn [obind].
  assert (Hstatic : map (createSitemapEntry (withBaseUrl this (base +:+ "/")))
                      (uniqueRoutes routes)
                    = map (createSitemapEntry (withBaseUrl this base)) (uniqueRoutes routes)).
  { apply map_ext. intros r. unfold createSitemapEntry.
    by rewrite (buildFullUrl_slashed_base this base _ Hbase). }
  assert (Hmanual : generateManualRoutes (withBaseUrl this (base +:+ "/")) w
                    = generateManualRoutes (withBaseUrl this base) w).
  { unfold generateManualRoutes. cbn [withBaseUrl Options.manualRoutes].
    destruct (Options.manualRoutes this) as [provider|]; [|reflexivity].
    destruct (provider w) as [rs|rs|e|e]; try reflexivity;
      rewrite !filterNotExcluded_withBaseUrl;
      destruct (filterNotExcluded this rs) as [kept| |]; cbn [obind]; try reflexivity;
      by rewrite (mapManual_slashed_base this base kept Hbase). }
  by rewrite Hstatic, Hmanual.
Qed.

(** ** Invariants of the flattening *)

(** A property of parent paths that [buildFullPath] keeps, on nodes whose
    raw path satisfies [ok], passes to every flattened descriptor. *)
Lemma extractRoutesFromTree_invariant (this : Options.t)
    (I : string -> Prop) (ok : string -> bool) (Q : RouteInfo.t -> Prop) :
  (forall parentPath raw, I parentPath -> ok raw = true ->
     I (buildFullPath parentPath raw)) ->
  (forall fullPath, I fullPath -> Js.truthy fullPath = true ->
     isExcludedRoute this fullPath = Ok false -> Q (descriptor this fullPath)) ->
  forall route, everyRawPath ok route = true ->
  forall parentPath routes,
    I parentPath ->
    extractRoutesFromTree this route parentPath = Ok routes -> Forall Q routes.
Proof.
  intros Hstep HQ route.
  induction route as [path children IH] using TanStackRoute_children_ind.
  cbn [everyRawPath]. intros [Hnode Hchildren]%andb_true_iff.
  intros parentPath routes Hparent. rewrite extractRoutesFromTree_eq. cbv zeta.
  pose proof (Hstep parentPath (default "" path) Hparent Hnode) as Hfull.
  set (fullPath := buildFullPath parentPath (default "" path)) in *. clearbody fullPath.
  intros H. apply obind_Ok in H as (own & Hown & H).
  apply obind_Ok in H as (below & Hbelow & H). injection H as <-.
  apply Forall_app. split.
  - destruct (Js.truthy fullPath) eqn:Htruthy; cbn [andb] in Hown;
      [|injection Hown as <-; constructor].
    destruct (negb (isDynamicRoute (default "" path)));
      [|injection Hown as <-; constructor].
    apply obind_Ok in Hown as ([] & Hex & Hown); injection Hown as <-; [constructor|].
    constructor; [by apply HQ|constructor].
  - clear Hown. revert below Hbelow Hchildren.
    induction IH as [|c cs Hc _ IHcs]; intros below Hbelow Hchildren.
    + injection Hbelow as <-. constructor.
    + rewrite extractEach_cons in Hbelow. cbn [forallb] in Hchildren.
      apply andb_true_iff in Hchildren as [Hc' Hcs'].
      apply obind_Ok in Hbelow as (sub & Hsub & Hbelow).
      apply obind_Ok in Hbelow as (rest & Hrest & Hbelow). injection Hbelow as <-.
      apply Forall_app. split; [by eapply Hc|by apply IHcs].
Qed.

Lemma everyRawPath_true (route : TanStackRoute) : everyRawPath (fun _ => true) route = true.
Proof.
  induction route as [path children IH] using TanStackRoute_children_ind.
  cbn [everyRawPath andb]. induction IH as [|c cs Hc _ IHcs]; [reflexivity|].
  cbn [forallb]. by rewrite Hc, IHcs.
Qed.

Lemma startsWith_slash_cons (s : string) :
  Js.startsWith s "/" = true <-> exists t, s = String "/" t.
Proof.
  unfold Js.startsWith. destruct s as [|a s]; cbn [String.prefix].
  - split; [discriminate|]. by intros [t Ht].
  - destruct (ascii_dec "/" a) as [<-|Hne].
    + split; [by exists s|]. intros _. by destruct s.
    + split; [discriminate|]. intros [t [= -> _]]. congruence.
Qed.

Lemma replace_runs_slash_head (s : string) :
  exists t, Js.replace_runs "/" "/" (String "/" s) = String "/" t.
Proof.
  induction s as [|b s [t IH]]; [by exists ""|].
  rewrite replace_runs_cons. cbn [Ascii.eqb Bool.eqb].
  destruct (Ascii.eqb_spec b "/") as [->|Hne]; [by exists t|].
  by eexists.
Qed.

Lemma buildFullPath_rooted (parentPath raw : string) :
  parentPath = "" \/ Js.startsWith parentPath "/" = true ->
  buildFullPath parentPath raw = "" \/ Js.startsWith (buildFullPath parentPath raw) "/" = true.
Proof.
  intros Hparent. unfold buildFullPath.
  destruct (Js.startsWith raw "/") eqn:Habs; [by right|].
  destruct (isDynamicRoute raw); [by left|].
  destruct (negb (Js.truthy raw) || String.eqb raw "index").
  { destruct (Js.truthy parentPath) eqn:Ht; [|by right].
    destruct Hparent as [->|Hp]; [discriminate|by right]. }
  destruct (String.eqb raw "__root__"); [by left|]. right.
  apply startsWith_slash_cons.
  destruct (String.eqb_spec parentPath "/") as [->|Hne].
  - apply (replace_runs_slash_head raw).
  - destruct Hparent as [->|Hp].
    + apply (replace_runs_slash_head raw).
    + apply startsWith_slash_cons in Hp as [t ->]. rewrite append_cons.
      apply replace_runs_slash_head.
Qed.

(** X5. Every path that the flattening of a route tree produces starts
    with a slash; in particular none is empty. *)
Theorem flattened_paths_start_with_slash
    (this : Options.t) (routeTree : TanStackRoute) (routes : list RouteInfo.t) :
  extractRoutesFromTree this routeTree "" = Ok routes ->
  Forall (fun r => Js.startsWith (RouteInfo.path r) "/" = true) routes.
Proof.
  apply (extractRoutesFromTree_invariant this
           (fun p => p = "" \/ Js.startsWith p "/" = true) (fun _ => true)).
  - intros parentPath raw Hparent _. by apply buildFullPath_rooted.
  - intros fullPath [->|H] Htruthy _; [discriminate|exact H].
  - apply everyRawPath_true.
  - by left.
Qed.

Lemma hasRun_cons_other (c a : ascii) (s : string) :
  Ascii.eqb a c = false -> hasRun c (String a s) = hasRun c s.
Proof. intros Ha. cbn [hasRun]. rewrite Ha. by destruct s. Qed.

Lemma hasRun_collapse (c : ascii) (s : string) :
  hasRun c (Js.replace_runs c (String c "") s) = false.
Proof.
  induction s as [|a s IH]; [reflexivity|].
  rewrite replace_runs_cons. destruct (Ascii.eqb a c) eqn:Ha.
  - destruct s as [|b s]; [reflexivity|].
    destruct (Ascii.eqb b c) eqn:Hb; [exact IH|].
    change (String c "" +:+ ?t) with (String c t).
    rewrite replace_runs_cons, Hb in IH |- *.
    cbn [hasRun] in IH |- *. rewrite Hb in IH |- *.
    rewrite andb_false_r. exact IH.
  - by rewrite hasRun_cons_other.
Qed.

Lemma buildFullPath_no_double_slash (parentPath raw : string) :
  hasRun "/" parentPath = false ->
  noAbsoluteDoubleSlash raw = true ->
  hasRun "/" (buildFullPath parentPath raw) = false.
Proof.
  intros Hparent Hraw. unfold noAbsoluteDoubleSlash in Hraw.
  apply negb_true_iff in Hraw. unfold buildFullPath.
  destruct (Js.startsWith raw "/"); [exact Hraw|].
  destruct (isDynamicRoute raw); [reflexivity|].
  destruct (negb (Js.truthy raw) || String.eqb raw "index").
  { by destruct (Js.truthy parentPath). }
  destruct (String.eqb raw "__root__"); [reflexivity|].
  apply (hasRun_collapse "/").
Qed.

(** X6. In a tree where no raw path that starts with a slash contains two
    slashes in a row, no flattened path contains two slashes in a row:
    relative segments are joined with single slashes whatever they contain. *)
Theorem flattened_paths_without_double_slash
    (this : Options.t) (routeTree : TanStackRoute) (routes : list RouteInfo.t) :
  everyRawPath noAbsoluteDoubleSlash routeTree = true ->
  extractRoutesFromTree this routeTree "" = Ok routes ->
  Forall (fun r => hasRun "/" (RouteInfo.path r) = false) routes.
Proof.
  intros Htree.
  apply (extractRoutesFromTree_invariant this
           (fun p => hasRun "/" p = false) noAbsoluteDoubleSlash).
  - intros parentPath raw. apply buildFullPath_no_double_slash.
  - by intros fullPath H _ _.
  - exact Htree.
  - reflexivity.
Qed.

Lemma extractEach_elem_inv (this : Options.t) fullPath children routes r :
  extractEach this fullPath children = Ok routes ->
  r ∈ routes ->
  exists child sub, child ∈ children
                    /\ extractRoutesFromTree this child fullPath = Ok sub /\ r ∈ sub.
Proof.
  revert routes. induction children as [|c cs IH]; intros routes H Hr.
  - injection H as <-. by apply elem_of_nil in Hr.
  - rewrite extractEach_cons in H.
    apply obind_Ok in H as (sub & Hsub & H).
    apply obind_Ok in H as (rest & Hrest & H). injection H as <-.
    apply elem_of_app in Hr as [Hr|Hr].
    + exists c, sub. split; [apply elem_of_cons; by left|done].
    + destruct (IH rest Hrest Hr) as (child & sub' & Hin & Hsub' & Hr').
      exists child, sub'. split; [apply elem_of_cons; by right|done].
Qed.

(** X7. The flattening of a tree consists exactly of the descriptors of
    the nodes it visits whose raw path is not dynamic and whose full path is
    neither empty nor excluded: a dynamic or excluded node is left out
    itself, and hides none of its descendants. *)
Theorem flattening_characterised
    (this : Options.t) (routeTree : TanStackRoute) (parentPath : string)
    (routes : list RouteInfo.t) :
  extractRoutesFromTree this routeTree parentPath = Ok routes ->
  forall r, r ∈ routes <-> emits this routeTree parentPath r.
Proof.
  intros Hroutes r. split.
  - revert parentPath routes Hroutes.
    induction routeTree as [path children IH] using TanStackRoute_children_ind.
    intros parentPath routes Hroutes Hr.
    rewrite extractRoutesFromTree_eq in Hroutes. cbv zeta in Hroutes.
    apply obind_Ok in Hroutes as (own & Hown & Hroutes).
    apply obind_Ok in Hroutes as (below & Hbelow & Hroutes). injection Hroutes as <-.
    apply elem_of_app in Hr as [Hr|Hr].
    + destruct (Js.truthy (buildFullPath parentPath (default "" path))) eqn:Htruthy;
        cbn [andb] in Hown; [|injection Hown as <-; by apply elem_of_nil in Hr].
      destruct (isDynamicRoute (default "" path)) eqn:Hdyn; cbn [negb] in Hown;
        [injection Hown as <-; by apply elem_of_nil in Hr|].
      apply obind_Ok in Hown as ([] & Hex & Hown); injection Hown as <-;
        [by apply elem_of_nil in Hr|].
      apply list_elem_of_singleton in Hr as ->.
      exists path, children, parentPath.
      split; [apply occurs_here|done].
    + destruct (extractEach_elem_inv _ _ _ _ _ Hbelow Hr) as (child & sub & Hin & Hsub & Hr').
      rewrite Forall_forall in IH.
      destruct (IH child Hin _ _ Hsub Hr') as (path' & children' & at_ & Hocc & Hrest).
      exists path', children', at_. split; [|exact Hrest].
      by apply (occurs_below path children parentPath child).
  - intros (path & children & at_ & Hocc & Hdyn & Htruthy & Hex & ->).
    destruct (extractRoutesFromTree_occurs _ _ _ _ _ _ Hocc Hroutes) as (sub & Hsub & Hin).
    apply Hin. rewrite extractRoutesFromTree_eq in Hsub. cbv zeta in Hsub.
    rewrite Htruthy, Hdyn, Hex in Hsub. cbn [negb andb obind] in Hsub.
    apply obind_Ok in Hsub as (below & _ & Hsub). injection Hsub as <-.
    apply elem_of_cons. by left.
Qed.

(** ** Exclusion patterns *)

Lemma some_matchesExclude_exact (path : string) (patterns : list string) :
  forallb (fun p => negb (Js.includes p "*")) patterns = true ->
  some (matchesExclude path) patterns = Ok (bool_decide (path ∈ patterns)).
Proof.
  induction patterns as [|p ps IH]; [reflexivity|].
  cbn [forallb some]. intros [Hp Hps]%andb_true_iff. apply negb_true_iff in Hp.
  unfold matchesExclude at 1. rewrite Hp. cbn [obind].
  destruct (String.eqb_spec path p) as [->|Hne].
  - by rewrite bool_decide_eq_true_2 by (apply elem_of_cons; by left).
  - rewrite (IH Hps). f_equal. apply bool_decide_ext.
    rewrite elem_of_cons. split; [by right|]. intros [H|H]; [congruence|done].
Qed.

(** X8. When no exclusion pattern contains [*], a path is excluded exactly
    when it is one of the patterns: the comparison is literal, and a [?] in
    such a pattern stands for itself. *)
Theorem exclusion_without_star_is_membership (this : Options.t) (path : string) :
  forallb (fun p => negb (Js.includes p "*")) (Options.excludeRoutes this) = true ->
  isExcludedRoute this path = Ok (bool_decide (path ∈ Options.excludeRoutes this)).
Proof. apply some_matchesExclude_exact. Qed.

Lemma plainText_includes (s : string) (c : ascii) :
  plainText s = true -> RegExp.is_syntax_char c = true -> Js.includes s c = false.
Proof.
  intros Hs Hc. induction s as [|a s IH]; [reflexivity|].
  cbn [plainText Js.includes] in *. apply andb_true_iff in Hs as [Ha Hs].
  rewrite (IH Hs), orb_false_r. destruct (Ascii.eqb_spec a c) as [->|]; [|reflexivity].
  by rewrite Hc in Ha.
Qed.

Lemma replace_runs_append_absent (c : ascii) (r s t : string) :
  Js.includes s c = false ->
  Js.replace_runs c r (s +:+ t) = s +:+ Js.replace_runs c r t.
Proof.
  induction s as [|a s IH]; [reflexivity|]. cbn [Js.includes].
  intros [Ha Hs]%orb_false_iff.
  rewrite !append_cons, replace_runs_cons, Ha. by rewrite (IH Hs).
Qed.

Lemma replace_all_absent (c : ascii) (r s : string) :
  Js.includes s c = false -> Js.replace_all c r s = s.
Proof.
  induction s as [|a s IH]; [reflexivity|]. cbn [Js.includes Js.replace_all].
  intros [Ha Hs]%orb_false_iff. by rewrite Ha, (IH Hs).
Qed.

Lemma parse_body_cons (c d : ascii) (rest : string) :
  RegExp.parse_body (String c (String d rest)) =
  match RegExp.cls_of c with
  | None => None
  | Some k =>
      if Ascii.eqb d "*" then
        match RegExp.parse_body rest with
        | Some r => Some (RegExp.Star k :: r)
        | None => None
        end
      else
        match RegExp.parse_body (String d rest) with
        | Some r => Some (RegExp.One k :: r)
        | None => None
        end
  end.
Proof. reflexivity. Qed.

Lemma cls_of_plain (a : ascii) :
  RegExp.is_syntax_char a = false -> RegExp.cls_of a = Some (RegExp.Lit a).
Proof.
  intros Ha. unfold RegExp.cls_of. rewrite Ha.
  destruct (Ascii.eqb_spec a ".") as [->|]; [discriminate|reflexivity].
Qed.

Lemma parse_body_literally (s : string) (d : ascii) (tail : string) (items : list RegExp.item) :
  plainText s = true ->
  Ascii.eqb d "*" = false ->
  RegExp.parse_body (String d tail) = Some items ->
  RegExp.parse_body (s +:+ String d tail) = Some (literally s ++ items).
Proof.
  intros Hs Hd Htail. induction s as [|a s IH]; [exact Htail|].
  cbn [plainText] in Hs. apply andb_true_iff in Hs as [Ha Hs].
  apply negb_true_iff in Ha. specialize (IH Hs).
  rewrite append_cons. cbn [literally app].
  destruct s as [|b s].
  - rewrite append_empty_l in *. rewrite parse_body_cons, (cls_of_plain a Ha), Hd.
    by rewrite Htail.
  - rewrite append_cons in *. rewrite parse_body_cons, (cls_of_plain a Ha).
    cbn [plainText] in Hs. apply andb_true_iff in Hs as [Hb _].
    apply negb_true_iff in Hb.
    destruct (Ascii.eqb_spec b "*") as [->|_]; [discriminate|].
    by rewrite IH.
Qed.

Lemma matches_literally (s : string) (r : list RegExp.item) (path : string) :
  RegExp.matches (literally s ++ r) path = true <->
  exists rest, path = s +:+ rest /\ RegExp.matches r rest = true.
Proof.
  revert path. induction s as [|a s IH]; intros path.
  - cbn [literally app]. split; [by exists path|]. by intros (rest & -> & H).
  - cbn [literally app RegExp.matches]. destruct path as [|b path].
    + split; [discriminate|]. by intros (rest & H & _).
    + cbn [RegExp.cls_matches]. rewrite andb_true_iff, IH. split.
      * intros [Hb (rest & -> & H)]. apply Ascii.eqb_eq in Hb as ->. by exists rest.
      * intros (rest & [= -> ->] & H). split; [apply Ascii.eqb_refl|by exists rest].
Qed.

Lemma matches_star_cons (k : RegExp.cls) (r : list RegExp.item) (a : ascii) (s : string) :
  RegExp.matches (RegExp.Star k :: r) (String a s) =
  RegExp.matches r (String a s) || (RegExp.cls_matches k a && RegExp.matches (RegExp.Star k :: r) s).
Proof. reflexivity. Qed.

Lemma matches_any (s : string) :
  RegExp.matches [RegExp.Star RegExp.Dot] s = noLineBreak s.
Proof.
  induction s as [|a s IH]; [reflexivity|].
  rewrite matches_star_cons, IH. unfold noLineBreak. cbn [RegExp.matches RegExp.cls_matches
    Js.truthy String.eqb negb orb Js.includes].
  destruct (Ascii.eqb a "010"), (Ascii.eqb a "013"),
    (Js.includes s "010"), (Js.includes s "013"); reflexivity.
Qed.

Lemma string_eqb_cons (a b : ascii) (s t : string) :
  String.eqb (String a s) (String b t) = Ascii.eqb a b && String.eqb s t.
Proof. reflexivity. Qed.

Lemma endsWith_append_star (s : string) :
  Js.endsWith (s +:+ "*") "/*" = Js.endsWith s "/".
Proof.
  induction s as [|a s IH]; [reflexivity|].
  rewrite append_cons, !endsWith_cons, IH. f_equal.
  rewrite !string_eqb_cons. f_equal.
  destruct s as [|b [|b' s]]; [reflexivity| |];
    rewrite !append_cons, string_eqb_cons; apply andb_false_r.
Qed.

Lemma star_pattern (s : string) :
  plainText s = true ->
  Js.replace_all "?" "." (Js.replace_runs "*" ".*" (s +:+ "*")) = s +:+ ".*".
Proof.
  intros Hs.
  rewrite (replace_runs_append_absent "*" ".*" s "*" (plainText_includes s "*" Hs eq_refl)).
  change (Js.replace_runs "*" ".*" "*") with ".*".
  rewrite replace_all_append, (replace_all_absent "?" "." s (plainText_includes s "?" Hs eq_refl)).
  reflexivity.
Qed.

Lemma test_prefix_then_any (s path : string) :
  plainText s = true ->
  RegExp.test ("^" +:+ (s +:+ ".*") +:+ "$") path
  = Ok (RegExp.matches (literally s ++ [RegExp.Star RegExp.Dot]) path).
Proof.
  intros Hs. unfold RegExp.test.
  change ("^" +:+ (s +:+ ".*") +:+ "$") with (String "^" ((s +:+ ".*") +:+ "$")).
  rewrite append_assoc. change (".*" +:+ "$") with (String "." (String "*" "$")).
  cbn [RegExp.parse Ascii.eqb Bool.eqb].
  by rewrite (parse_body_literally s "." (String "*" "$") [RegExp.Star RegExp.Dot]
                Hs eq_refl eq_refl).
Qed.

(** X9. A pattern made of ordinary characters followed by one [*] is a
    prefix pattern: as long as the text before [*] does not end in a slash,
    it excludes exactly the paths that start with that text and go on
    without a line break. *)
Theorem star_suffix_is_prefix_match (prefix path : string) :
  plainText prefix = true ->
  Js.endsWith prefix "/" = false ->
  exists b,
    matchesExclude path (prefix +:+ "*") = Ok b
    /\ (b = true <->
        exists rest, path = prefix +:+ rest /\ noLineBreak rest = true).
Proof.
  intros Hplain Hslash. unfold matchesExclude.
  rewrite includes_append. cbn [Js.includes Ascii.eqb Bool.eqb]. rewrite orb_true_r.
  rewrite endsWith_append_star, Hslash. cbn [andb].
  rewrite (star_pattern prefix Hplain), (test_prefix_then_any prefix path Hplain).
  eexists. split; [reflexivity|].
  rewrite matches_literally. by setoid_rewrite matches_any.
Qed.

Lemma plainText_append (s t : string) :
  plainText (s +:+ t) = plainText s && plainText t.
Proof.
  induction s as [|a s IH]; [reflexivity|].
  rewrite append_cons. cbn [plainText]. by rewrite IH, andb_assoc.
Qed.

Lemma length_append (s t : string) :
  String.length (s +:+ t) = String.length s + String.length t.
Proof. induction s as [|a s IH]; [reflexivity|]. rewrite append_cons. simpl. by rewrite IH. Qed.

Lemma substring_prefix (s t : string) :
  String.substring 0 (String.length s) (s +:+ t) = s.
Proof.
  induction s as [|a s IH]; [by destruct t|].
  rewrite append_cons. simpl. by rewrite IH.
Qed.

Lemma slice_slash_star (base : string) : Js.slice_to_minus 2 (base +:+ "/*") = base.
Proof.
  unfold Js.slice_to_minus. rewrite length_append. simpl String.length.
  replace (String.length base + 2 - 2) with (String.length base) by lia.
  apply substring_prefix.
Qed.

(** X10. A pattern made of ordinary characters followed by [/*] excludes
    the path equal to the text before [/*] and the paths that start with
    that text and a slash, and no other path. *)
Theorem slash_star_excludes_exactly_the_subtree (base path : string) :
  plainText base = true ->
  matchesExclude path (base +:+ "/*")
  = Ok (String.eqb path base || Js.startsWith path (base +:+ "/")).
Proof.
  intros Hplain. unfold matchesExclude.
  rewrite includes_append. cbn [Js.includes Ascii.eqb Bool.eqb]. rewrite !orb_true_r.
  rewrite (endsWith_append base "/*" "/*" eq_refl), slice_slash_star. cbn [andb].
  destruct (String.eqb path base || Js.startsWith path (base +:+ "/")) eqn:Hcond;
    [reflexivity|].
  assert (Hplain' : plainText (base +:+ "/") = true).
  { rewrite plainText_append, Hplain. reflexivity. }
  replace (base +:+ "/*") with ((base +:+ "/") +:+ "*") by (by rewrite append_assoc).
  rewrite (star_pattern _ Hplain'), (test_prefix_then_any _ path Hplain').
  f_equal. apply not_true_is_false. intros Hmatch.
  apply matches_literally in Hmatch as (rest & -> & _).
  apply orb_false_iff in Hcond as [_ Hcond].
  by rewrite startsWith_append in Hcond.
Qed.

(** ** Manual routes *)

Lemma filterNotExcluded_filter (this : Options.t) routes kept :
  filterNotExcluded this routes = Ok kept ->
  kept = List.filter (notExcluded this) routes.
Proof.
  revert kept. induction routes as [|r routes IH]; intros kept H.
  - by injection H as <-.
  - cbn [filterNotExcluded] in H.
    apply obind_Ok in H as (excluded & Hex & H).
    apply obind_Ok in H as (rest & Hrest & H). injection H as <-.
    cbn [List.filter]. unfold notExcluded at 1. rewrite Hex, <- (IH rest Hrest).
    by destruct excluded.
Qed.

Lemma createManualSitemapEntry_resolves (this : Options.t) route entry :
  createManualSitemapEntry this route = Ok entry -> resolvesManual this route entry.
Proof.
  unfold createManualSitemapEntry, resolvesManual. intros H.
  apply obind_Ok in H as (lastmod & Hlastmod & H). injection H as <-.
  cbn [SitemapEntry.url SitemapEntry.priority SitemapEntry.changefreq SitemapEntry.lastmod].
  split; [reflexivity|]. split; [reflexivity|]. split.
  - by destruct (ManualSitemapEntry.changeFrequency route) as [[]|].
  - destruct (ManualSitemapEntry.lastMod route) as [[[|a s]|[[|a s]|]]|];
      cbn in Hlastmod; by inversion Hlastmod.
Qed.

Lemma mapManual_Forall2 (this : Options.t) routes entries :
  mapManual this routes = Ok entries -> Forall2 (resolvesManual this) routes entries.
Proof.
  revert entries. induction routes as [|r routes IH]; intros entries H.
  - injection H as <-. constructor.
  - cbn [mapManual] in H.
    apply obind_Ok in H as (entry & Hentry & H).
    apply obind_Ok in H as (rest & Hrest & H). injection H as <-.
    constructor; [by apply createManualSitemapEntry_resolves|by apply IH].
Qed.

Lemma generateManualRoutes_yield (this : Options.t) w provider yielded :
  Options.manualRoutes this = Some provider ->
  provider w = Returns yielded \/ provider w = Resolves yielded ->
  generateManualRoutes this w =
  match (let* kept := filterNotExcluded this yielded in mapManual this kept) with
  | Ok entries => Ok (entries, [])
  | Thrown error => Ok ([], [warning error])
  | OutsideModel => OutsideModel
  end.
Proof.
  intros Hprov Hyield. unfold generateManualRoutes. rewrite Hprov.
  by destruct Hyield as [-> | ->].
Qed.

(** X11. When the provider yields routes and nothing is logged, the manual
    entries are, in the provider's order, those of the routes whose location
    is not excluded, one entry per route; each entry takes the route's own
    priority (zero included), change frequency and last modification, and a
    configured default only for a field the route does not give (an empty
    [lastMod] string counts as not given). *)
Theorem manual_entries_follow_their_routes
    (this : Options.t) (w : World) (provider : Provider)
    (yielded : list ManualSitemapEntry.t) (entries : list SitemapEntry.t) :
  Options.manualRoutes this = Some provider ->
  provider w = Returns yielded \/ provider w = Resolves yielded ->
  generateManualRoutes this w = Ok (entries, []) ->
  Forall2 (resolvesManual this) (List.filter (notExcluded this) yielded) entries.
Proof.
  intros Hprov Hyield. rewrite (generateManualRoutes_yield this w provider yielded Hprov Hyield).
  destruct (let* kept := filterNotExcluded this yielded in mapManual this kept)
    as [es|msg|] eqn:Hattempt; [|discriminate|discriminate].
  intros [= <-]. apply obind_Ok in Hattempt as (kept & Hkept & Hmap).
  rewrite <- (filterNotExcluded_filter this yielded kept Hkept).
  by apply mapManual_Forall2.
Qed.

Lemma mapManual_invalid_date (this : Options.t) routes :
  existsb hasInvalidDate routes = true ->
  mapManual this routes = Thrown "RangeError: Invalid time value".
Proof.
  induction routes as [|r routes IH]; [discriminate|].
  cbn [existsb mapManual]. unfold createManualSitemapEntry, hasInvalidDate at 1.
  destruct (ManualSitemapEntry.lastMod r) as [[s|[iso|]]|]; cbn [orb toISOString obind];
    try reflexivity; intros H; rewrite (IH H); try destruct (Js.truthy s); reflexivity.
Qed.

(** X12. One manual route with an invalid [Date] among those that are not
    excluded costs the whole manual set: the conversion throws inside the
    [try], so no manual entry at all is returned and one warning is logged,
    while the static entries are returned as usual. *)
Theorem invalid_date_discards_all_manual_routes
    (this : Options.t) (w : World) (routeTree : TanStackRoute) (provider : Provider)
    (yielded kept : list ManualSitemapEntry.t) (routes : list RouteInfo.t) :
  Options.manualRoutes this = Some provider ->
  provider w = Returns yielded \/ provider w = Resolves yielded ->
  filterNotExcluded this yielded = Ok kept ->
  existsb hasInvalidDate kept = true ->
  extractRoutesFromTree this routeTree "" = Ok routes ->
  generateManualRoutes this w = Ok ([], [warning "RangeError: Invalid time value"])
  /\ generateSitemapEntries this w routeTree =
     Ok (map (createSitemapEntry this) (uniqueRoutes routes),
         [warning "RangeError: Invalid time value"]).
Proof.
  intros Hprov Hyield Hkept Hinvalid Hroutes.
  assert (Hmanual : generateManualRoutes this w
                    = Ok ([], [warning "RangeError: Invalid time value"])).
  { rewrite (generateManualRoutes_yield this w provider yielded Hprov Hyield), Hkept.
    cbn [obind]. by rewrite (mapManual_invalid_date this kept Hinvalid). }
  split; [exact Hmanual|].
  unfold generateSitemapEntries. rewrite Hroutes. cbn [obind]. rewrite Hmanual.
  cbn [obind]. by rewrite app_nil_r.
Qed.

(** ** More on the XML renderer *)

Lemma noneOf_append (f : ascii -> bool) (s t : string) :
  noneOf f (s +:+ t) = noneOf f s && noneOf f t.
Proof.
  induction s as [|a s IH]; [reflexivity|].
  rewrite append_cons. cbn [noneOf]. by rewrite IH, andb_assoc.
Qed.

Lemma escapeChar_markup (c : ascii) : noneOf isXmlMarkup (escapeChar c) = true.
Proof. destruct c as [[] [] [] [] [] [] [] []]; reflexivity. Qed.

Lemma escapeChar_ordinary (c : ascii) : isXmlSpecial c = false -> escapeChar c = String c "".
Proof. destruct c as [[] [] [] [] [] [] [] []]; (reflexivity || discriminate). Qed.

(** X13. The escaped text contains no [<], no [>], no double quote and no
    apostrophe; and a text without any of the five special characters is
    left as it is. *)
Theorem escapeXml_leaves_no_markup (text : string) :
  noneOf isXmlMarkup (escapeXml text) = true
  /\ (noneOf isXmlSpecial text = true -> escapeXml text = text).
Proof.
  rewrite escapeXml_escapeEach. split.
  - induction text as [|c text IH]; [reflexivity|].
    cbn [escapeEach]. by rewrite noneOf_append, escapeChar_markup, IH.
  - induction text as [|c text IH]; [reflexivity|].
    cbn [noneOf escapeEach]. intros [Hc Htext]%andb_true_iff.
    apply negb_true_iff in Hc. by rewrite (escapeChar_ordinary c Hc), (IH Htext).
Qed.

Lemma includes_escapeEach_lf (text : string) :
  Js.includes (escapeEach text) "010" = Js.includes text "010".
Proof.
  induction text as [|c text IH]; [reflexivity|].
  cbn [escapeEach Js.includes]. rewrite includes_append, IH. f_equal.
  destruct c as [[] [] [] [] [] [] [] []]; reflexivity.
Qed.

Lemma includes_uint_lf (u : Decimal.uint) :
  Js.includes (NilEmpty.string_of_uint u) "010" = false.
Proof. induction u; [reflexivity|exact IHu..]. Qed.

Lemma includes_digits_lf (n : Z) : Js.includes (Js.digits n) "010" = false.
Proof.
  unfold Js.digits, NilZero.string_of_uint.
  destruct (N.to_uint (Z.to_N n)) eqn:Hu; [reflexivity|..];
    rewrite <- Hu; apply includes_uint_lf.
Qed.

Lemma includes_toFixed1_lf (p : number) : Js.includes (Js.toFixed1 p) "010" = false.
Proof.
  unfold Js.toFixed1. cbv zeta. rewrite !includes_append, !includes_digits_lf.
  by destruct (Qnum p <? 0)%Z.
Qed.

Lemma appendEntry_compact_lf (xml : string) (entry : SitemapEntry.t) :
  Js.includes xml "010" = false ->
  onOneLine entry = true ->
  Js.includes (appendEntry "" "" xml entry) "010" = false.
Proof.
  intros Hxml. unfold onOneLine, appendEntry. rewrite escapeXml_escapeEach.
  destruct entry as [url lastmod changefreq priority].
  cbn [SitemapEntry.url SitemapEntry.lastmod SitemapEntry.changefreq SitemapEntry.priority].
  intros [Hurl Hlastmod]%andb_true_iff. apply negb_true_iff in Hurl.
  destruct lastmod as [l|]; [apply negb_true_iff in Hlastmod; destruct (Js.truthy l)|];
    destruct changefreq as [[]|]; destruct priority as [p|];
    cbn [changefreq_string Js.truthy String.eqb negb];
    rewrite !includes_append, ?includes_escapeEach_lf, ?includes_toFixed1_lf,
      ?Hxml, ?Hurl, ?Hlastmod; reflexivity.
Qed.

(** X14. Without pretty printing the document is one line: when no URL
    and no [lastmod] of the entries contains a line feed, neither does the
    document. *)
Theorem compact_document_has_no_line_feed (this : Options.t) (entries : list SitemapEntry.t) :
  cond (Options.prettyPrint this) = false ->
  forallb onOneLine entries = true ->
  Js.includes (entriesToXml this entries) "010" = false.
Proof.
  intros Hpretty Hentries. unfold entriesToXml. rewrite Hpretty. cbv zeta.
  rewrite includes_append.
  assert (Hfold : forall xml, Js.includes xml "010" = false ->
            Js.includes (fold_left (appendEntry "" "") entries xml) "010" = false).
  { induction entries as [|e entries IH]; intros xml Hxml; [exact Hxml|].
    cbn [forallb] in Hentries. apply andb_true_iff in Hentries as [He Hentries].
    cbn [fold_left]. apply (IH Hentries). by apply appendEntry_compact_lf. }
  rewrite Hfold; reflexivity.
Qed.

Lemma startsWith_extend (s t p : string) :
  Js.startsWith s p = true -> Js.startsWith (s +:+ t) p = true.
Proof.
  unfold Js.startsWith. revert s. induction p as [|c p IH]; intros s.
  - intros _. by destruct (s +:+ t).
  - destruct s as [|a s]; [discriminate|]. rewrite append_cons. cbn [String.prefix].
    destruct (ascii_dec c a); [apply IH|discriminate].
Qed.

Lemma appendEntry_keeps_start (indent newline xml p : string) (entry : SitemapEntry.t) :
  Js.startsWith xml p = true ->
  Js.startsWith (appendEntry indent newline xml entry) p = true.
Proof.
  intros Hxml. unfold appendEntry.
  destruct (SitemapEntry.lastmod entry) as [l|]; [destruct (Js.truthy l)|];
    destruct (SitemapEntry.changefreq entry) as [c|];
    try destruct (Js.truthy (changefreq_string c));
    destruct (SitemapEntry.priority entry) as [q|];
    repeat apply startsWith_extend; exact Hxml.
Qed.

(** X15. Whatever the entries, well formed or not, the document starts
    with the XML declaration and the opening [urlset] tag with the sitemap
    namespace, given here as literal text, each followed by a line feed
    exactly when pretty printing is on; it ends with the closing [urlset]
    tag; and for no entries it is these three pieces and nothing else. *)
Theorem document_frame (this : Options.t) (entries : list SitemapEntry.t) :
  Js.startsWith (entriesToXml this entries)
    (declarationText +:+ (if cond (Options.prettyPrint this) then lineFeed else "")
     +:+ rootOpenText +:+ (if cond (Options.prettyPrint this) then lineFeed else "")) = true
  /\ Js.endsWith (entriesToXml this entries) "</urlset>" = true
  /\ entriesToXml this [] =
     declarationText +:+ (if cond (Options.prettyPrint this) then lineFeed else "")
     +:+ rootOpenText +:+ (if cond (Options.prettyPrint this) then lineFeed else "")
     +:+ "</urlset>".
Proof.
  split; [|split].
  - unfold entriesToXml. cbv zeta. apply startsWith_extend.
    set (indent := if cond (Options.prettyPrint this) then "  " else "").
    set (newline := if cond (Options.prettyPrint this) then LF else "").
    set (header := declarationText +:+ _).
    assert (Hfold : forall xml, Js.startsWith xml header = true ->
              Js.startsWith (fold_left (appendEntry indent newline) entries xml)
                header = true).
    { induction entries as [|e entries IH]; intros xml Hxml; [exact Hxml|].
      cbn [fold_left]. apply IH. by apply appendEntry_keeps_start. }
    apply Hfold. subst header newline.
    by destruct (cond (Options.prettyPrint this)).
  - unfold entriesToXml. cbv zeta. apply endsWith_append. reflexivity.
  - unfold entriesToXml. cbv zeta. cbn [fold_left].
    by destruct (cond (Options.prettyPrint this)).
Qed.

(** ** More on deduplication *)

Lemma keepFirst_distinct (seen : list string) (routes : list RouteInfo.t) :
  NoDup (map RouteInfo.path routes) ->
  (forall p, p ∈ seen -> p ∉ map RouteInfo.path routes) ->
  keepFirst seen routes = routes.
Proof.
  revert seen. induction routes as [|r routes IH]; intros seen Hnodup Hseen; [reflexivity|].
  cbn [map] in Hnodup. apply NoDup_cons in Hnodup as [Hr Hnodup].
  cbn [keepFirst]. rewrite bool_decide_eq_false_2.
  - f_equal. apply IH; [exact Hnodup|].
    intros p [->|Hp]%elem_of_cons; [exact Hr|].
    intros Hin. apply (Hseen p Hp). cbn [map]. apply elem_of_cons. by right.
  - intros Hin. apply (Hseen _ Hin). cbn [map]. apply elem_of_cons. by left.
Qed.

Lemma sublist_included (kept routes : list RouteInfo.t) :
  sublist kept routes ->
  Forall (fun r => RouteInfo.includedInSitemap r = true) routes ->
  Forall (fun r => RouteInfo.includedInSitemap r = true) kept.
Proof.
  intros Hsub Hall. rewrite Forall_forall in Hall |- *.
  intros r Hr. apply Hall. by eapply elem_of_sublist.
Qed.

(** X16. Deduplication changes nothing where there is nothing to remove:
    on the flattening of a tree, applying it twice is applying it once, and
    when the flattened paths are pairwise distinct it returns the
    descriptors as they are. *)
Theorem uniqueRoutes_idempotent
    (this : Options.t) (routeTree : TanStackRoute) (parentPath : string)
    (routes : list RouteInfo.t) :
  extractRoutesFromTree this routeTree parentPath = Ok routes ->
  uniqueRoutes (uniqueRoutes routes) = uniqueRoutes routes
  /\ (NoDup (map RouteInfo.path routes) -> uniqueRoutes routes = routes).
Proof.
  intros Hroutes.
  pose proof (extractRoutesFromTree_included _ _ _ _ Hroutes) as Hinc.
  rewrite (uniqueRoutes_keepFirst routes Hinc). split.
  - rewrite uniqueRoutes_keepFirst
      by (eapply sublist_included; [apply keepFirst_sublist|exact Hinc]).
    apply keepFirst_distinct; [apply keepFirst_NoDup|].
    intros p Hp. by apply elem_of_nil in Hp.
  - intros Hnodup. apply keepFirst_distinct; [exact Hnodup|].
    intros p Hp. by apply elem_of_nil in Hp.
Qed.

Lemma keepFirst_app (seen : list string) (l1 l2 : list RouteInfo.t) :
  keepFirst seen (l1 ++ l2) =
  keepFirst seen l1 ++ keepFirst (map RouteInfo.path (keepFirst seen l1) ++ seen) l2.
Proof.
  revert seen. induction l1 as [|r l1 IH]; intros seen; [reflexivity|].
  cbn [app keepFirst].
  destruct (bool_decide_reflect (RouteInfo.path r ∈ seen)) as [Hin|Hin]; [apply IH|].
  cbn [app map]. f_equal. rewrite IH. f_equal.
  apply keepFirst_seen_ext. intros p.
  rewrite !elem_of_app, !elem_of_cons, elem_of_app. tauto.
Qed.

(** A descriptor whose path was met before, in [seen] or earlier in the
    list, can be taken out: what is kept stays the same. *)
Lemma keepFirst_drop_repeat (seen : list string) (l1 l2 : list RouteInfo.t) (r : RouteInfo.t) :
  RouteInfo.path r ∈ seen \/ RouteInfo.path r ∈ map RouteInfo.path l1 ->
  keepFirst seen (l1 ++ r :: l2) = keepFirst seen (l1 ++ l2).
Proof.
  intros Hmet. rewrite !keepFirst_app. f_equal. cbn [keepFirst].
  rewrite bool_decide_eq_true_2; [reflexivity|].
  rewrite elem_of_app, keepFirst_paths.
  destruct Hmet as [H|H]; [by right|].
  destruct (decide (RouteInfo.path r ∈ seen)); [by right|by left].
Qed.

Lemma extractEach_app (this : Options.t) fullPath (cs1 cs2 : list TanStackRoute) :
  extractEach this fullPath (cs1 ++ cs2) =
  let* a := extractEach this fullPath cs1 in
  let* b := extractEach this fullPath cs2 in
  Ok (a ++ b).
Proof.
  induction cs1 as [|c cs1 IH].
  - cbn [app]. change (extractEach this fullPath []) with (@Ok (list RouteInfo.t) []).
    cbn [obind app]. by rewrite obind_ret.
  - cbn [app]. rewrite !extractEach_cons, IH.
    destruct (extractRoutesFromTree this c fullPath) as [sub| |]; cbn [obind]; [|done|done].
    destruct (extractEach this fullPath cs1) as [a| |]; cbn [obind]; [|done|done].
    destruct (extractEach this fullPath cs2) as [b| |]; cbn [obind]; [|done|done].
    by rewrite app_assoc.
Qed.

Lemma buildFullPath_index (fullPath : string) (idx : option string) :
  isIndexPath idx = true ->
  Js.truthy fullPath = true ->
  buildFullPath fullPath (default "" idx) = fullPath
  /\ isDynamicRoute (default "" idx) = false.
Proof.
  unfold isIndexPath. intros Hidx Hfull.
  assert (Hcases : default "" idx = "" \/ default "" idx = "index").
  { apply orb_true_iff in Hidx as [H|H].
    - left. apply negb_true_iff in H. by apply truthy_false.
    - right. by apply String.eqb_eq. }
  unfold buildFullPath. destruct Hcases as [-> | ->]; cbn; by rewrite Hfull.
Qed.

Lemma extractEach_included (this : Options.t) fullPath children routes :
  extractEach this fullPath children = Ok routes ->
  Forall (fun r => RouteInfo.includedInSitemap r = true) routes.
Proof.
  revert routes. induction children as [|c cs IH]; intros routes H.
  - injection H as <-. constructor.
  - rewrite extractEach_cons in H.
    apply obind_Ok in H as (sub & Hsub & H).
    apply obind_Ok in H as (rest & Hrest & H). injection H as <-.
    apply Forall_app. split; [by eapply extractRoutesFromTree_included|by apply IH].
Qed.

(** X17. An index route adds no entry of its own: under a root whose raw
    path is not dynamic and whose full path is not empty, a childless child
    whose path is missing, empty or [index] can be taken out of the tree
    without changing what [generateSitemapEntries] returns. *)
Theorem index_leaf_adds_no_entry
    (this : Options.t) (w : World) (path idx : option string)
    (before after : list TanStackRoute) :
  isDynamicRoute (default "" path) = false ->
  Js.truthy (buildFullPath "" (default "" path)) = true ->
  isIndexPath idx = true ->
  generateSitemapEntries this w (Route path (before ++ Route idx [] :: after))
  = generateSitemapEntries this w (Route path (before ++ after)).
Proof.
  intros Hdyn Htruthy Hidx. unfold generateSitemapEntries.
  rewrite !extractRoutesFromTree_eq. cbv zeta.
  set (fullPath := buildFullPath "" (default "" path)) in *.
  rewrite Htruthy, Hdyn. cbn [negb andb].
  destruct (isExcludedRoute this fullPath) as [excluded| |] eqn:Hex; cbn [obind];
    [|done|done].
  rewrite !extractEach_app, extractEach_cons.
  destruct (extractEach this fullPath before) as [b1| |] eqn:Hb1; cbn [obind];
    [|by destruct excluded|by destruct excluded].
  destruct (buildFullPath_index fullPath idx Hidx Htruthy) as [Hsame Hidxdyn].
  rewrite extractRoutesFromTree_eq. cbv zeta.
  rewrite Hsame, Htruthy, Hidxdyn, Hex. cbn [negb andb obind extractEach].
  destruct (extractEach this fullPath after) as [b2| |] eqn:Hb2; cbn [obind];
    [|by destruct excluded|by destruct excluded].
  pose proof (extractEach_included _ _ _ _ Hb1) as Hinc1.
  pose proof (extractEach_included _ _ _ _ Hb2) as Hinc2.
  destruct excluded; cbn [obind app]; [reflexivity|].
  destruct (generateManualRoutes this w) as [[manualEntries console]| |]; cbn [obind];
    [|done|done].
  do 3 f_equal.
  assert (Hd : RouteInfo.includedInSitemap (descriptor this fullPath) = true) by reflexivity.
  assert (Hl : Forall (fun r => RouteInfo.includedInSitemap r = true)
                 (descriptor this fullPath :: b1 ++ b2)).
  { constructor; [exact Hd|]. apply Forall_app. by split. }
  assert (Hr : Forall (fun r => RouteInfo.includedInSitemap r = true)
                 (descriptor this fullPath :: b1 ++ descriptor this fullPath :: b2)).
  { constructor; [exact Hd|]. apply Forall_app. split; [done|]. by constructor. }
  rewrite (uniqueRoutes_keepFirst _ Hl), (uniqueRoutes_keepFirst _ Hr).
  f_equal.
  apply (keepFirst_drop_repeat [] (descriptor this fullPath :: b1) b2).
  right. cbn [map]. apply elem_of_cons. by left.
Qed.

(** * Properties of the build plugin *)

(** ** Locating the route-tree file *)

Lemma tryExtensions_spec (host : Host.t) (basePath : string) (exts : list string) :
  match tryExtensions host basePath exts with
  | Some fullPath =>
      Host.existsSync host fullPath = true
      /\ exists ext, ext ∈ exts /\ fullPath = Host.resolve host (basePath +:+ ext)
  | None =>
      forall ext, ext ∈ exts ->
        Host.existsSync host (Host.resolve host (basePath +:+ ext)) = false
  end.
Proof.
  induction exts as [|ext exts IH]; cbn [tryExtensions].
  - intros ext Hext. by apply elem_of_nil in Hext.
  - destruct (Host.existsSync host (Host.resolve host (basePath +:+ ext))) eqn:Hexists.
    + split; [exact Hexists|]. exists ext. split; [apply elem_of_cons; by left|reflexivity].
    + destruct (tryExtensions host basePath exts) as [fullPath|].
      * destruct IH as (Hfull & ext' & Hext' & ->). split; [exact Hfull|].
        exists ext'. split; [apply elem_of_cons; by right|reflexivity].
      * intros ext' [->|Hext']%elem_of_cons; [exact Hexists|by apply IH].
Qed.

Lemma tryBasePaths_spec (host : Host.t) (basePaths : list string) :
  match tryBasePaths host basePaths with
  | Some fullPath =>
      Host.existsSync host fullPath = true
      /\ exists basePath ext,
           basePath ∈ basePaths /\ ext ∈ extensions
           /\ fullPath = Host.resolve host (basePath +:+ ext)
  | None =>
      forall basePath ext, basePath ∈ basePaths -> ext ∈ extensions ->
        Host.existsSync host (Host.resolve host (basePath +:+ ext)) = false
  end.
Proof.
  induction basePaths as [|b bs IH]; cbn [tryBasePaths].
  - intros basePath ext Hb. by apply elem_of_nil in Hb.
  - pose proof (tryExtensions_spec host b extensions) as Hb.
    destruct (tryExtensions host b extensions) as [fullPath|].
    + destruct Hb as (Hfull & ext & Hext & ->). split; [exact Hfull|].
      exists b, ext. split; [apply elem_of_cons; by left|done].
    + destruct (tryBasePaths host bs) as [fullPath|].
      * destruct IH as (Hfull & b' & ext & Hb' & Hext & ->). split; [exact Hfull|].
        exists b', ext. split; [apply elem_of_cons; by right|done].
      * intros b' ext [->|Hb']%elem_of_cons Hext; [by apply Hb|by apply IH].
Qed.

(** X18. [findRouteTreeFile] returns a file that exists and that is one of
    its candidates, a base path followed by [.js] or [.ts]; it returns
    nothing only when none of the candidates exists. *)
Theorem findRouteTreeFile_finds_a_candidate (host : Host.t) (customPath : option string) :
  match findRouteTreeFile host customPath with
  | Some fullPath =>
      Host.existsSync host fullPath = true
      /\ exists basePath ext,
           basePath ∈ possibleBasePaths customPath /\ ext ∈ extensions
           /\ fullPath = Host.resolve host (basePath +:+ ext)
  | None =>
      forall basePath ext, basePath ∈ possibleBasePaths customPath -> ext ∈ extensions ->
        Host.existsSync host (Host.resolve host (basePath +:+ ext)) = false
  end.
Proof. apply tryBasePaths_spec. Qed.

Lemma stripTsJs_added (base ext : string) :
  ext = ".ts" \/ ext = ".js" -> stripTsJs (base +:+ ext) = base.
Proof.
  intros Hext. unfold stripTsJs.
  assert (Hends : Js.endsWith (base +:+ ext) ".ts" || Js.endsWith (base +:+ ext) ".js" = true).
  { destruct Hext as [-> | ->].
    - by rewrite (endsWith_append base ".ts" ".ts" eq_refl).
    - rewrite (endsWith_append base ".js" ".js" eq_refl). apply orb_true_r. }
  rewrite Hends. unfold Js.slice_to_minus. rewrite length_append.
  replace (String.length base + String.length ext - 3) with (String.length base)
    by (destruct Hext as [-> | ->]; simpl; lia).
  apply substring_prefix.
Qed.

(** X19. The extension of a custom route-tree path does not matter:
    [base.ts] and [base.js] lead to the same search, and when [base.js]
    exists it is the file returned, also for the custom path [base.ts]. *)
Theorem custom_path_extension_is_ignored (host : Host.t) (base : string) :
  findRouteTreeFile host (Some (base +:+ ".ts")) = findRouteTreeFile host (Some (base +:+ ".js"))
  /\ (base <> "" ->
      Host.existsSync host (Host.resolve host (base +:+ ".js")) = true ->
      findRouteTreeFile host (Some (base +:+ ".ts"))
      = Some (Host.resolve host (base +:+ ".js"))).
Proof.
  unfold findRouteTreeFile, possibleBasePaths. cbn [option_map].
  rewrite (stripTsJs_added base ".ts") by (by left).
  rewrite (stripTsJs_added base ".js") by (by right).
  split; [reflexivity|]. intros Hbase Hexists.
  apply truthy_true in Hbase. cbn [filterBoolean]. rewrite Hbase.
  cbn [tryBasePaths extensions tryExtensions]. by rewrite Hexists.
Qed.

(** ** The directory of the output file *)

Lemma split_nonempty (c : ascii) (s : string) : split c s <> [].
Proof.
  destruct s as [|a s]; [discriminate|]. cbn [split].
  destruct (Ascii.eqb a c); [discriminate|]. by destruct (split c s).
Qed.

Lemma split_cons (c a : ascii) (s : string) :
  split c (String a s) =
  if Ascii.eqb a c then EmptyString :: split c s
  else match split c s with
       | piece :: pieces => String a piece :: pieces
       | [] => [String a EmptyString]
       end.
Proof. reflexivity. Qed.

Lemma split_absent (c : ascii) (s : string) : Js.includes s c = false -> split c s = [s].
Proof.
  induction s as [|a s IH]; [reflexivity|]. cbn [Js.includes].
  intros [Ha Hs]%orb_false_iff. by rewrite split_cons, Ha, (IH Hs).
Qed.

Lemma split_last (c : ascii) (d f : string) :
  Js.includes f c = false -> split c (d +:+ String c f) = split c d ++ [f].
Proof.
  intros Hf. induction d as [|a d IH].
  - rewrite append_empty_l, split_cons, Ascii.eqb_refl. by rewrite (split_absent c f Hf).
  - rewrite append_cons, !split_cons, IH. destruct (Ascii.eqb a c); [reflexivity|].
    pose proof (split_nonempty c d). by destruct (split c d).
Qed.

Lemma concat_cons (sep x y : string) (l : list string) :
  String.concat sep (x :: y :: l) = x +:+ sep +:+ String.concat sep (y :: l).
Proof. reflexivity. Qed.

Lemma concat_split (c : ascii) (s : string) :
  String.concat (String c "") (split c s) = s.
Proof.
  induction s as [|a s IH]; [reflexivity|]. rewrite split_cons.
  pose proof (split_nonempty c s) as Hne.
  destruct (split c s) as [|piece pieces] eqn:Hs; [done|].
  destruct (Ascii.eqb_spec a c) as [->|_].
  - by rewrite concat_cons, IH.
  - destruct pieces as [|piece' pieces].
    + cbn [String.concat] in *. by rewrite IH.
    + rewrite concat_cons in *. by rewrite <- IH.
Qed.

(** X20. The directory the plugin creates is the directory part of
    [outputPath]: everything before the last slash, and the empty string
    (the project root) when [outputPath] has no slash. *)
Theorem outputDirectory_is_the_directory_part (dir file : string) :
  Js.includes file "/" = false ->
  outputDirectory (dir +:+ "/" +:+ file) = dir /\ outputDirectory file = "".
Proof.
  intros Hfile. unfold outputDirectory. split.
  - change ("/" +:+ file) with (String "/" file).
    rewrite (split_last "/" dir file Hfile), removelast_last. apply concat_split.
  - by rewrite (split_absent "/" file Hfile).
Qed.

(** ** What [buildEnd] writes *)

Lemma matchesExclude_not_thrown (path excludePath msg : string) :
  matchesExclude path excludePath <> Thrown msg.
Proof.
  unfold matchesExclude, RegExp.test.
  destruct (Js.includes excludePath "*"); [|discriminate].
  destruct (_ && _); [discriminate|]. by destruct (RegExp.parse _).
Qed.

Lemma isExcludedRoute_not_thrown (this : Options.t) (path msg : string) :
  isExcludedRoute this path <> Thrown msg.
Proof.
  unfold isExcludedRoute. induction (Options.excludeRoutes this) as [|p ps IH]; [discriminate|].
  cbn [some]. pose proof (matchesExclude_not_thrown path p msg).
  destruct (matchesExclude path p) as [[]| |]; cbn [obind]; done.
Qed.

Lemma extractRoutesFromTree_not_thrown (this : Options.t) route parentPath msg :
  extractRoutesFromTree this route parentPath <> Thrown msg.
Proof.
  revert parentPath. induction route as [path children IH] using TanStackRoute_children_ind.
  intros parentPath. rewrite extractRoutesFromTree_eq. cbv zeta.
  set (fullPath := buildFullPath parentPath (default "" path)). clearbody fullPath.
  assert (Hbelow : extractEach this fullPath children <> Thrown msg).
  { induction IH as [|c cs Hc _ IHcs]; [discriminate|].
    rewrite extractEach_cons. specialize (Hc fullPath).
    destruct (extractRoutesFromTree this c fullPath); cbn [obind]; [|done|done].
    destruct (extractEach this fullPath cs); cbn [obind]; done. }
  pose proof (isExcludedRoute_not_thrown this fullPath msg) as Hex.
  destruct (Js.truthy fullPath && negb (isDynamicRoute (default "" path)));
    [destruct (isExcludedRoute this fullPath) as [[]| |]|]; cbn [obind]; try done;
    destruct (extractEach this fullPath children); cbn [obind]; try done;
    intros [= ->]; by apply Hex.
Qed.

Lemma generateManualRoutes_not_thrown (this : Options.t) w msg :
  generateManualRoutes this w <> Thrown msg.
Proof.
  unfold generateManualRoutes. destruct (Options.manualRoutes this) as [provider|]; [|done].
  by destruct (match provider w with
               | Returns routes | Resolves routes =>
                   let* kept := filterNotExcluded this routes in mapManual this kept
               | Throws error | Rejects error => Thrown error
               end).
Qed.

Lemma generateSitemapEntries_not_thrown (this : Options.t) w routeTree msg :
  generateSitemapEntries this w routeTree <> Thrown msg.
Proof.
  unfold generateSitemapEntries.
  pose proof (extractRoutesFromTree_not_thrown this routeTree "" msg) as Hflat.
  destruct (extractRoutesFromTree this routeTree ""); cbn [obind];
    [|intros [= ->]; by apply Hflat|done].
  pose proof (generateManualRoutes_not_thrown this w msg) as Hmanual.
  destruct (generateManualRoutes this w) as [[]| |]; cbn [obind];
    [done|intros [= ->]; by apply Hmanual|done].
Qed.

Lemma generateXmlSitemap_not_thrown (this : Options.t) w routeTree msg :
  generateXmlSitemap this w routeTree <> Thrown msg.
Proof.
  unfold generateXmlSitemap.
  pose proof (generateSitemapEntries_not_thrown this w routeTree msg) as Hgen.
  destruct (generateSitemapEntries this w routeTree) as [[]| |]; cbn [obind];
    [done|intros [= ->]; by apply Hgen|done].
Qed.

Lemma fileEffects_app (l1 l2 : list Effect) :
  fileEffects (l1 ++ l2) = fileEffects l1 ++ fileEffects l2.
Proof. apply List.filter_app. Qed.

Lemma fileEffects_logIf (verbose : bool) (line : string) :
  fileEffects (fst (logIf verbose line)) = [].
Proof. by destruct verbose. Qed.

Lemma fileEffects_warned (console : list (string * string)) :
  fileEffects (warned console) = [].
Proof. induction console as [|c console IH]; [reflexivity|exact IH]. Qed.

Lemma fileEffects_logUrls (index : nat) (entries : list SitemapEntry.t) :
  fileEffects (logUrls index entries) = [].
Proof.
  revert index. induction entries as [|e entries IH]; intros index; [reflexivity|apply IH].
Qed.

Lemma fileEffects_log (line : string) (effects : list Effect) :
  fileEffects (ConsoleLog line :: effects) = fileEffects effects.
Proof. reflexivity. Qed.

Lemma reportUrls_quiet (generator : Options.t) w routeTree outputPath :
  fileEffects (fst (reportUrls generator w routeTree outputPath)) = []
  /\ forall msg, snd (reportUrls generator w routeTree outputPath) <> Thrown msg.
Proof.
  unfold reportUrls.
  pose proof (generateSitemapEntries_not_thrown generator w routeTree) as Hgen.
  destruct (generateSitemapEntries generator w routeTree) as [[entries console]|msg0|];
    cbn [lift rbind fst snd app].
  - destruct (0 <? length entries)%nat; [destruct (5 <? length entries)%nat|];
      cbn [perform ret rbind fst snd app];
      rewrite ?app_nil_r, ?fileEffects_app, ?fileEffects_warned, ?fileEffects_logUrls.
    all: cbn [app]; rewrite ?fileEffects_log, ?fileEffects_app, ?fileEffects_logUrls,
           ?fileEffects_log; by split.
  - split; [reflexivity|]. intros msg [= ->]. by apply (Hgen msg).
  - by split.
Qed.

Lemma obtainRouteTree_quiet (host : Host.t) verbose routeTreePath providedRouteTree :
  fileEffects (fst (obtainRouteTree host verbose routeTreePath providedRouteTree)) = [].
Proof.
  unfold obtainRouteTree. destruct providedRouteTree; [reflexivity|].
  destruct (findRouteTreeFile host routeTreePath) as [file|]; destruct verbose;
    cbn [logIf perform lift rbind fst snd app]; try reflexivity;
    by destruct (Host.importRouteTree host file).
Qed.

(** The body of [buildEnd], stage by stage, when it is not skipped. *)
Lemma buildEndBody_stages (host : Host.t) (options : PluginOptions.t) now w1 w2 provided :
  default false (PluginOptions.onBuildOnly options)
    && negb (bool_decide (Host.NODE_ENV host = Some "production")) = false ->
  let outputPath := default "public/sitemap.xml" (PluginOptions.outputPath options) in
  let verbose := default false (PluginOptions.verbose options) in
  let found := obtainRouteTree host verbose (PluginOptions.routeTreePath options) provided in
  let start := fst (logIf verbose "🗺️  Generating sitemap...") ++ fst found in
  buildEndBody host options now w1 w2 provided =
  match snd found with
  | Ok routeTree =>
      match constructor (PluginOptions.sitemapOptions options) now with
      | Ok generator =>
          match generateXmlSitemap generator w1 routeTree with
          | Ok (sitemap, console) =>
              let report :=
                if verbose then reportUrls generator w2 routeTree outputPath else ret tt in
              (start ++ warned console ++ fst (writeSitemap host outputPath sitemap)
                 ++ fst report, snd report)
          | Thrown msg => (start, Thrown msg)
          | OutsideModel => (start, OutsideModel)
          end
      | Thrown msg => (start, Thrown msg)
      | OutsideModel => (start, OutsideModel)
      end
  | Thrown msg => (start, Thrown msg)
  | OutsideModel => (start, OutsideModel)
  end.
Proof.
  intros Hskip. cbv zeta. unfold buildEndBody. rewrite Hskip.
  destruct (obtainRouteTree host _ _ provided) as [found [routeTree|msg|]];
    destruct (default false (PluginOptions.verbose options));
    cbn [logIf perform lift rbind fst snd app]; try reflexivity;
    destruct (constructor _ now) as [generator|msg|];
    cbn [logIf perform lift rbind fst snd app]; rewrite ?app_nil_r; try reflexivity;
    destruct (generateXmlSitemap generator w1 routeTree) as [[sitemap console]|msg|];
    unfold writeSitemap;
    cbn [logIf perform lift ret rbind fst snd app]; rewrite ?app_nil_r; try reflexivity.
Qed.

Lemma fileEffects_buildEnd (host : Host.t) (options : PluginOptions.t) now w1 w2 provided :
  fileEffects (fst (buildEnd host options now w1 w2 provided))
  = fileEffects (fst (buildEndBody host options now w1 w2 provided)).
Proof.
  unfold buildEnd. destruct (buildEndBody host options now w1 w2 provided) as [done [| |]];
    cbn [fst]; [reflexivity| |reflexivity].
  rewrite fileEffects_app. apply app_nil_r.
Qed.

Lemma fileEffects_start (host : Host.t) verbose routeTreePath provided (line : string) :
  fileEffects (fst (logIf verbose line)
               ++ fst (obtainRouteTree host verbose routeTreePath provided)) = [].
Proof. by rewrite fileEffects_app, fileEffects_logIf, obtainRouteTree_quiet. Qed.

(** X21. When [buildEnd] is not skipped, is given a route tree, and the
    generator accepts the options and renders a document for the tree, the
    file system sees exactly this: the directory of [outputPath] is created
    if it does not exist, then the document is written to [outputPath]
    under the working directory; and [buildEnd] does not throw. The document
    written is the one of the first generation, also in [verbose] mode. *)
Theorem buildEnd_writes_the_generated_document
    (host : Host.t) (options : PluginOptions.t) (now : string) (w1 w2 : World)
    (routeTree : TanStackRoute) (generator : Options.t) (sitemap : string)
    (console : list (string * string)) :
  skipped host options = false ->
  constructor (PluginOptions.sitemapOptions options) now = Ok generator ->
  generateXmlSitemap generator w1 routeTree = Ok (sitemap, console) ->
  let outputPath := default "public/sitemap.xml" (PluginOptions.outputPath options) in
  let outputDir := Host.join host (outputDirectory outputPath) in
  fileEffects (fst (buildEnd host options now w1 w2 (Some routeTree)))
  = (if Host.existsSync host outputDir then [] else [MkdirSync outputDir])
    ++ [WriteFileSync (Host.join host outputPath) sitemap]
  /\ forall msg, snd (buildEnd host options now w1 w2 (Some routeTree)) <> Thrown msg.
Proof.
  intros Hskip Hctor Hxml. cbv zeta.
  pose proof (buildEndBody_stages host options now w1 w2 (Some routeTree) Hskip) as Hbody.
  cbv zeta in Hbody. cbn [obtainRouteTree ret fst snd] in Hbody.
  rewrite Hctor, Hxml in Hbody.
  set (report := if default false (PluginOptions.verbose options)
                 then reportUrls generator w2 routeTree
                        (default "public/sitemap.xml" (PluginOptions.outputPath options))
                 else ret ()) in Hbody.
  assert (Hreport : fileEffects (fst report) = [] /\ forall msg, snd report <> Thrown msg).
  { subst report. destruct (default false (PluginOptions.verbose options));
      [apply reportUrls_quiet|by split]. }
  destruct Hreport as [Hquiet Hnothrow]. split.
  - rewrite fileEffects_buildEnd, Hbody. cbn [fst].
    rewrite !fileEffects_app, fileEffects_logIf, fileEffects_warned, Hquiet, app_nil_r.
    unfold writeSitemap. cbn [perform rbind fst snd app].
    by destruct (Host.existsSync host _).
  - intros msg. unfold buildEnd. rewrite Hbody.
    destruct (snd report) as [[]|msg'|] eqn:Hsnd; cbn [snd]; [done| |done].
    by destruct (Hnothrow msg').
Qed.

(** X22. When [buildEnd] is skipped ([onBuildOnly] outside a production
    build) it touches no file and returns; and whenever it throws (no
    route-tree file is found, the import fails, or the constructor rejects
    the options, for one a blank [baseUrl]) it has touched no file, and the
    last thing it did was to log the error it throws with
    [console.error]. *)
Theorem buildEnd_touches_no_file_when_skipped_or_failing
    (host : Host.t) (options : PluginOptions.t) (now : string) (w1 w2 : World)
    (provided : option TanStackRoute) :
  (skipped host options = true ->
   fileEffects (fst (buildEnd host options now w1 w2 provided)) = []
   /\ snd (buildEnd host options now w1 w2 provided) = Ok tt)
  /\ (forall msg,
        snd (buildEnd host options now w1 w2 provided) = Thrown msg ->
        fileEffects (fst (buildEnd host options now w1 w2 provided)) = []
        /\ exists before,
             fst (buildEnd host options now w1 w2 provided)
             = before ++ [ConsoleError "❌ Error generating sitemap:" msg]).
Proof.
  split.
  - intros Hskip. unfold buildEnd, buildEndBody. fold (skipped host options).
    rewrite Hskip. by destruct (default false (PluginOptions.verbose options)).
  - intros msg Hthrown. destruct (skipped host options) eqn:Hskip.
    { exfalso. revert Hthrown. unfold buildEnd, buildEndBody. fold (skipped host options).
      rewrite Hskip. by destruct (default false (PluginOptions.verbose options)). }
    pose proof (buildEndBody_stages host options now w1 w2 provided Hskip) as Hbody.
    cbv zeta in Hbody. rewrite fileEffects_buildEnd. revert Hthrown.
    unfold buildEnd. rewrite Hbody. clear Hbody.
    set (start := fst (logIf _ _) ++ fst (obtainRouteTree host _ _ provided)).
    assert (Hstart : fileEffects start = []) by apply fileEffects_start.
    destruct (snd (obtainRouteTree host _ _ provided)) as [routeTree|msg'|];
      [|cbn [fst snd]; intros [= ->]; split; [exact Hstart|by eexists]|discriminate].
    destruct (constructor _ now) as [generator|msg'|];
      [|cbn [fst snd]; intros [= ->]; split; [exact Hstart|by eexists]|discriminate].
    pose proof (generateXmlSitemap_not_thrown generator w1 routeTree) as Hxml.
    destruct (generateXmlSitemap generator w1 routeTree) as [[sitemap console]|msg'|];
      [|by destruct (Hxml msg')|discriminate].
    set (report := if default false (PluginOptions.verbose options)
                   then reportUrls generator w2 routeTree _ else ret ()).
    assert (Hnothrow : forall m, snd report <> Thrown m).
    { subst report. destruct (default false (PluginOptions.verbose options));
        [apply reportUrls_quiet|done]. }
    destruct (snd report) as [[]|msg'|] eqn:Hsnd; cbn [snd]; [discriminate| |discriminate].
    by destruct (Hnothrow msg').
Qed.

(** * How the options act on the set of entries *)

Lemma some_app {A : Type} (f : A -> outcome bool) (l1 l2 : list A) :
  some f (l1 ++ l2) = let* b := some f l1 in if b then Ok true else some f l2.
Proof.
  induction l1 as [|x l1 IH]; [reflexivity|]. cbn [app some]. rewrite IH.
  destruct (f x) as [[]| |]; reflexivity.
Qed.

Lemma extractRoutesFromTree_more_patterns (this : Options.t) (extra : list string) route :
  forall parentPath routes routes',
    extractRoutesFromTree this route parentPath = Ok routes ->
    extractRoutesFromTree
      (withExcludeRoutes this (Options.excludeRoutes this ++ extra)) route parentPath
      = Ok routes' ->
    routes' = List.filter (fun r => unmatched extra (RouteInfo.path r)) routes.
Proof.
  induction route as [path children IH] using TanStackRoute_children_ind.
  intros parentPath routes routes'. rewrite !extractRoutesFromTree_eq. cbv zeta.
  set (fullPath := buildFullPath parentPath (default "" path)). clearbody fullPath.
  intros H H'.
  apply obind_Ok in H as (own & Hown & H).
  apply obind_Ok in H as (below & Hbelow & H). injection H as <-.
  apply obind_Ok in H' as (own' & Hown' & H').
  apply obind_Ok in H' as (below' & Hbelow' & H'). injection H' as <-.
  rewrite List.filter_app. f_equal.
  - destruct (Js.truthy fullPath && negb (isDynamicRoute (default "" path)));
      [|injection Hown as <-; by injection Hown' as <-].
    apply obind_Ok in Hown as (b & Hb & Hown).
    apply obind_Ok in Hown' as (b' & Hb' & Hown').
    unfold isExcludedRoute in Hb, Hb'.
    cbn [withExcludeRoutes Options.excludeRoutes] in Hb'.
    rewrite some_app, Hb in Hb'. cbn [obind] in Hb'.
    destruct b.
    + injection Hb' as <-. injection Hown as <-. by injection Hown' as <-.
    + injection Hown as <-. cbn [List.filter]. unfold unmatched.
      change (RouteInfo.path (descriptor this fullPath)) with fullPath. rewrite Hb'.
      destruct b'; by injection Hown' as <-.
  - clear Hown Hown'. revert below below' Hbelow Hbelow'.
    induction IH as [|c cs Hc _ IHcs]; intros below below' Hbelow Hbelow'.
    + injection Hbelow as <-. by injection Hbelow' as <-.
    + rewrite extractEach_cons in Hbelow, Hbelow'.
      apply obind_Ok in Hbelow as (sub & Hsub & Hbelow).
      apply obind_Ok in Hbelow as (rest & Hrest & Hbelow). injection Hbelow as <-.
      apply obind_Ok in Hbelow' as (sub' & Hsub' & Hbelow').
      apply obind_Ok in Hbelow' as (rest' & Hrest' & Hbelow'). injection Hbelow' as <-.
      rewrite List.filter_app. f_equal; [by eapply Hc|by apply IHcs].
Qed.

Lemma keepFirst_unused (p : string) (seen : list string) (routes : list RouteInfo.t) :
  p ∉ map RouteInfo.path routes ->
  keepFirst (p :: seen) routes = keepFirst seen routes.
Proof.
  revert seen. induction routes as [|r routes IH]; intros seen Hp; [reflexivity|].
  cbn [map] in Hp. apply not_elem_of_cons in Hp as [Hne Hp]. cbn [keepFirst].
  rewrite (bool_decide_ext (RouteInfo.path r ∈ p :: seen) (RouteInfo.path r ∈ seen))
    by (rewrite elem_of_cons; split; [intros [H|H]; [congruence|done]|by right]).
  destruct (bool_decide (RouteInfo.path r ∈ seen)); [by apply IH|].
  f_equal. rewrite <- (IH (RouteInfo.path r :: seen) Hp).
  apply keepFirst_seen_ext. intros q. rewrite !elem_of_cons. tauto.
Qed.

Lemma keepFirst_filter (f : string -> bool) (seen : list string) (routes : list RouteInfo.t) :
  keepFirst seen (List.filter (fun r => f (RouteInfo.path r)) routes)
  = List.filter (fun r => f (RouteInfo.path r)) (keepFirst seen routes).
Proof.
  revert seen. induction routes as [|r routes IH]; intros seen; [reflexivity|].
  cbn [List.filter keepFirst].
  destruct (f (RouteInfo.path r)) eqn:Hf;
    destruct (bool_decide_reflect (RouteInfo.path r ∈ seen)) as [Hin|Hin];
    cbn [keepFirst List.filter]; rewrite ?Hf.
  - rewrite bool_decide_eq_true_2 by done. apply IH.
  - rewrite bool_decide_eq_false_2 by done. by rewrite IH.
  - apply IH.
  - rewrite <- !IH. symmetry. apply keepFirst_unused.
    intros Hp. apply list_elem_of_fmap in Hp as (x & Hpath & Hx).
    apply list_elem_of_In, List.filter_In in Hx as [_ Hx]. congruence.
Qed.

(** X23. Adding exclusion patterns removes entries and does nothing else:
    the static entries of the generator with the longer list are those of
    the generator with the shorter list whose path none of the added
    patterns matches, in the same order and with the same fields. *)
Theorem more_patterns_only_remove_entries
    (this : Options.t) (extra : list string) (routeTree : TanStackRoute)
    (routes routes' : list RouteInfo.t) :
  extractRoutesFromTree this routeTree "" = Ok routes ->
  extractRoutesFromTree
    (withExcludeRoutes this (Options.excludeRoutes this ++ extra)) routeTree "" = Ok routes' ->
  map (createSitemapEntry (withExcludeRoutes this (Options.excludeRoutes this ++ extra)))
    (uniqueRoutes routes')
  = map (createSitemapEntry this)
      (List.filter (fun r => unmatched extra (RouteInfo.path r)) (uniqueRoutes routes)).
Proof.
  intros Hroutes Hroutes'.
  pose proof (extractRoutesFromTree_more_patterns this extra routeTree "" routes routes'
                Hroutes Hroutes') as ->.
  pose proof (extractRoutesFromTree_included _ _ _ _ Hroutes) as Hinc.
  pose proof (extractRoutesFromTree_included _ _ _ _ Hroutes') as Hinc'.
  rewrite (uniqueRoutes_keepFirst _ Hinc), (uniqueRoutes_keepFirst _ Hinc').
  rewrite (keepFirst_filter (unmatched extra)). reflexivity.
Qed.

Lemma isExcludedRoute_sameRouting (this other : Options.t) (path : string) :
  sameRouting this other -> isExcludedRoute other path = isExcludedRoute this path.
Proof. intros (_ & Hex & _). unfold isExcludedRoute. by rewrite Hex. Qed.

Lemma buildFullUrl_sameRouting (this other : Options.t) (path : string) :
  sameRouting this other -> buildFullUrl other path = buildFullUrl this path.
Proof. intros (Hbase & _ & Hslash & _). unfold buildFullUrl. by rewrite Hbase, Hslash. Qed.

Lemma extractRoutesFromTree_sameRouting (this other : Options.t) route :
  sameRouting this other ->
  forall parentPath routes,
    extractRoutesFromTree this route parentPath = Ok routes ->
    extractRoutesFromTree other route parentPath
    = Ok (map (fun r => descriptor other (RouteInfo.path r)) routes).
Proof.
  intros Hsame. induction route as [path children IH] using TanStackRoute_children_ind.
  intros parentPath routes. rewrite !extractRoutesFromTree_eq. cbv zeta.
  set (fullPath := buildFullPath parentPath (default "" path)). clearbody fullPath.
  rewrite (isExcludedRoute_sameRouting this other fullPath Hsame).
  intros H. apply obind_Ok in H as (own & Hown & H).
  apply obind_Ok in H as (below & Hbelow & H). injection H as <-.
  assert (Hbelow' : extractEach other fullPath children
                    = Ok (map (fun r => descriptor other (RouteInfo.path r)) below)).
  { clear Hown. revert below Hbelow.
    induction IH as [|c cs Hc _ IHcs]; intros below Hbelow.
    - by injection Hbelow as <-.
    - rewrite extractEach_cons in Hbelow |- *.
      apply obind_Ok in Hbelow as (sub & Hsub & Hbelow).
      apply obind_Ok in Hbelow as (rest & Hrest & Hbelow). injection Hbelow as <-.
      rewrite (Hc _ _ Hsub), (IHcs _ Hrest). cbn [obind]. by rewrite map_app. }
  rewrite Hbelow'. rewrite map_app.
  destruct (Js.truthy fullPath && negb (isDynamicRoute (default "" path)));
    [|by injection Hown as <-].
  destruct (isExcludedRoute this fullPath) as [[]| |]; cbn [obind] in Hown |- *;
    try discriminate; by injection Hown as <-.
Qed.

Lemma keepFirst_map (g : RouteInfo.t -> RouteInfo.t) (seen : list string) routes :
  (forall r, RouteInfo.path (g r) = RouteInfo.path r) ->
  keepFirst seen (map g routes) = map g (keepFirst seen routes).
Proof.
  intros Hg. revert seen. induction routes as [|r routes IH]; intros seen; [reflexivity|].
  cbn [map keepFirst]. rewrite Hg.
  destruct (bool_decide (RouteInfo.path r ∈ seen)); [apply IH|].
  cbn [map]. by rewrite IH.
Qed.

Lemma mapManual_sameRouting (this other : Options.t) routes :
  sameRouting this other ->
  match mapManual this routes with
  | Ok entries =>
      exists entries', mapManual other routes = Ok entries'
                       /\ map SitemapEntry.url entries' = map SitemapEntry.url entries
  | Thrown msg => mapManual other routes = Thrown msg
  | OutsideModel => mapManual other routes = OutsideModel
  end.
Proof.
  intros Hsame. induction routes as [|r routes IH]; [by exists []|].
  cbn [mapManual]. unfold createManualSitemapEntry.
  rewrite (buildFullUrl_sameRouting this other _ Hsame).
  destruct (ManualSitemapEntry.lastMod r) as [[s|[iso|]]|]; cbn [toISOString obind];
    try reflexivity; try destruct (Js.truthy s); cbn [obind];
    destruct (mapManual this routes) as [es|msg|]; cbn [obind];
    try (destruct IH as (es' & -> & Hurls); cbn [obind]; eexists; split; [reflexivity|];
         cbn [map SitemapEntry.url]; by rewrite Hurls);
    by rewrite IH.
Qed.

(** X24. The per-route options and the defaults of [lastmod], [changefreq]
    and [priority] have no say in which URLs come out: two generators that
    agree on [baseUrl], [excludeRoutes], [trailingSlash] and the provider
    return, for the same tree and world, entries with the same URLs in the
    same order, and log the same. *)
Theorem field_options_do_not_change_the_urls
    (this other : Options.t) (w : World) (routeTree : TanStackRoute)
    (entries : list SitemapEntry.t) (console : list (string * string)) :
  sameRouting this other ->
  generateSitemapEntries this w routeTree = Ok (entries, console) ->
  exists entries',
    generateSitemapEntries other w routeTree = Ok (entries', console)
    /\ map SitemapEntry.url entries' = map SitemapEntry.url entries.
Proof.
  intros Hsame Hgen.
  apply generateSitemapEntries_Ok in Hgen as (routes & manualEntries & Hroutes & Hmanual & ->).
  pose proof (extractRoutesFromTree_sameRouting this other routeTree Hsame "" routes Hroutes)
    as Hroutes'.
  assert (Hmanual' : exists manualEntries',
            generateManualRoutes other w = Ok (manualEntries', console)
            /\ map SitemapEntry.url manualEntries' = map SitemapEntry.url manualEntries).
  { revert Hmanual. unfold generateManualRoutes.
    pose proof Hsame as (Hbase & Hex & Hslash & Hprov). rewrite <- Hprov.
    destruct (Options.manualRoutes this) as [provider|];
      [|intros [= <- <-]; by exists []].
    assert (Hfilter : forall rs, filterNotExcluded other rs = filterNotExcluded this rs).
    { induction rs as [|r rs IHrs]; [reflexivity|]. cbn [filterNotExcluded].
      unfold isExcludedRoute. by rewrite <- Hex, IHrs. }
    assert (Hattempt : forall rs,
      match (let* kept := filterNotExcluded this rs in mapManual this kept) with
      | Ok es => exists es',
          (let* kept := filterNotExcluded other rs in mapManual other kept) = Ok es'
          /\ map SitemapEntry.url es' = map SitemapEntry.url es
      | Thrown msg =>
          (let* kept := filterNotExcluded other rs in mapManual other kept) = Thrown msg
      | OutsideModel =>
          (let* kept := filterNotExcluded other rs in mapManual other kept) = OutsideModel
      end).
    { intros rs. rewrite Hfilter.
      destruct (filterNotExcluded this rs) as [kept| |]; cbn [obind]; [|done|done].
      by apply mapManual_sameRouting. }
    cbv zeta.
    destruct (provider w) as [rs|rs|e|e];
      [ | |intros [= <- <-]; by exists []..];
      (specialize (Hattempt rs);
       destruct (let* kept := filterNotExcluded this rs in mapManual this kept)
         as [es|msg|];
       [destruct Hattempt as (es' & -> & Hurls); intros [= <- <-]; by exists es'
       |rewrite Hattempt; intros [= <- <-]; by exists []
       |discriminate]). }
  destruct Hmanual' as (manualEntries' & Hmanual' & Hurls).
  eexists. split.
  - apply generateSitemapEntries_Ok. eexists _, manualEntries'. by split.
  - rewrite !map_app, Hurls. f_equal.
    pose proof (extractRoutesFromTree_included _ _ _ _ Hroutes) as Hinc.
    pose proof (extractRoutesFromTree_included _ _ _ _ Hroutes') as Hinc'.
    rewrite (uniqueRoutes_keepFirst _ Hinc), (uniqueRoutes_keepFirst _ Hinc').
    rewrite keepFirst_map by reflexivity. rewrite !map_map.
    apply map_ext. intros r. rewrite !createSitemapEntry_url.
    by apply buildFullUrl_sameRouting.
Qed.

(** ** The further properties at work on concrete inputs *)

(** X2, at the tree of a home and an about page. *)
Lemma entry_urls_start_with_baseUrl_witness :
  generateSitemapEntries (exampleOptions "2024-01-01") 0 homeAboutTree
    = Ok (homeAboutEntries "2024-01-01", [])
  /\ Forall (fun e => Js.startsWith (SitemapEntry.url e)
                        (Js.strip_trailing_slash "https://example.com") = true)
       (homeAboutEntries "2024-01-01").
Proof.
  assert (H : generateSitemapEntries (exampleOptions "2024-01-01") 0 homeAboutTree
              = Ok (homeAboutEntries "2024-01-01", [])) by reflexivity.
  split; [exact H|].
  exact (entry_urls_start_with_baseUrl (exampleOptions "2024-01-01") 0 homeAboutTree _ _ H).
Defined.

(** X3, at the same tree with [trailingSlash: true]. *)
Lemma entry_urls_end_with_slash_witness :
  Options.trailingSlash (optionsTrailingSlash "https://example.com" "2024-01-01") = Some true
  /\ generateSitemapEntries (optionsTrailingSlash "https://example.com" "2024-01-01") 0
       homeAboutTree
     = Ok ([defaultEntry "2024-01-01" "https://example.com/";
            defaultEntry "2024-01-01" "https://example.com/home/";
            defaultEntry "2024-01-01" "https://example.com/about/"], [])
  /\ Forall (fun e => Js.endsWith (SitemapEntry.url e) "/" = true)
       [defaultEntry "2024-01-01" "https://example.com/";
        defaultEntry "2024-01-01" "https://example.com/home/";
        defaultEntry "2024-01-01" "https://example.com/about/"].
Proof.
  assert (H : generateSitemapEntries (optionsTrailingSlash "https://example.com" "2024-01-01")
                0 homeAboutTree
              = Ok ([defaultEntry "2024-01-01" "https://example.com/";
                     defaultEntry "2024-01-01" "https://example.com/home/";
                     defaultEntry "2024-01-01" "https://example.com/about/"], []))
    by reflexivity.
  split; [reflexivity|]. split; [exact H|].
  exact (entry_urls_end_with_slash (optionsTrailingSlash "https://example.com" "2024-01-01")
           0 homeAboutTree _ _ eq_refl H).
Defined.

(** X4, at [https://example.com] and [https://example.com/]. *)
Lemma baseUrl_final_slash_is_ignored_witness :
  Js.endsWith "https://example.com" "/" = false
  /\ generateSitemapEntries
       (withBaseUrl (exampleOptions "2024-01-01") ("https://example.com" +:+ "/")) 0
       homeAboutTree
     = generateSitemapEntries
         (withBaseUrl (exampleOptions "2024-01-01") "https://example.com") 0 homeAboutTree.
Proof.
  split; [reflexivity|].
  exact (baseUrl_final_slash_is_ignored (exampleOptions "2024-01-01") "https://example.com"
           0 homeAboutTree eq_refl).
Defined.

(** X5, at the tree of a home and an about page. *)
Lemma flattened_paths_start_with_slash_witness :
  extractRoutesFromTree (exampleOptions "2024-01-01") homeAboutTree ""
    = Ok (homeAboutRoutes (exampleOptions "2024-01-01"))
  /\ Forall (fun r => Js.startsWith (RouteInfo.path r) "/" = true)
       (homeAboutRoutes (exampleOptions "2024-01-01")).
Proof.
  assert (H : extractRoutesFromTree (exampleOptions "2024-01-01") homeAboutTree ""
              = Ok (homeAboutRoutes (exampleOptions "2024-01-01"))) by reflexivity.
  split; [exact H|].
  exact (flattened_paths_start_with_slash _ homeAboutTree _ H).
Defined.

(** X6, at a tree with a private section. *)
Lemma flattened_paths_without_double_slash_witness :
  everyRawPath noAbsoluteDoubleSlash adminPrivateTree = true
  /\ extractRoutesFromTree (exampleOptions "2024-01-01") adminPrivateTree ""
     = Ok [descriptor (exampleOptions "2024-01-01") "/";
           descriptor (exampleOptions "2024-01-01") "/home";
           descriptor (exampleOptions "2024-01-01") "/admin";
           descriptor (exampleOptions "2024-01-01") "/private";
           descriptor (exampleOptions "2024-01-01") "/private/secret"]
  /\ Forall (fun r => hasRun "/" (RouteInfo.path r) = false)
       [descriptor (exampleOptions "2024-01-01") "/";
        descriptor (exampleOptions "2024-01-01") "/home";
        descriptor (exampleOptions "2024-01-01") "/admin";
        descriptor (exampleOptions "2024-01-01") "/private";
        descriptor (exampleOptions "2024-01-01") "/private/secret"].
Proof.
  assert (H : extractRoutesFromTree (exampleOptions "2024-01-01") adminPrivateTree ""
              = Ok [descriptor (exampleOptions "2024-01-01") "/";
                    descriptor (exampleOptions "2024-01-01") "/home";
                    descriptor (exampleOptions "2024-01-01") "/admin";
                    descriptor (exampleOptions "2024-01-01") "/private";
                    descriptor (exampleOptions "2024-01-01") "/private/secret"])
    by reflexivity.
  split; [reflexivity|]. split; [exact H|].
  exact (flattened_paths_without_double_slash _ adminPrivateTree _ eq_refl H).
Defined.

(** X7, at the descriptor of [/home]. *)
Lemma flattening_characterised_witness :
  extractRoutesFromTree (exampleOptions "2024-01-01") homeAboutTree ""
    = Ok (homeAboutRoutes (exampleOptions "2024-01-01"))
  /\ (descriptor (exampleOptions "2024-01-01") "/home"
        ∈ homeAboutRoutes (exampleOptions "2024-01-01")
      <-> emits (exampleOptions "2024-01-01") homeAboutTree ""
            (descriptor (exampleOptions "2024-01-01") "/home")).
Proof.
  assert (H : extractRoutesFromTree (exampleOptions "2024-01-01") homeAboutTree ""
              = Ok (homeAboutRoutes (exampleOptions "2024-01-01"))) by reflexivity.
  split; [exact H|].
  exact (flattening_characterised _ homeAboutTree "" _ H
           (descriptor (exampleOptions "2024-01-01") "/home")).
Defined.

(** X8, at two literal patterns. *)
Lemma exclusion_without_star_is_membership_witness :
  forallb (fun p => negb (Js.includes p "*"))
    (Options.excludeRoutes (optionsExcluding ["/admin"; "/private"] "2024-01-01")) = true
  /\ isExcludedRoute (optionsExcluding ["/admin"; "/private"] "2024-01-01") "/private"
     = Ok (bool_decide
             ("/private"
                ∈ Options.excludeRoutes (optionsExcluding ["/admin"; "/private"] "2024-01-01"))).
Proof.
  split; [reflexivity|].
  exact (exclusion_without_star_is_membership
           (optionsExcluding ["/admin"; "/private"] "2024-01-01") "/private" eq_refl).
Defined.

(** X9, at the pattern [/admin*] and the path [/administrator]. *)
Lemma star_suffix_is_prefix_match_witness :
  plainText "/admin" = true
  /\ Js.endsWith "/admin" "/" = false
  /\ exists b,
       matchesExclude "/administrator" ("/admin" +:+ "*") = Ok b
       /\ (b = true <->
           exists rest, "/administrator" = "/admin" +:+ rest /\ noLineBreak rest = true).
Proof.
  split; [reflexivity|]. split; [reflexivity|].
  exact (star_suffix_is_prefix_match "/admin" "/administrator" eq_refl eq_refl).
Defined.

(** X10, at the pattern [/api/*] and the path [/api/v1]. *)
Lemma slash_star_excludes_exactly_the_subtree_witness :
  plainText "/api" = true
  /\ matchesExclude "/api/v1" ("/api" +:+ "/*")
     = Ok (String.eqb "/api/v1" "/api" || Js.startsWith "/api/v1" ("/api" +:+ "/")).
Proof.
  split; [reflexivity|].
  exact (slash_star_excludes_exactly_the_subtree "/api" "/api/v1" eq_refl).
Defined.

(** X11, at a provider of one dated route. *)
Lemma manual_entries_follow_their_routes_witness :
  Options.manualRoutes (optionsWithProvider datedProvider "2024-01-01") = Some datedProvider
  /\ datedProvider 0
     = Resolves [ManualSitemapEntry.mk "/dynamic/page-1" None
                   (Some (LastModDate (ValidDate "2023-01-01T00:00:00.000Z"))) None]
  /\ generateManualRoutes (optionsWithProvider datedProvider "2024-01-01") 0
     = Ok ([{| SitemapEntry.url := "https://example.com/dynamic/page-1";
               SitemapEntry.lastmod := Some "2023-01-01T00:00:00.000Z";
               SitemapEntry.changefreq := Some weekly;
               SitemapEntry.priority := Some (1 # 2)%Q |}], [])
  /\ Forall2 (resolvesManual (optionsWithProvider datedProvider "2024-01-01"))
       (List.filter (notExcluded (optionsWithProvider datedProvider "2024-01-01"))
          [ManualSitemapEntry.mk "/dynamic/page-1" None
             (Some (LastModDate (ValidDate "2023-01-01T00:00:00.000Z"))) None])
       [{| SitemapEntry.url := "https://example.com/dynamic/page-1";
           SitemapEntry.lastmod := Some "2023-01-01T00:00:00.000Z";
           SitemapEntry.changefreq := Some weekly;
           SitemapEntry.priority := Some (1 # 2)%Q |}].
Proof.
  split; [reflexivity|]. split; [reflexivity|]. split; [reflexivity|].
  exact (manual_entries_follow_their_routes
           (optionsWithProvider datedProvider "2024-01-01") 0 datedProvider _ _
           eq_refl (or_intror eq_refl) eq_refl).
Defined.

(** X12, at a provider whose second route has an invalid date. *)
Lemma invalid_date_discards_all_manual_routes_witness :
  Options.manualRoutes (optionsWithProvider invalidDateProvider "2024-01-01")
    = Some invalidDateProvider
  /\ existsb hasInvalidDate
       [ManualSitemapEntry.mk "/products/1" None None None;
        ManualSitemapEntry.mk "/products/2" None (Some (LastModDate InvalidDate)) None]
     = true
  /\ generateSitemapEntries (optionsWithProvider invalidDateProvider "2024-01-01") 0
       homeAboutTree
     = Ok (map (createSitemapEntry (optionsWithProvider invalidDateProvider "2024-01-01"))
             (uniqueRoutes
                (homeAboutRoutes (optionsWithProvider invalidDateProvider "2024-01-01"))),
           [warning "RangeError: Invalid time value"]).
Proof.
  split; [reflexivity|]. split; [reflexivity|].
  exact (proj2
    (invalid_date_discards_all_manual_routes
       (optionsWithProvider invalidDateProvider "2024-01-01") 0 homeAboutTree
       invalidDateProvider
       [ManualSitemapEntry.mk "/products/1" None None None;
        ManualSitemapEntry.mk "/products/2" None (Some (LastModDate InvalidDate)) None]
       [ManualSitemapEntry.mk "/products/1" None None None;
        ManualSitemapEntry.mk "/products/2" None (Some (LastModDate InvalidDate)) None]
       (homeAboutRoutes (optionsWithProvider invalidDateProvider "2024-01-01"))
       eq_refl (or_intror eq_refl) eq_refl eq_refl eq_refl)).
Defined.

(** X13, at a URL with a query string and at one without special
    characters. *)
Lemma escapeXml_leaves_no_markup_witness :
  noneOf isXmlMarkup (escapeXml "https://example.com/p?q=1&r=<2>") = true
  /\ noneOf isXmlSpecial "https://example.com/about" = true
  /\ escapeXml "https://example.com/about" = "https://example.com/about".
Proof.
  split; [exact (proj1 (escapeXml_leaves_no_markup "https://example.com/p?q=1&r=<2>"))|].
  split; [reflexivity|].
  exact (proj2 (escapeXml_leaves_no_markup "https://example.com/about") eq_refl).
Defined.

(** X14, at three entries and [prettyPrint: false]. *)
Lemma compact_document_has_no_line_feed_witness :
  cond (Options.prettyPrint (compactOptions "2024-01-01")) = false
  /\ forallb onOneLine (homeAboutEntries "2024-01-01") = true
  /\ Js.includes (entriesToXml (compactOptions "2024-01-01") (homeAboutEntries "2024-01-01"))
       "010" = false.
Proof.
  split; [reflexivity|]. split; [reflexivity|].
  exact (compact_document_has_no_line_feed (compactOptions "2024-01-01")
           (homeAboutEntries "2024-01-01") eq_refl eq_refl).
Defined.

(** X16, at a tree whose paths are all different. *)
Lemma uniqueRoutes_idempotent_witness :
  extractRoutesFromTree (exampleOptions "2024-01-01") homeAboutTree ""
    = Ok (homeAboutRoutes (exampleOptions "2024-01-01"))
  /\ uniqueRoutes (uniqueRoutes (homeAboutRoutes (exampleOptions "2024-01-01")))
     = uniqueRoutes (homeAboutRoutes (exampleOptions "2024-01-01"))
  /\ NoDup (map RouteInfo.path (homeAboutRoutes (exampleOptions "2024-01-01")))
  /\ uniqueRoutes (homeAboutRoutes (exampleOptions "2024-01-01"))
     = homeAboutRoutes (exampleOptions "2024-01-01").
Proof.
  assert (H : extractRoutesFromTree (exampleOptions "2024-01-01") homeAboutTree ""
              = Ok (homeAboutRoutes (exampleOptions "2024-01-01"))) by reflexivity.
  assert (Hnodup : NoDup (map RouteInfo.path (homeAboutRoutes (exampleOptions "2024-01-01")))).
  { apply (bool_decide_unpack _). vm_compute. exact I. }
  split; [exact H|].
  split; [exact (proj1 (uniqueRoutes_idempotent _ homeAboutTree "" _ H))|].
  split; [exact Hnodup|].
  exact (proj2 (uniqueRoutes_idempotent _ homeAboutTree "" _ H) Hnodup).
Defined.

(** X17, at a root with an [index] child before [about]. *)
Lemma index_leaf_adds_no_entry_witness :
  isDynamicRoute (default "" (Some "/")) = false
  /\ Js.truthy (buildFullPath "" (default "" (Some "/"))) = true
  /\ isIndexPath (Some "index") = true
  /\ generateSitemapEntries (exampleOptions "2024-01-01") 0
       (Route (Some "/") ([] ++ Route (Some "index") [] :: [Route (Some "about") []]))
     = generateSitemapEntries (exampleOptions "2024-01-01") 0
         (Route (Some "/") ([] ++ [Route (Some "about") []])).
Proof.
  split; [reflexivity|]. split; [reflexivity|]. split; [reflexivity|].
  exact (index_leaf_adds_no_entry (exampleOptions "2024-01-01") 0 (Some "/") (Some "index")
           [] [Route (Some "about") []] eq_refl eq_refl eq_refl).
Defined.

(** X19, at a custom path [dist/routeTree.gen.ts] when only the [.js] file
    exists. *)
Lemma custom_path_extension_is_ignored_witness :
  "dist/routeTree.gen" <> ""
  /\ Host.existsSync compiledHost (Host.resolve compiledHost ("dist/routeTree.gen" +:+ ".js"))
     = true
  /\ findRouteTreeFile compiledHost (Some ("dist/routeTree.gen" +:+ ".ts"))
     = Some (Host.resolve compiledHost ("dist/routeTree.gen" +:+ ".js")).
Proof.
  assert (H : "dist/routeTree.gen" <> "") by discriminate.
  split; [exact H|]. split; [reflexivity|].
  exact (proj2 (custom_path_extension_is_ignored compiledHost "dist/routeTree.gen") H eq_refl).
Defined.

(** X20, at the default output path. *)
Lemma outputDirectory_is_the_directory_part_witness :
  Js.includes "sitemap.xml" "/" = false
  /\ outputDirectory ("public" +:+ "/" +:+ "sitemap.xml") = "public"
  /\ outputDirectory "sitemap.xml" = "".
Proof.
  split; [reflexivity|].
  exact (outputDirectory_is_the_directory_part "public" "sitemap.xml" eq_refl).
Defined.

(** X21, at a project without a [public] directory. *)
Lemma buildEnd_writes_the_generated_document_witness :
  skipped exampleHost (examplePluginOptions "https://example.com" false) = false
  /\ constructor (PluginOptions.sitemapOptions
                    (examplePluginOptions "https://example.com" false)) "2024-06-01"
     = Ok (compactOptions "2024-01-01")
  /\ generateXmlSitemap (compactOptions "2024-01-01") 0 homeAboutTree
     = Ok (entriesToXml (compactOptions "2024-01-01") (homeAboutEntries "2024-01-01"), [])
  /\ fileEffects
       (fst (buildEnd exampleHost (examplePluginOptions "https://example.com" false)
               "2024-06-01" 0 1 (Some homeAboutTree)))
     = [MkdirSync "/app/public";
        WriteFileSync "/app/public/sitemap.xml"
          (entriesToXml (compactOptions "2024-01-01") (homeAboutEntries "2024-01-01"))].
Proof.
  split; [reflexivity|]. split; [reflexivity|]. split; [reflexivity|].
  exact (proj1
    (buildEnd_writes_the_generated_document exampleHost
       (examplePluginOptions "https://example.com" false) "2024-06-01" 0 1 homeAboutTree
       (compactOptions "2024-01-01")
       (entriesToXml (compactOptions "2024-01-01") (homeAboutEntries "2024-01-01")) []
       eq_refl eq_refl eq_refl)).
Defined.

(** X22, at a development build with [onBuildOnly: true], and at options
    with an empty [baseUrl]. *)
Lemma buildEnd_touches_no_file_when_skipped_or_failing_witness :
  skipped exampleHost (examplePluginOptions "https://example.com" true) = true
  /\ fileEffects
       (fst (buildEnd exampleHost (examplePluginOptions "https://example.com" true)
               "2024-06-01" 0 1 None)) = []
  /\ snd (buildEnd exampleHost (examplePluginOptions "" false) "2024-06-01" 0 1 None)
     = Thrown "baseUrl is required and cannot be empty"
  /\ fileEffects
       (fst (buildEnd exampleHost (examplePluginOptions "" false) "2024-06-01" 0 1 None)) = [].
Proof.
  split; [reflexivity|].
  split; [exact (proj1 (proj1
    (buildEnd_touches_no_file_when_skipped_or_failing exampleHost
       (examplePluginOptions "https://example.com" true) "2024-06-01" 0 1 None) eq_refl))|].
  split; [reflexivity|].
  exact (proj1 (proj2
    (buildEnd_touches_no_file_when_skipped_or_failing exampleHost
       (examplePluginOptions "" false) "2024-06-01" 0 1 None)
    "baseUrl is required and cannot be empty" eq_refl)).
Defined.

(** X23, at the pattern [/admin] added to no pattern. *)
Lemma more_patterns_only_remove_entries_witness :
  extractRoutesFromTree (exampleOptions "2024-01-01") adminPrivateTree ""
    = Ok [descriptor (exampleOptions "2024-01-01") "/";
          descriptor (exampleOptions "2024-01-01") "/home";
          descriptor (exampleOptions "2024-01-01") "/admin";
          descriptor (exampleOptions "2024-01-01") "/private";
          descriptor (exampleOptions "2024-01-01") "/private/secret"]
  /\ map (createSitemapEntry
            (withExcludeRoutes (exampleOptions "2024-01-01")
               (Options.excludeRoutes (exampleOptions "2024-01-01") ++ ["/admin"])))
       (uniqueRoutes
          [descriptor (exampleOptions "2024-01-01") "/";
           descriptor (exampleOptions "2024-01-01") "/home";
           descriptor (exampleOptions "2024-01-01") "/private";
           descriptor (exampleOptions "2024-01-01") "/private/secret"])
     = map (createSitemapEntry (exampleOptions "2024-01-01"))
         (List.filter (fun r => unmatched ["/admin"] (RouteInfo.path r))
            (uniqueRoutes
               [descriptor (exampleOptions "2024-01-01") "/";
                descriptor (exampleOptions "2024-01-01") "/home";
                descriptor (exampleOptions "2024-01-01") "/admin";
                descriptor (exampleOptions "2024-01-01") "/private";
                descriptor (exampleOptions "2024-01-01") "/private/secret"])).
Proof.
  split; [reflexivity|].
  exact (more_patterns_only_remove_entries (exampleOptions "2024-01-01") ["/admin"]
           adminPrivateTree _
           [descriptor (exampleOptions "2024-01-01") "/";
            descriptor (exampleOptions "2024-01-01") "/home";
            descriptor (exampleOptions "2024-01-01") "/private";
            descriptor (exampleOptions "2024-01-01") "/private/secret"]
           eq_refl eq_refl).
Defined.

(** X24, at two generators that differ in [lastmod] and in the options of
    [/about]. *)
Lemma field_options_do_not_change_the_urls_witness :
  sameRouting (exampleOptions "2024-01-01") (optionsWithOverride aboutOverride "2025-05-05")
  /\ generateSitemapEntries (exampleOptions "2024-01-01") 0 homeAboutTree
     = Ok (homeAboutEntries "2024-01-01", [])
  /\ exists entries',
       generateSitemapEntries (optionsWithOverride aboutOverride "2025-05-05") 0 homeAboutTree
       = Ok (entries', [])
       /\ map SitemapEntry.url entries' = map SitemapEntry.url (homeAboutEntries "2024-01-01").
Proof.
  assert (H : sameRouting (exampleOptions "2024-01-01")
                (optionsWithOverride aboutOverride "2025-05-05")).
  { split; [reflexivity|]. split; [reflexivity|]. split; reflexivity. }
  split; [exact H|]. split; [reflexivity|].
  exact (field_options_do_not_change_the_urls (exampleOptions "2024-01-01")
           (optionsWithOverride aboutOverride "2025-05-05") 0 homeAboutTree
           (homeAboutEntries "2024-01-01") [] H eq_refl).
Defined.
